(** * Smart-ToDo: authentication gate, auth routes and task routes

    A shallow embedding of the Express application of the repository
    (server.js, middleware/auth.js, middleware/errorHandler.js,
    models/Task.js, models/User.js, routes/auth.js, routes/tasks.js) and
    the proofs of its specified properties.

    The platform the application runs on (the string built-ins of
    JavaScript, express and express-validator, mongoose/bson,
    jsonwebtoken, bcryptjs) is not part of the repository: what the
    handlers need of it is gathered in the class [Packages]; the general
    theorems hold for every instance of it, and the runs on concrete
    requests use the executable instance of [Reference].  A [string] of
    this file stands for a JavaScript string; it is compared, prefixed
    and concatenated here, while trimming, case folding and measuring are
    left to the platform. *)

From Stdlib Require Import String Ascii List ZArith Bool Lia PeanoNat.
From Stdlib Require Import Sorted Permutation DecimalString.
Import ListNotations.
Open Scope string_scope.
Open Scope Z_scope.

Set Implicit Arguments.
Set Warnings "-register-all".

(* ================================================================== *)
(** ** JavaScript values that reach a request body or a response *)

Inductive json : Type :=
| JNull
| JBool (b : bool)
| JNum (z : Z)
| JStr (s : string)
| JArr (items : list json)
| JObj (fields : list (string * json))
| JPage (html : string).
(** [JPage] is not JSON: it is the page Express's final handler writes
    when no error middleware answered. *)

(** [res.status(code).json(body)] *)
Record response : Type := mkResponse { status : Z; body : json }.

(** Field access [o.k]; [None] is [undefined]. *)
Fixpoint assoc (k : string) (fs : list (string * json)) : option json :=
  match fs with
  | [] => None
  | (k', v) :: fs' => if String.eqb k k' then Some v else assoc k fs'
  end.

Definition field (k : string) (j : json) : option json :=
  match j with
  | JObj fs => assoc k fs
  | _ => None
  end.

Definition keys (j : json) : list string :=
  match j with
  | JObj fs => map fst fs
  | _ => []
  end.

(** Does the key [k] occur anywhere inside the value? *)
Fixpoint has_key (k : string) (j : json) : bool :=
  match j with
  | JArr items => existsb (has_key k) items
  | JObj fs => existsb (fun kv => String.eqb k (fst kv) || has_key k (snd kv)) fs
  | _ => false
  end.

(** [typeof v] *)
Definition typeOf (v : json) : string :=
  match v with
  | JStr _ => "string"
  | JNum _ => "number"
  | JBool _ => "boolean"
  | _ => "object"
  end.

(* ================================================================== *)
(** ** Strings, the way the handlers use them *)

Module Str.

(** [s.startsWith(p)] *)
Definition startsWith (p s : string) : bool := String.prefix p s.

(** [s.substring(n)] *)
Fixpoint substring_from (n : nat) (s : string) : string :=
  match n, s with
  | O, _ => s
  | S n', String _ s' => substring_from n' s'
  | S _, EmptyString => EmptyString
  end.

Definition toUpperChar (c : ascii) : ascii :=
  let n := nat_of_ascii c in
  if ((97 <=? n)%nat && (n <=? 122)%nat) then ascii_of_nat (n - 32) else c.

(** [field.charAt(0).toUpperCase() + field.slice(1)], on the name of an
    indexed path of the schemas ([email], [username], [_id]). *)
Definition capitalize (s : string) : string :=
  match s with
  | EmptyString => EmptyString
  | String c s' => String (toUpperChar c) s'
  end.

(** [xs.join(sep)] *)
Fixpoint join (sep : string) (xs : list string) : string :=
  match xs with
  | [] => ""
  | [x] => x
  | x :: xs' => x ++ sep ++ join sep xs'
  end.

End Str.

(** [a || b] on strings: the empty string is falsy. *)
Definition str_or (a : option string) (b : string) : string :=
  match a with
  | Some s => if String.eqb s "" then b else s
  | None => b
  end.

(* ================================================================== *)
(** ** Exceptions and the [try]/[catch] discipline *)

(** A thrown JavaScript error, with the properties the handlers read.
    [err_keyValue] is [None] when the error has no such property. *)
Record JsError : Type := mkError {
  err_name : string;
  err_message : string;
  err_statusCode : option Z;
  err_code : option Z;
  err_keyValue : option (list (string * string));
  err_errors : list string;          (* the messages of [err.errors] *)
  err_stack : string
}.

Definition plainError (name message : string) : JsError :=
  {| err_name := name; err_message := message; err_statusCode := None;
     err_code := None; err_keyValue := None; err_errors := [];
     err_stack := name ++ ": " ++ message |}.

(** A value between double quotes, as mongoose prints it. *)
Definition quoted (s : string) : string :=
  String (ascii_of_nat 34) (s ++ String (ascii_of_nat 34) "").

Definition CastError (value path model : string) : JsError :=
  plainError "CastError"
    ("Cast to ObjectId failed for value " ++ quoted value ++ " at path "
       ++ quoted path ++ " for model " ++ quoted model).

Definition ValidationError (model : string) (msgs : list string) : JsError :=
  {| err_name := "ValidationError";
     err_message := model ++ " validation failed: " ++ Str.join ", " msgs;
     err_statusCode := None; err_code := None; err_keyValue := None;
     err_errors := msgs;
     err_stack := "ValidationError" |}.

Definition DuplicateKeyError (key value : string) : JsError :=
  {| err_name := "MongoServerError";
     err_message := "E11000 duplicate key error";
     err_statusCode := None; err_code := Some 11000;
     err_keyValue := Some [(key, value)]; err_errors := [];
     err_stack := "MongoServerError" |}.

Definition TypeError (message : string) : JsError :=
  plainError "TypeError" message.

(** The outcome of an awaited call: a value, or a thrown error. *)
Inductive result (A : Type) : Type :=
| Ok (a : A)
| Throw (e : JsError).
Arguments Ok {A} a.
Arguments Throw {A} e.

Definition bind {A B} (r : result A) (k : A -> result B) : result B :=
  match r with
  | Ok a => k a
  | Throw e => Throw e
  end.

Notation "'let!' x ':=' r 'in' k" := (bind r (fun x => k))
  (at level 10, x pattern, r at level 100, k at level 200).

(** [try { body } catch (e) { handler(e) }] *)
Definition try_catch {A} (r : result A) (handler : JsError -> A) : A :=
  match r with
  | Ok a => a
  | Throw e => handler e
  end.

(* ================================================================== *)
(** ** The process environment *)

Record Env : Type := mkEnv {
  env_JWT_SECRET : option string;
  env_NODE_ENV : option string
}.

(* ================================================================== *)
(** ** Data model *)

(** A store identity.  Its canonical form is the hexadecimal string that
    [JSON.stringify] and the token payload carry. *)
Record ObjectId : Type := OID { toHexString : string }.

Definition oid_eqb (a b : ObjectId) : bool :=
  String.eqb (toHexString a) (toHexString b).

(** models/User.js.  [password] holds the bcrypt digest; it is [None] on a
    document read without [select('+password')] ([select: false]). *)
Record User : Type := mkUser {
  user_id : ObjectId;
  username : string;
  email : string;
  password : option string;
  user_createdAt : Z;
  user_updatedAt : Z
}.

(** models/Task.js *)
Record Task : Type := mkTask {
  task_id : ObjectId;
  title : string;
  description : string;
  completed : bool;
  task_user : ObjectId;
  createdAt : Z;
  updatedAt : Z
}.

(** The two collections. *)
Record Store : Type := mkStore {
  users : list User;
  tasks : list Task
}.

(** What a request draws from outside: [Date.now()] in milliseconds, the
    identity generated for a new document, the salt of [bcrypt.genSalt],
    and the store's choice among several documents that match one
    [findOne] filter. *)
Record World : Type := mkWorld {
  now : Z;
  newId : ObjectId;
  salt : string;
  choice : nat
}.

(** [findOne] over the documents that match: the store returns one of
    them, which one is its own affair; none when there is none. *)
Definition pickOne {A} (w : World) (matching : list A) : option A :=
  nth_error matching (choice w mod length matching)%nat.

(** The payload of a session token and its compact form. *)
Record JwtPayload : Type := mkPayload {
  jwt_userId : string;
  jwt_iat : Z;
  jwt_exp : option Z
}.

Record Jwt : Type := mkJwt {
  jwt_payload : JwtPayload;
  jwt_signature : string
}.

(** One entry of express-validator's [validationResult]. *)
Record FieldError : Type := mkFieldError {
  fe_path : string;
  fe_msg : string
}.

(* ================================================================== *)
(** ** The platform the application is written against *)

Class Packages : Type := {
  (** JavaScript: [String.prototype.trim] (validator's [trim] removes
      the same white space), [toLowerCase], and [length]. *)
  trim : string -> string;
  toLowerCase : string -> string;
  strLength : string -> Z;
  trim_idempotent : forall s, trim (trim s) = trim s;
  trim_empty : trim "" = "";
  strLength_empty : strLength "" = 0;
  (** bson: the cast of a path parameter or payload string to an
      identity; [None] is the cast failure behind mongoose's CastError. *)
  castObjectId : string -> option ObjectId;
  (** jsonwebtoken: the HMAC of the signing input under a secret, and the
      compact serialisation with its parser. *)
  hmacSign : string -> JwtPayload -> string;
  jwtEncode : Jwt -> string;
  jwtDecode : string -> option Jwt;
  (** bcryptjs: [hash(plain, salt)] and [compare(plain, digest)] on
      strings. *)
  bcryptHash : string -> string -> string;
  bcryptCompare : string -> string -> bool;
  (** express-validator: the count [isLength] compares with its bounds,
      [isEmail], [normalizeEmail], the text a validator sees of a value
      that is not a string, and the rendering of [errors.array()]. *)
  charCount : string -> Z;
  charCount_empty : charCount "" = 0;
  isEmail : string -> bool;
  normalizeEmail : string -> string;
  valueToString : json -> string;
  errorsArray : list FieldError -> json;
  (** The regular-expression engine on the address pattern of
      models/User.js. *)
  matchesEmailPattern : string -> bool;
  (** express: the page of its final handler for an error no middleware
      answered. *)
  finalHandlerPage : Env -> JsError -> string
}.

(* ================================================================== *)
(** ** middleware/errorHandler.js *)

Record ErrorView : Type := mkView {
  view_message : string;
  view_statusCode : option Z
}.

(** The middleware.  It throws, instead of answering, when the error has
    code 11000 and no first key under [keyValue]. *)
Definition errorHandler (env : Env) (err : JsError) : result response :=
  (* let error = { ...err }; error.message = err.message; *)
  let error := {| view_message := err_message err;
                  view_statusCode := err_statusCode err |} in
  let error :=
    if String.eqb (err_name err) "CastError"
    then {| view_message := "Resource not found"; view_statusCode := Some 404 |}
    else error in
  let! error :=
    if match err_code err with Some c => c =? 11000 | None => false end
    then
      (* const field = Object.keys(err.keyValue)[0]; field.charAt(0) ... *)
      match err_keyValue err with
      | None =>
          Throw (TypeError "Cannot convert undefined or null to object")
      | Some [] =>
          Throw (TypeError "Cannot read properties of undefined (reading 'charAt')")
      | Some ((field, _) :: _) =>
          Ok {| view_message := Str.capitalize field ++ " already exists";
                view_statusCode := Some 400 |}
      end
    else Ok error in
  let error :=
    if String.eqb (err_name err) "ValidationError"
    then {| view_message := Str.join ", " (err_errors err);
            view_statusCode := Some 400 |}
    else error in
  let error :=
    if String.eqb (err_name err) "JsonWebTokenError"
    then {| view_message := "Invalid token"; view_statusCode := Some 401 |}
    else error in
  let error :=
    if String.eqb (err_name err) "TokenExpiredError"
    then {| view_message := "Token expired"; view_statusCode := Some 401 |}
    else error in
  Ok {| status := match view_statusCode error with
                  | Some c => if c =? 0 then 500 else c
                  | None => 500
                  end;
        body := JObj ([("success", JBool false);
                       ("error", JStr (str_or (Some (view_message error))
                                              "Server Error"))]
                      ++ match env_NODE_ENV env with
                         | Some mode =>
                             if String.eqb mode "development"
                             then [("stack", JStr (err_stack err))]
                             else []
                         | None => []
                         end) |}.

(** Express's final handler: the status the error carries when it is an
    error status, 500 otherwise, and a page instead of JSON. *)
Definition finalHandler `{Packages} (env : Env) (err : JsError) : response :=
  {| status := match err_statusCode err with
               | Some c => if (400 <=? c) && (c <? 600) then c else 500
               | None => 500
               end;
     body := JPage (finalHandlerPage env err) |}.

(** [next(error)]: [app.use(errorHandler)] is the only error middleware,
    so what it throws itself goes to the final handler. *)
Definition respondToError `{Packages} (env : Env) (err : JsError) : response :=
  match errorHandler env err with
  | Ok r => r
  | Throw thrown => finalHandler env thrown
  end.

(* ================================================================== *)
(** ** jsonwebtoken *)

Module jwt.
Section WithPackages.
Context `{Packages}.

(** ['7d'] in seconds *)
Definition sevenDays : Z := 7 * 24 * 60 * 60.

(** [Math.floor(Date.now() / 1000)] *)
Definition timestamp (nowMs : Z) : Z := nowMs / 1000.

(** [jwt.sign({ userId }, secret, { expiresIn: '7d' })] *)
Definition sign (userId secret : string) (nowMs : Z) : string :=
  let iat := timestamp nowMs in
  let payload := {| jwt_userId := userId; jwt_iat := iat;
                    jwt_exp := Some (iat + sevenDays) |} in
  jwtEncode {| jwt_payload := payload;
               jwt_signature := hmacSign secret payload |}.

Definition JsonWebTokenError (msg : string) : JsError :=
  plainError "JsonWebTokenError" msg.

Definition TokenExpiredError : JsError :=
  plainError "TokenExpiredError" "jwt expired".

(** [jwt.verify(token, secret)]: structure, then signature, then
    expiry ([clockTimestamp >= payload.exp] is expired). *)
Definition verify (token secret : string) (nowMs : Z) : result JwtPayload :=
  if String.eqb token "" then Throw (JsonWebTokenError "jwt must be provided")
  else
    match jwtDecode token with
    | None => Throw (JsonWebTokenError "jwt malformed")
    | Some t =>
        if negb (String.eqb (jwt_signature t)
                            (hmacSign secret (jwt_payload t)))
        then Throw (JsonWebTokenError "invalid signature")
        else
          match jwt_exp (jwt_payload t) with
          | Some e =>
              if timestamp nowMs >=? e then Throw TokenExpiredError
              else Ok (jwt_payload t)
          | None => Ok (jwt_payload t)
          end
    end.

End WithPackages.
End jwt.

(* ================================================================== *)
(** ** models/User.js *)

Module UserModel.
Section WithPackages.
Context `{Packages}.

(** A default read leaves the [select: false] path out. *)
Definition deselect (u : User) : User :=
  {| user_id := user_id u; username := username u; email := email u;
     password := None;
     user_createdAt := user_createdAt u;
     user_updatedAt := user_updatedAt u |}.

(** [User.findById(id)]; [_id] is unique in a collection. *)
Definition findById (st : Store) (id : string) : result (option User) :=
  match castObjectId id with
  | None => Throw (CastError id "_id" "User")
  | Some oid =>
      Ok (option_map deselect
            (find (fun u => oid_eqb (user_id u) oid) (users st)))
  end.

(** The filter [{ email }] on one document; the query casts the value
    through the path's setters ([lowercase], [trim]). *)
Definition emailIs (email' : string) (u : User) : bool :=
  String.eqb (email u) (toLowerCase (trim email')).

(** The filter [{ username }], cast through [trim]. *)
Definition usernameIs (username' : string) (u : User) : bool :=
  String.eqb (username u) (trim username').

(** [User.findOne({ $or: [{ email }, { username }] })] *)
Definition findOneByEmailOrUsername (st : Store) (w : World)
    (email' username' : string) : option User :=
  option_map deselect
    (pickOne w (filter (fun u => emailIs email' u || usernameIs username' u)
                       (users st))).

(** [User.findOne({ email }).select('+password')] *)
Definition findOneByEmailWithPassword (st : Store) (w : World)
    (email' : string) : option User :=
  pickOne w (filter (emailIs email') (users st)).

(** [new User({ username, email, password })]: the schema's setters
    ([trim], [lowercase]) run on assignment. *)
Definition create (w : World) (username' email' password' : string) : User :=
  {| user_id := newId w;
     username := trim username';
     email := toLowerCase (trim email');
     password := Some password';
     user_createdAt := now w;
     user_updatedAt := now w |}.

(** The schema's validators, one message per failing path. *)
Definition validationMessages (u : User) : list string :=
  (if String.eqb (username u) "" then ["Username is required"]
   else if strLength (username u) <? 3
        then ["Username must be at least 3 characters long"]
   else if strLength (username u) >? 30
        then ["Username cannot exceed 30 characters"]
   else [])
  ++ (if String.eqb (email u) "" then ["Email is required"]
      else if negb (matchesEmailPattern (email u))
           then ["Please provide a valid email address"]
      else [])
  ++ (match password u with
      | None => ["Password is required"]
      | Some p =>
          if String.eqb p "" then ["Password is required"]
          else if strLength p <? 6
               then ["Password must be at least 6 characters long"]
          else []
      end).

(** The [pre('save')] hook: a new document's password is replaced by
    its salted digest. *)
Definition preSave (w : World) (u : User) : User :=
  {| user_id := user_id u; username := username u; email := email u;
     password := option_map (fun p => bcryptHash p (salt w)) (password u);
     user_createdAt := user_createdAt u;
     user_updatedAt := user_updatedAt u |}.

(** [user.save()] of a new document: validation, the hook, then the
    insert under the two unique indexes. *)
Definition save (w : World) (st : Store) (u : User) : result (User * Store) :=
  match validationMessages u with
  | (_ :: _) as msgs => Throw (ValidationError "User" msgs)
  | [] =>
      let u' := preSave w u in
      if existsb (fun v => String.eqb (username v) (username u')) (users st)
      then Throw (DuplicateKeyError "username" (username u'))
      else if existsb (fun v => String.eqb (email v) (email u')) (users st)
      then Throw (DuplicateKeyError "email" (email u'))
      else Ok (u', {| users := users st ++ [u']; tasks := tasks st |})
  end.

(** [user.comparePassword(candidate)], that is
    [bcrypt.compare(candidate, this.password)]: bcryptjs refuses
    arguments that are not two strings. *)
Definition comparePassword (u : User) (candidate : json) : result bool :=
  match candidate, password u with
  | JStr plain, Some digest => Ok (bcryptCompare plain digest)
  | _, Some _ =>
      Throw (plainError "Error"
               ("Illegal arguments: " ++ typeOf candidate ++ ", string"))
  | _, None =>
      Throw (plainError "Error"
               ("Illegal arguments: " ++ typeOf candidate ++ ", undefined"))
  end.

End WithPackages.
End UserModel.

(* ================================================================== *)
(** ** models/Task.js *)

Module TaskModel.
Section WithPackages.
Context `{Packages}.

(** The filter [{ _id: id, user: userId }] on one document. *)
Definition matches (id owner : ObjectId) (t : Task) : bool :=
  oid_eqb (task_id t) id && oid_eqb (task_user t) owner.

(** Insertion into a list ordered by [createdAt], newest first. *)
Fixpoint insertNewestFirst (t : Task) (ts : list Task) : list Task :=
  match ts with
  | [] => [t]
  | t' :: ts' =>
      if createdAt t' <? createdAt t then t :: ts
      else t' :: insertNewestFirst t ts'
  end.

(** [.sort({ createdAt: -1 })] *)
Definition sortNewestFirst (ts : list Task) : list Task :=
  fold_right insertNewestFirst [] ts.

(** [Task.find({ user: userId }).sort({ createdAt: -1 })] *)
Definition findByUser (st : Store) (userId : string) : result (list Task) :=
  match castObjectId userId with
  | None => Throw (CastError userId "user" "Task")
  | Some owner =>
      Ok (sortNewestFirst
            (filter (fun t => oid_eqb (task_user t) owner) (tasks st)))
  end.

(** [Task.findOne({ _id: id, user: userId })] *)
Definition findOne (st : Store) (id userId : string) : result (option Task) :=
  match castObjectId id with
  | None => Throw (CastError id "_id" "Task")
  | Some tid =>
      match castObjectId userId with
      | None => Throw (CastError userId "user" "Task")
      | Some owner => Ok (find (matches tid owner) (tasks st))
      end
  end.

(** Removal of the first document a filter selects. *)
Fixpoint removeFirst (p : Task -> bool) (ts : list Task) : list Task :=
  match ts with
  | [] => []
  | t :: ts' => if p t then ts' else t :: removeFirst p ts'
  end.

(** [Task.findOneAndDelete({ _id: id, user: userId })] *)
Definition findOneAndDelete (st : Store) (id userId : string)
  : result (option Task * Store) :=
  match castObjectId id with
  | None => Throw (CastError id "_id" "Task")
  | Some tid =>
      match castObjectId userId with
      | None => Throw (CastError userId "user" "Task")
      | Some owner =>
          Ok (find (matches tid owner) (tasks st),
              {| users := users st;
                 tasks := removeFirst (matches tid owner) (tasks st) |})
      end
  end.

(** The schema's validators on a task; [maxlength] compares the
    [length] of the string. *)
Definition validationMessages (t : Task) : list string :=
  (if String.eqb (title t) "" then ["Task title is required"]
   else if strLength (title t) >? 200
        then ["Task title cannot exceed 200 characters"]
   else [])
  ++ (if strLength (description t) >? 1000
      then ["Task description cannot exceed 1000 characters"]
      else []).

(** [new Task({ title, description, completed, user })] followed by
    [task.save()]: setters, defaults, validation, timestamps, insert. *)
Definition createAndSave (w : World) (st : Store)
    (title' description' : string) (completed' : bool) (userId : string)
  : result (Task * Store) :=
  match castObjectId userId with
  | None =>
      Throw (ValidationError "Task"
               ["Cast to ObjectId failed for value " ++ quoted userId
                  ++ " at path " ++ quoted "user"])
  | Some owner =>
      let t := {| task_id := newId w;
                  title := trim title';
                  description := trim description';
                  completed := completed';
                  task_user := owner;
                  createdAt := now w;
                  updatedAt := now w |} in
      match validationMessages t with
      | (_ :: _) as msgs => Throw (ValidationError "Task" msgs)
      | [] => Ok (t, {| users := users st; tasks := tasks st ++ [t] |})
      end
  end.

Definition task_eqb (a b : Task) : bool :=
  oid_eqb (task_id a) (task_id b)
  && String.eqb (title a) (title b)
  && String.eqb (description a) (description b)
  && Bool.eqb (completed a) (completed b)
  && oid_eqb (task_user a) (task_user b)
  && (createdAt a =? createdAt b)
  && (updatedAt a =? updatedAt b).

(** The write of [save()]: the stored document with the same [_id] is
    replaced. *)
Fixpoint replaceById (t : Task) (ts : list Task) : list Task :=
  match ts with
  | [] => []
  | t' :: ts' =>
      if oid_eqb (task_id t') (task_id t) then t :: ts'
      else t' :: replaceById t ts'
  end.

(** Assignments to a loaded document go through the setters. *)
Definition setTitle (t : Task) (v : string) : Task :=
  {| task_id := task_id t; title := trim v;
     description := description t; completed := completed t;
     task_user := task_user t; createdAt := createdAt t;
     updatedAt := updatedAt t |}.

Definition setDescription (t : Task) (v : string) : Task :=
  {| task_id := task_id t; title := title t;
     description := trim v; completed := completed t;
     task_user := task_user t; createdAt := createdAt t;
     updatedAt := updatedAt t |}.

Definition setCompleted (t : Task) (v : bool) : Task :=
  {| task_id := task_id t; title := title t;
     description := description t; completed := v;
     task_user := task_user t; createdAt := createdAt t;
     updatedAt := updatedAt t |}.

(** [task.save()] on a document read from the store as [old] and
    assigned into [t]: the validators run on every path of the loaded
    document, modified or not; then nothing is written when no path was
    modified, otherwise [updatedAt] is set and the document written. *)
Definition save (w : World) (st : Store) (old t : Task)
  : result (Task * Store) :=
  match validationMessages t with
  | (_ :: _) as msgs => Throw (ValidationError "Task" msgs)
  | [] =>
      if task_eqb old t then Ok (t, st)
      else
        let t' := {| task_id := task_id t; title := title t;
                     description := description t;
                     completed := completed t;
                     task_user := task_user t;
                     createdAt := createdAt t;
                     updatedAt := now w |} in
        Ok (t', {| users := users st;
                   tasks := replaceById t' (tasks st) |})
  end.

(** [JSON.stringify] of a task document; dates by their epoch
    milliseconds, the owner by [user]. *)
Definition toJSON (t : Task) (user : json) : json :=
  JObj [("_id", JStr (toHexString (task_id t)));
        ("title", JStr (title t));
        ("description", JStr (description t));
        ("completed", JBool (completed t));
        ("user", user);
        ("createdAt", JNum (createdAt t));
        ("updatedAt", JNum (updatedAt t));
        ("__v", JNum 0)].

Definition ownerRef (t : Task) : json := JStr (toHexString (task_user t)).

(** [task.populate('user', 'username email')] *)
Definition populateUser (st : Store) (t : Task) : json :=
  match find (fun u => oid_eqb (user_id u) (task_user t)) (users st) with
  | Some u => JObj [("_id", JStr (toHexString (user_id u)));
                    ("username", JStr (username u));
                    ("email", JStr (email u))]
  | None => JNull
  end.

End WithPackages.
End TaskModel.

(* ================================================================== *)
(** ** middleware/auth.js *)

(** [req.user] *)
Record ReqUser : Type := mkReqUser {
  userId : string;
  user : User
}.

(** How a middleware ends: a response sent, [next()], or [next(error)]. *)
Inductive GateOutcome : Type :=
| Rejected (r : response)
| Passed (u : ReqUser)
| Failed (e : JsError).

Module Middleware.
Section WithPackages.
Context `{Packages}.

Definition JWT_SECRET (env : Env) : string :=
  str_or (env_JWT_SECRET env) "your-secret-key-change-in-production".

Definition noToken : response :=
  {| status := 401;
     body := JObj [("error", JStr "Unauthorized");
                   ("message", JStr "No token provided. Please include a Bearer token in the Authorization header.")] |}.

Definition invalidToken : response :=
  {| status := 401;
     body := JObj [("error", JStr "Unauthorized");
                   ("message", JStr "Invalid or expired token")] |}.

Definition userGone : response :=
  {| status := 401;
     body := JObj [("error", JStr "Unauthorized");
                   ("message", JStr "User no longer exists")] |}.

Definition authenticate (env : Env) (st : Store) (w : World)
    (authorization : option string) : GateOutcome :=
  match authorization with
  | None => Rejected noToken
  | Some authHeader =>
      (* !authHeader || !authHeader.startsWith('Bearer ') *)
      if String.eqb authHeader "" || negb (Str.startsWith "Bearer " authHeader)
      then Rejected noToken
      else
        let token := Str.substring_from 7 authHeader in
        match jwt.verify token (JWT_SECRET env) (now w) with
        | Throw _ => Rejected invalidToken
        | Ok decoded =>
            match UserModel.findById st (jwt_userId decoded) with
            | Throw error => Failed error
            | Ok None => Rejected userGone
            | Ok (Some u) =>
                Passed {| userId := jwt_userId decoded; user := u |}
            end
        end
  end.

End WithPackages.
End Middleware.

(* ================================================================== *)
(** ** routes/auth.js *)

Record RegisterBody : Type := mkRegisterBody {
  rb_username : string;
  rb_email : string;
  rb_password : string
}.

(** The body of [/login].  The chain on [password] is [notEmpty()]
    alone: it has no sanitizer, so the field reaches the handler as the
    JSON value that was sent. *)
Record LoginBody : Type := mkLoginBody {
  lb_email : string;
  lb_password : json
}.

Definition validationFailed `{Packages} (errors : list FieldError) : response :=
  {| status := 400;
     body := JObj [("error", JStr "Validation failed");
                   ("details", errorsArray errors)] |}.

(** The text a validator tests: the string itself, the empty string for
    [null], the platform's rendering of anything else. *)
Definition fieldText `{Packages} (v : json) : string :=
  match v with
  | JStr s => s
  | JNull => ""
  | _ => valueToString v
  end.

Module AuthRoutes.
Section WithPackages.
Context `{Packages}.

(** JWT Secret from environment variables *)
Definition JWT_SECRET (env : Env) : string :=
  str_or (env_JWT_SECRET env) "your-secret-key-change-in-production".

Definition generateToken (env : Env) (w : World) (userId : ObjectId) : string :=
  jwt.sign (toHexString userId) (JWT_SECRET env) (now w).

(** The validation chain of [/register]; sanitizers rewrite the body. *)
Definition validateRegister (b : RegisterBody) : RegisterBody * list FieldError :=
  let username' := trim (rb_username b) in
  ({| rb_username := username';
      rb_email := normalizeEmail (rb_email b);
      rb_password := rb_password b |},
   ((if (charCount username' <? 3) || (charCount username' >? 30)
    then [{| fe_path := "username";
             fe_msg := "Username must be between 3 and 30 characters" |}]
    else [])
   ++ (if isEmail (rb_email b) then []
       else [{| fe_path := "email";
                fe_msg := "Please provide a valid email address" |}])
   ++ (if charCount (rb_password b) <? 6
       then [{| fe_path := "password";
                fe_msg := "Password must be at least 6 characters long" |}]
       else []))%list).

(** The public projection [{ id, username, email }] *)
Definition projection (u : User) : json :=
  JObj [("id", JStr (toHexString (user_id u)));
        ("username", JStr (username u));
        ("email", JStr (email u))].

Definition alreadyExists (existingUser : User) (email' : string) : response :=
  {| status := 400;
     body := JObj [("error", JStr "User already exists");
                   ("message",
                    JStr (if String.eqb (email existingUser) email'
                          then "Email is already registered"
                          else "Username is already taken"))] |}.

(** [router.post('/register', ...)] *)
Definition register (env : Env) (st : Store) (w : World) (reqBody : RegisterBody)
  : response * Store :=
  let (b, errors) := validateRegister reqBody in
  match errors with
  | _ :: _ => (validationFailed errors, st)
  | [] =>
      match UserModel.findOneByEmailOrUsername st w (rb_email b) (rb_username b) with
      | Some existingUser => (alreadyExists existingUser (rb_email b), st)
      | None =>
          let u := UserModel.create w (rb_username b) (rb_email b) (rb_password b) in
          match UserModel.save w st u with
          | Throw error => (respondToError env error, st)
          | Ok (u', st') =>
              let token := generateToken env w (user_id u') in
              ({| status := 201;
                  body := JObj [("message", JStr "User registered successfully");
                                ("token", JStr token);
                                ("user", projection u')] |}, st')
          end
      end
  end.

(** The validation chain of [/login] *)
Definition validateLogin (b : LoginBody) : LoginBody * list FieldError :=
  ({| lb_email := normalizeEmail (lb_email b);
      lb_password := lb_password b |},
   ((if isEmail (lb_email b) then []
    else [{| fe_path := "email";
             fe_msg := "Please provide a valid email address" |}])
   ++ (if String.eqb (fieldText (lb_password b)) ""
       then [{| fe_path := "password"; fe_msg := "Password is required" |}]
       else []))%list).

(** [router.post('/login', ...)] *)
Definition login (env : Env) (st : Store) (w : World) (reqBody : LoginBody)
  : response :=
  let (b, errors) := validateLogin reqBody in
  match errors with
  | _ :: _ => validationFailed errors
  | [] =>
      match UserModel.findOneByEmailWithPassword st w (lb_email b) with
      | None =>
          {| status := 401;
             body := JObj [("error", JStr "Invalid credentials");
                           ("message", JStr "Email or password is incorrect")] |}
      | Some u =>
          match UserModel.comparePassword u (lb_password b) with
          | Throw error => respondToError env error
          | Ok isPasswordValid =>
              if negb isPasswordValid
              then
                {| status := 401;
                   body := JObj [("error", JStr "Invalid credentials");
                                 ("message", JStr "Email or password is incorrect")] |}
              else
                let token := generateToken env w (user_id u) in
                {| status := 200;
                   body := JObj [("message", JStr "Login successful");
                                 ("token", JStr token);
                                 ("user", projection u)] |}
          end
      end
  end.

End WithPackages.
End AuthRoutes.

(* ================================================================== *)
(** ** routes/tasks.js *)

(** The JSON body of a task request, its fields at the types the
    validation chain lets through (strings, a boolean); [None] is an
    absent field. *)
Record TaskBody : Type := mkTaskBody {
  b_title : option string;
  b_description : option string;
  b_completed : option bool
}.

Definition emptyBody : TaskBody :=
  {| b_title := None; b_description := None; b_completed := None |}.

Module TaskRoutes.
Section WithPackages.
Context `{Packages}.

(** The validation chain of [POST /]: [title] is trimmed and must be
    non-empty and at most 200 characters; the optional fields are checked
    when present. *)
Definition validateCreate (b : TaskBody) : TaskBody * list FieldError :=
  let title' := trim (match b_title b with Some t => t | None => "" end) in
  let description' := option_map trim (b_description b) in
  ({| b_title := Some title';
      b_description := description';
      b_completed := b_completed b |},
   ((if String.eqb title' ""
     then [{| fe_path := "title"; fe_msg := "Task title is required" |}]
     else [])
    ++ (if charCount title' >? 200
        then [{| fe_path := "title";
                 fe_msg := "Task title cannot exceed 200 characters" |}]
        else [])
    ++ (match description' with
        | Some d =>
            if charCount d >? 1000
            then [{| fe_path := "description";
                     fe_msg := "Task description cannot exceed 1000 characters" |}]
            else []
        | None => []
        end))%list).

(** The validation chain of [PUT /:id]: every field is optional. *)
Definition validateUpdate (b : TaskBody) : TaskBody * list FieldError :=
  let title' := option_map trim (b_title b) in
  let description' := option_map trim (b_description b) in
  ({| b_title := title';
      b_description := description';
      b_completed := b_completed b |},
   ((match title' with
     | Some t =>
         (if String.eqb t ""
          then [{| fe_path := "title"; fe_msg := "Task title cannot be empty" |}]
          else [])
         ++ (if charCount t >? 200
             then [{| fe_path := "title";
                      fe_msg := "Task title cannot exceed 200 characters" |}]
             else [])
     | None => []
     end)
    ++ (match description' with
        | Some d =>
            if charCount d >? 1000
            then [{| fe_path := "description";
                     fe_msg := "Task description cannot exceed 1000 characters" |}]
            else []
        | None => []
        end))%list).

(** [router.post('/', ...)]; a thrown error is what [next(error)] gets. *)
Definition createTask (st : Store) (w : World) (reqUser : ReqUser) (reqBody : TaskBody)
  : result (response * Store) :=
  let (b, errors) := validateCreate reqBody in
  match errors with
  | _ :: _ => Ok (validationFailed errors, st)
  | [] =>
      let title' := match b_title b with Some t => t | None => "" end in
      (* description || '' *)
      let description' := str_or (b_description b) "" in
      (* completed || false *)
      let completed' := match b_completed b with Some c => c | None => false end in
      let! (task, st') :=
        TaskModel.createAndSave w st title' description' completed'
          (userId reqUser) in
      Ok ({| status := 201;
             body := JObj [("message", JStr "Task created successfully");
                           ("task", TaskModel.toJSON task
                                      (TaskModel.populateUser st' task))] |},
          st')
  end.

(** [router.get('/', ...)] *)
Definition listTasks (st : Store) (reqUser : ReqUser) : result (response * Store) :=
  let! found := TaskModel.findByUser st (userId reqUser) in
  Ok ({| status := 200;
         body := JObj [("message", JStr "Tasks retrieved successfully");
                       ("count", JNum (Z.of_nat (length found)));
                       ("tasks",
                        JArr (map (fun t => TaskModel.toJSON t (TaskModel.ownerRef t))
                                  found))] |},
      st).

Definition notFound (verb : string) : response :=
  {| status := 404;
     body := JObj [("error", JStr "Task not found");
                   ("message",
                    JStr ("Task does not exist or you do not have permission to "
                            ++ verb ++ " it"))] |}.

Definition invalidTaskId : response :=
  {| status := 400;
     body := JObj [("error", JStr "Invalid task ID");
                   ("message", JStr "The provided task ID is not valid")] |}.

(** The [catch] block shared by [PUT] and [DELETE]: a CastError is
    answered here, anything else goes to [next(error)]. *)
Definition catchCastError (st : Store) (error : JsError)
  : result (response * Store) :=
  if String.eqb (err_name error) "CastError"
  then Ok (invalidTaskId, st)
  else Throw error.

(** The assignments of [PUT]: only the fields that are not [undefined]. *)
Definition assignFields (task : Task) (b : TaskBody) : Task :=
  let task := match b_title b with
              | Some t => TaskModel.setTitle task t
              | None => task
              end in
  let task := match b_description b with
              | Some d => TaskModel.setDescription task d
              | None => task
              end in
  match b_completed b with
  | Some c => TaskModel.setCompleted task c
  | None => task
  end.

(** [router.put('/:id', ...)] *)
Definition updateTask (st : Store) (w : World) (reqUser : ReqUser)
    (id : string) (reqBody : TaskBody) : result (response * Store) :=
  let attempt : result (response * Store) :=
    let (b, errors) := validateUpdate reqBody in
    match errors with
    | _ :: _ => Ok (validationFailed errors, st)
    | [] =>
        let! found := TaskModel.findOne st id (userId reqUser) in
        match found with
        | None => Ok (notFound "access", st)
        | Some task =>
            let! (saved, st') := TaskModel.save w st task (assignFields task b) in
            Ok ({| status := 200;
                   body := JObj [("message", JStr "Task updated successfully");
                                 ("task", TaskModel.toJSON saved
                                            (TaskModel.ownerRef saved))] |},
                st')
        end
    end in
  match attempt with
  | Ok r => Ok r
  | Throw error => catchCastError st error
  end.

(** [router.delete('/:id', ...)] *)
Definition deleteTask (st : Store) (reqUser : ReqUser) (id : string)
  : result (response * Store) :=
  let attempt : result (response * Store) :=
    let! (found, st') := TaskModel.findOneAndDelete st id (userId reqUser) in
    match found with
    | None => Ok (notFound "delete", st)
    | Some task =>
        Ok ({| status := 200;
               body := JObj [("message", JStr "Task deleted successfully");
                             ("task", TaskModel.toJSON task
                                        (TaskModel.ownerRef task))] |},
            st')
    end in
  match attempt with
  | Ok r => Ok r
  | Throw error => catchCastError st error
  end.

End WithPackages.
End TaskRoutes.

(* ================================================================== *)
(** ** server.js: the mounted routes *)

Module Server.
Section WithPackages.
Context `{Packages}.

(** [router.use(authenticate)] in front of a task handler, and
    [app.use(errorHandler)] behind it. *)
Definition protected (env : Env) (st : Store) (w : World)
    (authorization : option string)
    (handler : ReqUser -> result (response * Store)) : response * Store :=
  match Middleware.authenticate env st w authorization with
  | Rejected r => (r, st)
  | Failed error => (respondToError env error, st)
  | Passed reqUser =>
      match handler reqUser with
      | Ok r => r
      | Throw error => (respondToError env error, st)
      end
  end.

Definition POST_tasks env st w authorization (reqBody : TaskBody) :=
  protected env st w authorization
    (fun reqUser => TaskRoutes.createTask st w reqUser reqBody).

Definition GET_tasks env st w authorization :=
  protected env st w authorization
    (fun reqUser => TaskRoutes.listTasks st reqUser).

Definition PUT_task env st w authorization (id : string) (reqBody : TaskBody) :=
  protected env st w authorization
    (fun reqUser => TaskRoutes.updateTask st w reqUser id reqBody).

Definition DELETE_task env st w authorization (id : string) :=
  protected env st w authorization
    (fun reqUser => TaskRoutes.deleteTask st reqUser id).

Definition POST_register env st w (reqBody : RegisterBody) :=
  AuthRoutes.register env st w reqBody.

Definition POST_login env st w (reqBody : LoginBody) : response * Store :=
  (AuthRoutes.login env st w reqBody, st).

End WithPackages.
End Server.

(* ================================================================== *)
(** ** An executable instance of the platform

    Small stand-ins for the string built-ins, bson, jsonwebtoken,
    bcryptjs and express-validator, so that the handlers can be run on
    concrete requests.  Strings are taken in the ASCII range, where a
    character is a byte; identities are 24 hexadecimal digits; a token is
    the payload written field by field, followed by its signature. *)

Module Reference.

(** The white space of the ASCII range: tab, line feed, vertical tab,
    form feed, carriage return and space. *)
Definition isSpace (c : ascii) : bool :=
  let n := nat_of_ascii c in
  ((9 <=? n)%nat && (n <=? 13)%nat) || (n =? 32)%nat.

Fixpoint trimStart (s : string) : string :=
  match s with
  | String c s' => if isSpace c then trimStart s' else s
  | EmptyString => EmptyString
  end.

Fixpoint trimEnd (s : string) : string :=
  match s with
  | EmptyString => EmptyString
  | String c s' =>
      let r := trimEnd s' in
      if isSpace c && String.eqb r "" then "" else String c r
  end.

Definition asciiTrim (s : string) : string := trimEnd (trimStart s).

Definition toLowerChar (c : ascii) : ascii :=
  let n := nat_of_ascii c in
  if ((65 <=? n)%nat && (n <=? 90)%nat) then ascii_of_nat (n + 32) else c.

Fixpoint asciiLower (s : string) : string :=
  match s with
  | EmptyString => EmptyString
  | String c s' => String (toLowerChar c) (asciiLower s')
  end.

Definition byteLength (s : string) : Z := Z.of_nat (String.length s).

(** A string is headed when [trimStart] has nothing to remove. *)
Definition headed (s : string) : Prop :=
  match s with
  | EmptyString => True
  | String c _ => isSpace c = false
  end.

Lemma trimStart_headed (s : string) : headed (trimStart s).
Proof.
  induction s as [|c s IH]; simpl; [exact I|].
  destruct (isSpace c) eqn:E; simpl; auto.
Qed.

Lemma trimStart_of_headed (s : string) : headed s -> trimStart s = s.
Proof.
  destruct s as [|c s]; simpl; [reflexivity|]. now intros ->.
Qed.

Lemma trimEnd_headed (s : string) : headed s -> headed (trimEnd s).
Proof.
  destruct s as [|c s]; simpl; [trivial|].
  intros Hc. rewrite Hc. simpl. exact Hc.
Qed.

Lemma trimEnd_idempotent (s : string) : trimEnd (trimEnd s) = trimEnd s.
Proof.
  induction s as [|c s IH]; simpl; [reflexivity|].
  destruct (isSpace c) eqn:Hc; simpl.
  - destruct (String.eqb (trimEnd s) "") eqn:He; simpl; [reflexivity|].
    rewrite IH, Hc, He. reflexivity.
  - rewrite IH, Hc. reflexivity.
Qed.

Lemma asciiTrim_idempotent (s : string) : asciiTrim (asciiTrim s) = asciiTrim s.
Proof.
  unfold asciiTrim.
  rewrite (trimStart_of_headed _ (trimEnd_headed _ (trimStart_headed s))).
  apply trimEnd_idempotent.
Qed.

(** The text of a value that is not a string. *)
Definition render (v : json) : string :=
  match v with
  | JStr s => s
  | JNum z => NilZero.string_of_int (Z.to_int z)
  | JBool true => "true"
  | JBool false => "false"
  | JNull => ""
  | JArr _ => ""
  | JObj _ => "[object Object]"
  | JPage html => html
  end.

Definition page (env : Env) (e : JsError) : string :=
  match env_NODE_ENV env with
  | Some mode =>
      if String.eqb mode "production" then "Internal Server Error"
      else err_stack e
  | None => err_stack e
  end.

Definition isHexDigit (c : ascii) : bool :=
  let n := nat_of_ascii c in
  ((48 <=? n)%nat && (n <=? 57)%nat)
  || ((97 <=? n)%nat && (n <=? 102)%nat)
  || ((65 <=? n)%nat && (n <=? 70)%nat).

Definition cast (s : string) : option ObjectId :=
  if (String.length s =? 24)%nat && forallb isHexDigit (list_ascii_of_string s)
  then Some (OID (asciiLower s))
  else None.

(** Binary digits, least significant first, closed by a dot. *)
Fixpoint enc_pos (p : positive) (k : string) : string :=
  match p with
  | xH => String "."%char k
  | xO p' => String "0"%char (enc_pos p' k)
  | xI p' => String "1"%char (enc_pos p' k)
  end.

Fixpoint dec_pos (s : string) : option (positive * string) :=
  match s with
  | EmptyString => None
  | String c s' =>
      if Ascii.eqb c "."%char then Some (xH, s')
      else if Ascii.eqb c "0"%char
      then match dec_pos s' with Some (p, r) => Some (xO p, r) | None => None end
      else if Ascii.eqb c "1"%char
      then match dec_pos s' with Some (p, r) => Some (xI p, r) | None => None end
      else None
  end.

Definition enc_Z (z : Z) (k : string) : string :=
  match z with
  | Z0 => String "z"%char k
  | Zpos p => String "p"%char (enc_pos p k)
  | Zneg p => String "n"%char (enc_pos p k)
  end.

Definition dec_Z (s : string) : option (Z * string) :=
  match s with
  | EmptyString => None
  | String c s' =>
      if Ascii.eqb c "z"%char then Some (0, s')
      else if Ascii.eqb c "p"%char
      then match dec_pos s' with Some (p, r) => Some (Zpos p, r) | None => None end
      else if Ascii.eqb c "n"%char
      then match dec_pos s' with Some (p, r) => Some (Zneg p, r) | None => None end
      else None
  end.

Definition enc_optZ (o : option Z) (k : string) : string :=
  match o with
  | None => String "-"%char k
  | Some z => String "+"%char (enc_Z z k)
  end.

Definition dec_optZ (s : string) : option (option Z * string) :=
  match s with
  | EmptyString => None
  | String c s' =>
      if Ascii.eqb c "-"%char then Some (None, s')
      else if Ascii.eqb c "+"%char
      then match dec_Z s' with Some (z, r) => Some (Some z, r) | None => None end
      else None
  end.

Fixpoint splitAt (n : nat) (s : string) : option (string * string) :=
  match n, s with
  | O, _ => Some (EmptyString, s)
  | S n', String c s' =>
      match splitAt n' s' with
      | Some (a, b) => Some (String c a, b)
      | None => None
      end
  | S _, EmptyString => None
  end.

(** A string is written behind its length. *)
Definition enc_str (s k : string) : string :=
  enc_pos (Pos.of_succ_nat (String.length s)) (s ++ k).

Definition dec_str (s : string) : option (string * string) :=
  match dec_pos s with
  | Some (p, r) => splitAt (Nat.pred (Pos.to_nat p)) r
  | None => None
  end.

Definition enc_payload (p : JwtPayload) (k : string) : string :=
  enc_str (jwt_userId p) (enc_Z (jwt_iat p) (enc_optZ (jwt_exp p) k)).

Definition encode (t : Jwt) : string :=
  enc_payload (jwt_payload t) (jwt_signature t).

Definition decode (s : string) : option Jwt :=
  match dec_str s with
  | None => None
  | Some (uid, r1) =>
      match dec_Z r1 with
      | None => None
      | Some (iat, r2) =>
          match dec_optZ r2 with
          | None => None
          | Some (exp, sig) =>
              Some {| jwt_payload := {| jwt_userId := uid; jwt_iat := iat;
                                        jwt_exp := exp |};
                      jwt_signature := sig |}
          end
      end
  end.

(** The signature: the secret in front of the signing input. *)
Definition hmac (secret : string) (p : JwtPayload) : string :=
  secret ++ "/" ++ enc_payload p "".

(** The digest: the salt, a dollar sign, the plain text. *)
Definition hash (plain salt' : string) : string := salt' ++ "$" ++ plain.

Fixpoint afterDollar (s : string) : string :=
  match s with
  | EmptyString => EmptyString
  | String c s' => if Ascii.eqb c "$"%char then s' else afterDollar s'
  end.

Definition compare (plain digest : string) : bool :=
  String.eqb (afterDollar digest) plain.

Fixpoint hasAt (s : string) : bool :=
  match s with
  | EmptyString => false
  | String c s' => Ascii.eqb c "@"%char || hasAt s'
  end.

Definition renderErrors (errors : list FieldError) : json :=
  JArr (map (fun e => JObj [("type", JStr "field");
                            ("msg", JStr (fe_msg e));
                            ("path", JStr (fe_path e));
                            ("location", JStr "body")])
            errors).

#[export] Instance packages : Packages := {|
  trim := asciiTrim;
  toLowerCase := asciiLower;
  strLength := byteLength;
  trim_idempotent := asciiTrim_idempotent;
  trim_empty := eq_refl;
  strLength_empty := eq_refl;
  castObjectId := cast;
  hmacSign := hmac;
  jwtEncode := encode;
  jwtDecode := decode;
  bcryptHash := hash;
  bcryptCompare := compare;
  charCount := byteLength;
  charCount_empty := eq_refl;
  isEmail := hasAt;
  normalizeEmail := asciiLower;
  valueToString := render;
  errorsArray := renderErrors;
  matchesEmailPattern := hasAt;
  finalHandlerPage := page
|}.

End Reference.

(* ================================================================== *)
(** ** A small deployment on which the handlers are run *)

Module Scenario.

Definition env0 : Env := {| env_JWT_SECRET := None; env_NODE_ENV := None |}.

Definition aliceId : ObjectId := OID "64b000000000000000000001".
Definition bobId : ObjectId := OID "64b000000000000000000002".

Definition alice : User :=
  {| user_id := aliceId; username := "alice"; email := "alice@example.com";
     password := Some "pepper$wonderland"; user_createdAt := 1000;
     user_updatedAt := 1000 |}.

Definition bob : User :=
  {| user_id := bobId; username := "bob"; email := "bob@example.com";
     password := Some "pepper$builder99"; user_createdAt := 2000;
     user_updatedAt := 2000 |}.

Definition aliceTask : Task :=
  {| task_id := OID "64b0000000000000000000a1"; title := "Water the plants";
     description := "balcony first"; completed := false;
     task_user := aliceId; createdAt := 3000; updatedAt := 3000 |}.

Definition bobTask : Task :=
  {| task_id := OID "64b0000000000000000000b1"; title := "Fix the fence";
     description := ""; completed := true;
     task_user := bobId; createdAt := 4000; updatedAt := 4500 |}.

Definition store0 : Store :=
  {| users := [alice; bob]; tasks := [aliceTask; bobTask] |}.

(** The moment the tokens are issued, and a later request. *)
Definition issued : World :=
  {| now := 5000; newId := OID "64b0000000000000000000c1"; salt := "pepper";
     choice := 0 |}.

Definition later : World :=
  {| now := 90000; newId := OID "64b0000000000000000000c2"; salt := "pepper";
     choice := 0 |}.

(** Eight days after [issued]. *)
Definition tooLate : World :=
  {| now := 5000 + 8 * 24 * 60 * 60 * 1000;
     newId := OID "64b0000000000000000000c3"; salt := "pepper";
     choice := 0 |}.

Definition bearer (token : string) : option string := Some ("Bearer " ++ token).

Definition aliceToken : string :=
  AuthRoutes.generateToken (H := Reference.packages) env0 issued aliceId.

Definition bobToken : string :=
  AuthRoutes.generateToken (H := Reference.packages) env0 issued bobId.

(** A token signed under the fallback secret whose [userId] is not an
    identity of the store. *)
Definition strayToken : string :=
  jwt.sign (H := Reference.packages) "not-an-id"
    "your-secret-key-change-in-production" (now issued).

End Scenario.

(* ================================================================== *)
(** ** A second instance, with a schema pattern narrower than [isEmail]

    The address pattern of models/User.js has no place for a plus sign in
    the local part, which express-validator's [isEmail] accepts.  This
    instance differs from [Reference.packages] in that one respect. *)

Module StrictSchema.

Fixpoint hasPlus (s : string) : bool :=
  match s with
  | EmptyString => false
  | String c s' => Ascii.eqb c "+"%char || hasPlus s'
  end.

Definition pattern (s : string) : bool :=
  Reference.hasAt s && negb (hasPlus s).

#[export] Instance packages : Packages := {|
  trim := Reference.asciiTrim;
  toLowerCase := Reference.asciiLower;
  strLength := Reference.byteLength;
  trim_idempotent := Reference.asciiTrim_idempotent;
  trim_empty := eq_refl;
  strLength_empty := eq_refl;
  castObjectId := Reference.cast;
  hmacSign := Reference.hmac;
  jwtEncode := Reference.encode;
  jwtDecode := Reference.decode;
  bcryptHash := Reference.hash;
  bcryptCompare := Reference.compare;
  charCount := Reference.byteLength;
  charCount_empty := eq_refl;
  isEmail := Reference.hasAt;
  normalizeEmail := Reference.asciiLower;
  valueToString := Reference.render;
  errorsArray := Reference.renderErrors;
  matchesEmailPattern := pattern;
  finalHandlerPage := Reference.page
|}.

End StrictSchema.

(* ================================================================== *)
(** ** Statements that the proofs compare with *)

(** The store with every stored digest removed. *)
Definition withoutDigests (st : Store) : Store :=
  {| users := map (fun u => {| user_id := user_id u; username := username u;
                               email := email u; password := None;
                               user_createdAt := user_createdAt u;
                               user_updatedAt := user_updatedAt u |})
                  (users st);
     tasks := tasks st |}.

(** An error of code 11000 whose [keyValue] has no first key. *)
Definition duplicateKeyWithoutField (err : JsError) : bool :=
  match err_code err with
  | Some c =>
      (c =? 11000)
      && match err_keyValue err with
         | Some (_ :: _) => false
         | _ => true
         end
  | None => false
  end.

(** One user with its digest replaced, and the store with every
    digest replaced that way. *)
Definition setDigest (digestOf : User -> option string) (u : User) : User :=
  {| user_id := user_id u; username := username u; email := email u;
     password := digestOf u;
     user_createdAt := user_createdAt u;
     user_updatedAt := user_updatedAt u |}.

Definition redigested (digestOf : User -> option string) (st : Store) : Store :=
  {| users := map (setDigest digestOf) (users st); tasks := tasks st |}.

(** Running a handler on the store without digests, compared with
    running it on the store itself. *)
Definition sameAnswer (a b : result (response * Store)) : Prop :=
  match a, b with
  | Ok (r, st), Ok (r', st') => r = r' /\ st = withoutDigests st'
  | Throw e, Throw e' => e = e'
  | _, _ => False
  end.

(** Closing the side conditions of a run on the deployment of
    [Scenario]: by evaluation, or by inspecting a short list. *)
Ltac by_evaluation :=
  solve [ vm_compute; reflexivity
        | vm_compute; discriminate
        | discriminate
        | vm_compute; lia
        | repeat constructor; simpl; intuition discriminate
        | simpl; intuition (subst; discriminate) ].

(* ================================================================== *)
(** * Properties *)

Unset Implicit Arguments.

(** ** Strings and identities *)

Lemma oid_eqb_eq (a b : ObjectId) : oid_eqb a b = true <-> a = b.
Proof.
  destruct a as [x], b as [y]; unfold oid_eqb; simpl.
  rewrite String.eqb_eq. split; congruence.
Qed.

Lemma oid_eqb_refl (a : ObjectId) : oid_eqb a a = true.
Proof. now apply oid_eqb_eq. Qed.

Lemma oid_eqb_neq (a b : ObjectId) : oid_eqb a b = false <-> a <> b.
Proof.
  rewrite <- oid_eqb_eq. destruct (oid_eqb a b); split; congruence.
Qed.

(** ** Lists: the store's choice, lookups under a unique key, and the
    sort of [GET] *)

Lemma pickOne_In {A} (w : World) (l : list A) (x : A) :
  pickOne w l = Some x -> In x l.
Proof. unfold pickOne. apply nth_error_In. Qed.

Lemma pickOne_none {A} (w : World) (l : list A) :
  pickOne w l = None <-> l = [].
Proof.
  unfold pickOne. split.
  - intros Hn. destruct l as [|a l]; [reflexivity|].
    apply nth_error_None in Hn.
    pose proof (Nat.mod_upper_bound (choice w) (length (a :: l))) as Hlt.
    simpl in *. lia.
  - intros ->. now destruct (choice w mod _)%nat.
Qed.

Lemma pickOne_single {A} (w : World) (x : A) : pickOne w [x] = Some x.
Proof. unfold pickOne. cbn [length]. now rewrite Nat.mod_1_r. Qed.

Lemma filter_nil_iff {A} (p : A -> bool) (l : list A) :
  filter p l = [] <-> forall x, In x l -> p x = false.
Proof.
  induction l as [|a l IH]; simpl; [tauto|].
  destruct (p a) eqn:Hp.
  - split; [discriminate|]. intros Hall.
    specialize (Hall a (or_introl eq_refl)). congruence.
  - rewrite IH. split.
    + intros Hall x [<-|Hx]; auto.
    + intros Hall x Hx. apply Hall. now right.
Qed.

Lemma find_none_iff {A} (p : A -> bool) (l : list A) :
  find p l = None <-> forall x, In x l -> p x = false.
Proof.
  split.
  - intros Hf x Hin. exact (find_none p l Hf x Hin).
  - induction l as [|a l IH]; simpl; [reflexivity|].
    intros Hall. rewrite (Hall a (or_introl eq_refl)).
    apply IH. intros x Hx. apply Hall. now right.
Qed.

Lemma find_unique {A K} (key : A -> K) (p : A -> bool) (l : list A) (x : A) :
  NoDup (map key l) -> In x l -> p x = true ->
  (forall y, In y l -> p y = true -> key y = key x) ->
  find p l = Some x.
Proof.
  induction l as [|a l IH]; simpl; [contradiction|].
  intros Hnd [->|Hin] Hp Hkey.
  - now rewrite Hp.
  - inversion Hnd as [|? ? Hnotin Hnd']; subst.
    destruct (p a) eqn:Hpa.
    + exfalso. apply Hnotin.
      rewrite (Hkey a (or_introl eq_refl) Hpa).
      now apply in_map.
    + apply IH; auto.
Qed.

Lemma insertNewestFirst_In (t x : Task) (ts : list Task) :
  In x (TaskModel.insertNewestFirst t ts) <-> x = t \/ In x ts.
Proof.
  induction ts as [|a ts IH]; simpl.
  - intuition.
  - destruct (createdAt a <? createdAt t); simpl; rewrite ?IH; intuition.
Qed.

Lemma sortNewestFirst_In (x : Task) (ts : list Task) :
  In x (TaskModel.sortNewestFirst ts) <-> In x ts.
Proof.
  unfold TaskModel.sortNewestFirst.
  induction ts as [|a ts IH]; simpl; [reflexivity|].
  rewrite insertNewestFirst_In, IH. intuition.
Qed.

(** ** The executable instance satisfies what the theorems assume *)

Lemma dec_enc_pos (p : positive) (k : string) :
  Reference.dec_pos (Reference.enc_pos p k) = Some (p, k).
Proof.
  induction p as [p IH|p IH|]; simpl; try rewrite IH; reflexivity.
Qed.

Lemma dec_enc_Z (z : Z) (k : string) :
  Reference.dec_Z (Reference.enc_Z z k) = Some (z, k).
Proof.
  destruct z; simpl; try rewrite dec_enc_pos; reflexivity.
Qed.

Lemma dec_enc_optZ (o : option Z) (k : string) :
  Reference.dec_optZ (Reference.enc_optZ o k) = Some (o, k).
Proof.
  destruct o; simpl; try rewrite dec_enc_Z; reflexivity.
Qed.

Lemma splitAt_append (a b : string) :
  Reference.splitAt (String.length a) (a ++ b) = Some (a, b).
Proof.
  induction a as [|c a IH]; simpl.
  - destruct b; reflexivity.
  - now rewrite IH.
Qed.

Lemma dec_enc_str (s k : string) :
  Reference.dec_str (Reference.enc_str s k) = Some (s, k).
Proof.
  unfold Reference.dec_str, Reference.enc_str.
  rewrite dec_enc_pos, SuccNat2Pos.pred_id.
  apply splitAt_append.
Qed.

Lemma reference_decode_encode (t : Jwt) :
  Reference.decode (Reference.encode t) = Some t.
Proof.
  destruct t as [[uid iat exp] sig].
  unfold Reference.decode, Reference.encode, Reference.enc_payload. simpl.
  now rewrite dec_enc_str, dec_enc_Z, dec_enc_optZ.
Qed.

Lemma enc_pos_nonempty (p : positive) (k : string) :
  Reference.enc_pos p k <> "".
Proof. destruct p; discriminate. Qed.

Lemma reference_encode_nonempty (t : Jwt) : Reference.encode t <> "".
Proof. apply enc_pos_nonempty. Qed.

(** ** The identity gate *)

Section Gate.
Context `{Packages}.

(** Whoever passes the gate is a stored user, found by the identity the
    token carries. *)
Lemma gate_passed_inv env st w authorization reqUser :
  Middleware.authenticate env st w authorization = Passed reqUser ->
  exists owner u,
    castObjectId (userId reqUser) = Some owner /\
    In u (users st) /\ user_id u = owner /\
    user reqUser = UserModel.deselect u.
Proof.
  unfold Middleware.authenticate.
  destruct authorization as [h|]; [|discriminate].
  destruct (_ || _); [discriminate|].
  destruct (jwt.verify _ _ _) as [decoded|e]; [|discriminate].
  unfold UserModel.findById.
  destruct (castObjectId (jwt_userId decoded)) as [owner|] eqn:Hcast;
    [|discriminate].
  destruct (find _ (users st)) as [u|] eqn:Hfind; simpl; [|discriminate].
  intros [= <-]. simpl. exists owner, u.
  apply find_some in Hfind. destruct Hfind as [Hin Heq].
  apply oid_eqb_eq in Heq. auto.
Qed.

(** The gate reads the user collection only. *)
Lemma gate_reads_users env st st' w authorization :
  users st = users st' ->
  Middleware.authenticate env st w authorization
  = Middleware.authenticate env st' w authorization.
Proof.
  intros Hu. unfold Middleware.authenticate, UserModel.findById.
  now rewrite Hu.
Qed.

(** Every response the gate itself sends is a 401. *)
Lemma gate_rejects_with_401 env st w authorization r :
  Middleware.authenticate env st w authorization = Rejected r ->
  status r = 401.
Proof.
  unfold Middleware.authenticate.
  destruct authorization as [h|]; [|now intros [= <-]].
  destruct (_ || _); [now intros [= <-]|].
  destruct (jwt.verify _ _ _) as [decoded|e]; [|now intros [= <-]].
  destruct (UserModel.findById st (jwt_userId decoded)) as [[u|]|e];
    try discriminate.
  now intros [= <-].
Qed.

End Gate.

(** ** Task routes behind the gate *)

Lemma unique_key {A K} (key : A -> K) (l : list A) (x y : A) :
  NoDup (map key l) -> In x l -> In y l -> key x = key y -> x = y.
Proof.
  induction l as [|a l IH]; simpl; [contradiction|].
  intros Hnd Hx Hy Hk. inversion Hnd as [|? ? Hnotin Hnd']; subst.
  destruct Hx as [->|Hx], Hy as [->|Hy]; auto.
  - exfalso. apply Hnotin. rewrite Hk. now apply in_map.
  - exfalso. apply Hnotin. rewrite <- Hk. now apply in_map.
Qed.

Section TaskAccess.
Context `{Packages}.

Lemma matches_true tid owner t :
  TaskModel.matches tid owner t = true <-> task_id t = tid /\ task_user t = owner.
Proof.
  unfold TaskModel.matches. now rewrite andb_true_iff, !oid_eqb_eq.
Qed.

Lemma no_owned_task_not_found st tid owner :
  (forall x, In x (tasks st) -> task_id x = tid -> task_user x <> owner) ->
  find (TaskModel.matches tid owner) (tasks st) = None.
Proof.
  intros Hnone. apply find_none_iff. intros x Hin.
  destruct (TaskModel.matches tid owner x) eqn:Hm; [|reflexivity].
  apply matches_true in Hm. destruct Hm as [Hid Hu].
  now elim (Hnone x Hin Hid).
Qed.

(** [PUT] when no task with this identity belongs to the caller. *)
Lemma update_without_owned_task st w reqUser owner id tid reqBody :
  castObjectId (userId reqUser) = Some owner ->
  castObjectId id = Some tid ->
  (forall x, In x (tasks st) -> task_id x = tid -> task_user x <> owner) ->
  TaskRoutes.updateTask st w reqUser id reqBody =
    Ok (match snd (TaskRoutes.validateUpdate reqBody) with
        | [] => TaskRoutes.notFound "access"
        | (_ :: _) as errors => validationFailed errors
        end, st).
Proof.
  intros Hu Hid Hnone. unfold TaskRoutes.updateTask.
  destruct (TaskRoutes.validateUpdate reqBody) as [b errors]. simpl.
  destruct errors; [|reflexivity].
  unfold TaskModel.findOne. rewrite Hid, Hu. simpl.
  now rewrite (no_owned_task_not_found _ _ _ Hnone).
Qed.

Lemma removeFirst_none p ts :
  find p ts = None -> TaskModel.removeFirst p ts = ts.
Proof.
  induction ts as [|a ts IH]; simpl; [reflexivity|].
  destruct (p a); [discriminate|]. intros Hf. now rewrite IH.
Qed.

(** [DELETE] when no task with this identity belongs to the caller. *)
Lemma delete_without_owned_task st reqUser owner id tid :
  castObjectId (userId reqUser) = Some owner ->
  castObjectId id = Some tid ->
  (forall x, In x (tasks st) -> task_id x = tid -> task_user x <> owner) ->
  TaskRoutes.deleteTask st reqUser id = Ok (TaskRoutes.notFound "delete", st).
Proof.
  intros Hu Hid Hnone. unfold TaskRoutes.deleteTask, TaskModel.findOneAndDelete.
  rewrite Hid, Hu. simpl.
  now rewrite (no_owned_task_not_found _ _ _ Hnone).
Qed.

Lemma foreign_task_not_owned st t tid owner :
  NoDup (map task_id (tasks st)) ->
  In t (tasks st) -> task_id t = tid -> task_user t <> owner ->
  forall x, In x (tasks st) -> task_id x = tid -> task_user x <> owner.
Proof.
  intros Hnd Hin Hid Hu x Hx Hxid.
  assert (x = t) as -> by (apply (unique_key task_id (tasks st)); congruence).
  assumption.
Qed.

Lemma absent_task_not_owned st tid owner :
  (forall x, In x (tasks st) -> task_id x <> tid) ->
  forall x, In x (tasks st) -> task_id x = tid -> task_user x <> owner.
Proof. intros Habs x Hx Hxid. now elim (Habs x Hx). Qed.

End TaskAccess.

(** C1.  Behind the gate, task access is scoped by the verified
    identity.  [GET /api/tasks] answers 200 with exactly the stored tasks
    whose owner is the caller.  A [PUT] (with a body that passes
    validation) or a [DELETE] that names an existing task of another
    owner answers 404, never 403, and for every body it answers exactly
    what it answers for an identity no task has. *)
Theorem ownership_scoped_access `{Packages}
    env st w authorization reqUser owner id tid t reqBody :
  Middleware.authenticate env st w authorization = Passed reqUser ->
  castObjectId (userId reqUser) = Some owner ->
  castObjectId id = Some tid ->
  NoDup (map task_id (tasks st)) ->
  In t (tasks st) -> task_id t = tid -> task_user t <> owner ->
  snd (TaskRoutes.validateUpdate reqBody) = [] ->
  (exists found,
      Server.GET_tasks env st w authorization
      = ({| status := 200;
            body := JObj [("message", JStr "Tasks retrieved successfully");
                          ("count", JNum (Z.of_nat (length found)));
                          ("tasks",
                           JArr (map (fun x => TaskModel.toJSON x (TaskModel.ownerRef x))
                                     found))] |}, st)
      /\ forall x, In x found <-> In x (tasks st) /\ task_user x = owner)
  /\ Server.PUT_task env st w authorization id reqBody
     = (TaskRoutes.notFound "access", st)
  /\ Server.DELETE_task env st w authorization id
     = (TaskRoutes.notFound "delete", st)
  /\ status (TaskRoutes.notFound "access") = 404
  /\ status (TaskRoutes.notFound "delete") = 404
  /\ (forall anyBody,
        status (fst (Server.PUT_task env st w authorization id anyBody)) <> 403)
  /\ (forall id' tid' anyBody,
        castObjectId id' = Some tid' ->
        (forall x, In x (tasks st) -> task_id x <> tid') ->
        Server.PUT_task env st w authorization id' anyBody
        = Server.PUT_task env st w authorization id anyBody
        /\ Server.DELETE_task env st w authorization id'
           = Server.DELETE_task env st w authorization id).
Proof.
  intros Hgate Hu Hid Hnd Hin Htid Hforeign Hvalid.
  pose proof (foreign_task_not_owned st t tid owner Hnd Hin Htid Hforeign)
    as Hnone.
  assert (Hput : forall b,
             Server.PUT_task env st w authorization id b
             = (match snd (TaskRoutes.validateUpdate b) with
                | [] => TaskRoutes.notFound "access"
                | (_ :: _) as errors => validationFailed errors
                end, st)).
  { intros b. unfold Server.PUT_task, Server.protected. rewrite Hgate.
    now rewrite (update_without_owned_task st w reqUser owner id tid b). }
  assert (Hdel : Server.DELETE_task env st w authorization id
                 = (TaskRoutes.notFound "delete", st)).
  { unfold Server.DELETE_task, Server.protected. rewrite Hgate.
    now rewrite (delete_without_owned_task st reqUser owner id tid). }
  split; [|split; [|split; [|split; [|split; [|split]]]]].
  - exists (TaskModel.sortNewestFirst
              (filter (fun x => oid_eqb (task_user x) owner) (tasks st))).
    split.
    + unfold Server.GET_tasks, Server.protected. rewrite Hgate.
      unfold TaskRoutes.listTasks, TaskModel.findByUser. now rewrite Hu.
    + intros x. rewrite sortNewestFirst_In, filter_In, oid_eqb_eq. tauto.
  - rewrite Hput, Hvalid. reflexivity.
  - exact Hdel.
  - reflexivity.
  - reflexivity.
  - intros anyBody. rewrite Hput.
    destruct (snd (TaskRoutes.validateUpdate anyBody)); simpl; discriminate.
  - intros id' tid' anyBody Hid' Habsent.
    pose proof (absent_task_not_owned st tid' owner Habsent) as Hnone'.
    split.
    + rewrite Hput.
      unfold Server.PUT_task, Server.protected. rewrite Hgate.
      now rewrite (update_without_owned_task st w reqUser owner id' tid' anyBody).
    + rewrite Hdel.
      unfold Server.DELETE_task, Server.protected. rewrite Hgate.
      now rewrite (delete_without_owned_task st reqUser owner id' tid').
Qed.

Lemma ownership_scoped_access_witness :
  Server.PUT_task (H := Reference.packages) Scenario.env0 Scenario.store0
    Scenario.later (Scenario.bearer Scenario.bobToken)
    "64b0000000000000000000a1" emptyBody
  = (TaskRoutes.notFound "access", Scenario.store0)
  /\ Server.DELETE_task (H := Reference.packages) Scenario.env0 Scenario.store0
       Scenario.later (Scenario.bearer Scenario.bobToken)
       "64b0000000000000000000a1"
     = (TaskRoutes.notFound "delete", Scenario.store0).
Proof.
  destruct (ownership_scoped_access (H := Reference.packages)
              Scenario.env0 Scenario.store0 Scenario.later
              (Scenario.bearer Scenario.bobToken)
              {| userId := "64b000000000000000000002";
                 user := UserModel.deselect Scenario.bob |}
              Scenario.bobId
              "64b0000000000000000000a1" (OID "64b0000000000000000000a1")
              Scenario.aliceTask emptyBody)
    as (_ & Hput & Hdel & _); [by_evaluation .. | exact (conj Hput Hdel)].
Defined.

(** C7.  Behind the gate, a [PUT] or [DELETE] whose path identity does
    not cast to a store identity answers 400, whatever the body. *)
Theorem malformed_id_is_400 `{Packages}
    env st w authorization reqUser id reqBody :
  Middleware.authenticate env st w authorization = Passed reqUser ->
  castObjectId id = None ->
  status (fst (Server.PUT_task env st w authorization id reqBody)) = 400
  /\ status (fst (Server.DELETE_task env st w authorization id)) = 400
  /\ snd (Server.PUT_task env st w authorization id reqBody) = st
  /\ snd (Server.DELETE_task env st w authorization id) = st.
Proof.
  intros Hgate Hid.
  unfold Server.PUT_task, Server.DELETE_task, Server.protected.
  rewrite Hgate.
  unfold TaskRoutes.updateTask, TaskRoutes.deleteTask,
    TaskModel.findOne, TaskModel.findOneAndDelete.
  rewrite Hid.
  destruct (TaskRoutes.validateUpdate reqBody) as [b [|e errors]]; simpl; auto.
Qed.

Lemma malformed_id_is_400_witness :
  status (fst (Server.PUT_task (H := Reference.packages) Scenario.env0
                 Scenario.store0 Scenario.later
                 (Scenario.bearer Scenario.aliceToken)
                 "not-a-valid-id" emptyBody)) = 400
  /\ status (fst (Server.DELETE_task (H := Reference.packages) Scenario.env0
                    Scenario.store0 Scenario.later
                    (Scenario.bearer Scenario.aliceToken)
                    "not-a-valid-id")) = 400.
Proof.
  destruct (malformed_id_is_400 (H := Reference.packages)
              Scenario.env0 Scenario.store0 Scenario.later
              (Scenario.bearer Scenario.aliceToken)
              {| userId := "64b000000000000000000001";
                 user := UserModel.deselect Scenario.alice |}
              "not-a-valid-id" emptyBody)
    as (Hput & Hdel & _); [by_evaluation .. | exact (conj Hput Hdel)].
Defined.

(** ** Updating a task *)

Section ErrorAnswers.
Context `{Packages}.

Lemma respondToError_validation env model msgs :
  respondToError env (ValidationError model msgs)
  = {| status := 400;
       body := JObj ([("success", JBool false);
                      ("error", JStr (str_or (Some (Str.join ", " msgs))
                                             "Server Error"))]
                     ++ match env_NODE_ENV env with
                        | Some mode =>
                            if String.eqb mode "development"
                            then [("stack", JStr "ValidationError")]
                            else []
                        | None => []
                        end) |}.
Proof. reflexivity. Qed.

Lemma respondToError_validation_status env model msgs :
  status (respondToError env (ValidationError model msgs)) = 400.
Proof. reflexivity. Qed.

Lemma respondToError_cast_status env value path model :
  status (respondToError env (CastError value path model)) = 404.
Proof. reflexivity. Qed.

Lemma respondToError_duplicate_status env key value :
  status (respondToError env (DuplicateKeyError key value)) = 400.
Proof. reflexivity. Qed.

End ErrorAnswers.

Section TaskUpdate.
Context `{Packages}.

Lemma task_eqb_refl t : TaskModel.task_eqb t t = true.
Proof.
  unfold TaskModel.task_eqb.
  now rewrite !oid_eqb_refl, !String.eqb_refl, Bool.eqb_reflx, !Z.eqb_refl.
Qed.

Lemma replaceById_In t x ts :
  In x (TaskModel.replaceById t ts) -> x = t \/ In x ts.
Proof.
  induction ts as [|a ts IH]; simpl; [tauto|].
  destruct (oid_eqb (task_id a) (task_id t)); simpl; intuition.
Qed.

Lemma owned_task_found st t tid owner :
  NoDup (map task_id (tasks st)) ->
  In t (tasks st) -> task_id t = tid -> task_user t = owner ->
  find (TaskModel.matches tid owner) (tasks st) = Some t.
Proof.
  intros Hnd Hin Hid Hu.
  apply (find_unique task_id); auto.
  - now apply matches_true.
  - intros y _ Hy. apply matches_true in Hy. destruct Hy. congruence.
Qed.

Lemma assignFields_title t b :
  title (TaskRoutes.assignFields t b)
  = match b_title b with Some v => trim v | None => title t end.
Proof. destruct b as [[v|] [d|] [c|]]; reflexivity. Qed.

Lemma assignFields_description t b :
  description (TaskRoutes.assignFields t b)
  = match b_description b with Some v => trim v | None => description t end.
Proof. destruct b as [[v|] [d|] [c|]]; reflexivity. Qed.

Lemma assignFields_completed t b :
  completed (TaskRoutes.assignFields t b)
  = match b_completed b with Some v => v | None => completed t end.
Proof. destruct b as [[v|] [d|] [c|]]; reflexivity. Qed.

Lemma assignFields_frame t b :
  task_id (TaskRoutes.assignFields t b) = task_id t
  /\ task_user (TaskRoutes.assignFields t b) = task_user t
  /\ createdAt (TaskRoutes.assignFields t b) = createdAt t
  /\ updatedAt (TaskRoutes.assignFields t b) = updatedAt t.
Proof. destruct b as [[v|] [d|] [c|]]; repeat split; reflexivity. Qed.

Lemma assignFields_empty t : TaskRoutes.assignFields t emptyBody = t.
Proof. destruct t; reflexivity. Qed.

(** What [save()] hands back differs from what it was given in
    [updatedAt] at most, and the store changes in that one document. *)
Lemma save_inv w st old t saved st' :
  TaskModel.save w st old t = Ok (saved, st') ->
  task_id saved = task_id t /\ title saved = title t
  /\ description saved = description t /\ completed saved = completed t
  /\ task_user saved = task_user t /\ createdAt saved = createdAt t
  /\ users st' = users st
  /\ (forall x, In x (tasks st') -> x = saved \/ In x (tasks st)).
Proof.
  unfold TaskModel.save.
  destruct (TaskModel.validationMessages t); [|discriminate].
  destruct (TaskModel.task_eqb old t).
  - intros [= <- <-]. repeat split; auto.
  - intros [= <- <-]. simpl. repeat split; auto.
    intros x. apply replaceById_In.
Qed.

(** [save()] throws nothing but the schema's refusal. *)
Lemma save_throws w st old t e :
  TaskModel.save w st old t = Throw e ->
  exists msgs, e = ValidationError "Task" msgs.
Proof.
  unfold TaskModel.save.
  destruct (TaskModel.validationMessages t) as [|m msgs].
  - destruct (TaskModel.task_eqb old t); discriminate.
  - intros [= <-]. now exists (m :: msgs).
Qed.

(** [save()] of a document nothing was assigned to. *)
Lemma save_unmodified w st t :
  TaskModel.save w st t t
  = match TaskModel.validationMessages t with
    | [] => Ok (t, st)
    | (_ :: _) as msgs => Throw (ValidationError "Task" msgs)
    end.
Proof.
  unfold TaskModel.save. rewrite task_eqb_refl.
  now destruct (TaskModel.validationMessages t).
Qed.

(** [PUT] on a task the caller owns. *)
Lemma put_owned_run env st w authorization reqUser owner id tid t reqBody :
  Middleware.authenticate env st w authorization = Passed reqUser ->
  castObjectId (userId reqUser) = Some owner ->
  castObjectId id = Some tid ->
  NoDup (map task_id (tasks st)) ->
  In t (tasks st) -> task_id t = tid -> task_user t = owner ->
  Server.PUT_task env st w authorization id reqBody
  = match TaskRoutes.validateUpdate reqBody with
    | (b, []) =>
        match TaskModel.save w st t (TaskRoutes.assignFields t b) with
        | Ok (saved, st') =>
            ({| status := 200;
                body := JObj [("message", JStr "Task updated successfully");
                              ("task", TaskModel.toJSON saved
                                         (TaskModel.ownerRef saved))] |},
             st')
        | Throw e => (respondToError env e, st)
        end
    | (_, (_ :: _) as errors) => (validationFailed errors, st)
    end.
Proof.
  intros Hgate Hu Hid Hnd Hin Htid Howner.
  pose proof (owned_task_found st t tid owner Hnd Hin Htid Howner) as Hfound.
  unfold Server.PUT_task, Server.protected. rewrite Hgate.
  unfold TaskRoutes.updateTask.
  destruct (TaskRoutes.validateUpdate reqBody) as [b [|e errors]];
    [|reflexivity].
  unfold TaskModel.findOne. rewrite Hid, Hu. simpl. rewrite Hfound.
  destruct (TaskModel.save w st t (TaskRoutes.assignFields t b))
    as [[saved st']|e] eqn:Hsave; [reflexivity|].
  apply save_throws in Hsave. destruct Hsave as [msgs ->]. reflexivity.
Qed.

End TaskUpdate.

(** C8.  For a task the caller owns, [PUT /api/tasks/:id] with an empty
    body leaves the store as it is: when the stored task passes the
    schema's validators the answer is 200 with the stored task, and when
    it does not the answer is the schema's 400.  For any body, a 200
    answer carries a task whose title, description and completed flag
    keep their stored value unless the body gives that field, in which
    case the field is the (trimmed) given value; identity, owner and
    creation time never change, and no other stored document is
    touched. *)
Theorem put_modifies_only_given_fields `{Packages}
    env st w authorization reqUser owner id tid t :
  Middleware.authenticate env st w authorization = Passed reqUser ->
  castObjectId (userId reqUser) = Some owner ->
  castObjectId id = Some tid ->
  NoDup (map task_id (tasks st)) ->
  In t (tasks st) -> task_id t = tid -> task_user t = owner ->
  snd (Server.PUT_task env st w authorization id emptyBody) = st
  /\ (TaskModel.validationMessages t = [] ->
      Server.PUT_task env st w authorization id emptyBody
      = ({| status := 200;
            body := JObj [("message", JStr "Task updated successfully");
                          ("task", TaskModel.toJSON t (TaskModel.ownerRef t))] |},
         st))
  /\ (TaskModel.validationMessages t <> [] ->
      status (fst (Server.PUT_task env st w authorization id emptyBody)) = 400)
  /\ forall reqBody,
      status (fst (Server.PUT_task env st w authorization id reqBody)) = 200 ->
      exists saved,
        field "task" (body (fst (Server.PUT_task env st w authorization id reqBody)))
        = Some (TaskModel.toJSON saved (TaskModel.ownerRef saved))
        /\ title saved
           = match b_title reqBody with
             | Some v => trim v | None => title t end
        /\ description saved
           = match b_description reqBody with
             | Some v => trim v | None => description t end
        /\ completed saved
           = match b_completed reqBody with
             | Some v => v | None => completed t end
        /\ task_id saved = task_id t
        /\ task_user saved = task_user t
        /\ createdAt saved = createdAt t
        /\ users (snd (Server.PUT_task env st w authorization id reqBody))
           = users st
        /\ (forall x,
              In x (tasks (snd (Server.PUT_task env st w authorization id reqBody))) ->
              x = saved \/ In x (tasks st)).
Proof.
  intros Hgate Hu Hid Hnd Hin Htid Howner.
  pose proof (fun reqBody =>
                put_owned_run env st w authorization reqUser owner id tid t
                  reqBody Hgate Hu Hid Hnd Hin Htid Howner) as Hrun.
  assert (Hempty : Server.PUT_task env st w authorization id emptyBody
                   = match TaskModel.validationMessages t with
                     | [] =>
                         ({| status := 200;
                             body := JObj [("message", JStr "Task updated successfully");
                                           ("task", TaskModel.toJSON t
                                                      (TaskModel.ownerRef t))] |},
                          st)
                     | (_ :: _) as msgs =>
                         (respondToError env (ValidationError "Task" msgs), st)
                     end).
  { rewrite Hrun.
    change (TaskRoutes.validateUpdate emptyBody)
      with (emptyBody, @nil FieldError).
    cbv iota. rewrite assignFields_empty, save_unmodified.
    now destruct (TaskModel.validationMessages t). }
  split; [|split; [|split]].
  - rewrite Hempty. now destruct (TaskModel.validationMessages t).
  - intros Hvalid. now rewrite Hempty, Hvalid.
  - intros Hinvalid. rewrite Hempty.
    destruct (TaskModel.validationMessages t); [congruence|reflexivity].
  - intros reqBody. rewrite Hrun.
    destruct (TaskRoutes.validateUpdate reqBody) as [b errors] eqn:Hval.
    assert (Hb : b_title b = option_map trim (b_title reqBody)
                 /\ b_description b = option_map trim (b_description reqBody)
                 /\ b_completed b = b_completed reqBody).
    { unfold TaskRoutes.validateUpdate in Hval. inversion Hval. auto. }
    destruct Hb as (Hbt & Hbd & Hbc).
    destruct errors as [|e errors]; [|simpl; discriminate].
    destruct (TaskModel.save w st t (TaskRoutes.assignFields t b))
      as [[saved st']|e] eqn:Hsave.
    + intros _. exists saved. simpl.
      apply save_inv in Hsave.
      destruct Hsave as (Sid & Stitle & Sdesc & Scompl & Suser & Screated & Susers & Stasks).
      destruct (assignFields_frame t b) as (Fid & Fuser & Fcreated & _).
      rewrite Stitle, Sdesc, Scompl, Sid, Suser, Screated.
      rewrite assignFields_title, assignFields_description,
        assignFields_completed, Hbt, Hbd, Hbc, Fid, Fuser, Fcreated.
      repeat split; auto.
      * destruct (b_title reqBody); simpl; [apply trim_idempotent|reflexivity].
      * destruct (b_description reqBody); simpl; [apply trim_idempotent|reflexivity].
    + apply save_throws in Hsave. destruct Hsave as [msgs ->].
      simpl. discriminate.
Qed.

Lemma put_modifies_only_given_fields_witness :
  Server.PUT_task (H := Reference.packages) Scenario.env0 Scenario.store0
    Scenario.later (Scenario.bearer Scenario.aliceToken)
    "64b0000000000000000000a1" emptyBody
  = ({| status := 200;
        body := JObj [("message", JStr "Task updated successfully");
                      ("task", TaskModel.toJSON Scenario.aliceTask
                                 (TaskModel.ownerRef Scenario.aliceTask))] |},
     Scenario.store0).
Proof.
  destruct (put_modifies_only_given_fields (H := Reference.packages)
              Scenario.env0 Scenario.store0 Scenario.later
              (Scenario.bearer Scenario.aliceToken)
              {| userId := "64b000000000000000000001";
                 user := UserModel.deselect Scenario.alice |}
              Scenario.aliceId
              "64b0000000000000000000a1" (OID "64b0000000000000000000a1")
              Scenario.aliceTask)
    as (_ & Hempty & _); [by_evaluation .. | exact (Hempty eq_refl)].
Defined.

(** ** Creating a task and reading it back *)

Section TaskCreate.
Context `{Packages}.

Lemma eqb_empty_false s : s <> "" -> String.eqb s "" = false.
Proof. intros Hs. now apply String.eqb_neq. Qed.

Lemma gtb_false_of_le a b : a <= b -> (a >? b) = false.
Proof. intros Hle. rewrite Z.gtb_ltb. apply Z.ltb_ge. exact Hle. Qed.

(** [POST] with nothing but an acceptable title. *)
Lemma create_with_title_only st w reqUser owner titleInput :
  castObjectId (userId reqUser) = Some owner ->
  trim titleInput <> "" ->
  charCount (trim titleInput) <= 200 ->
  strLength (trim titleInput) <= 200 ->
  let created :=
    {| task_id := newId w; title := trim titleInput; description := "";
       completed := false; task_user := owner;
       createdAt := now w; updatedAt := now w |} in
  let st' := {| users := users st; tasks := tasks st ++ [created] |} in
  TaskRoutes.createTask st w reqUser
    {| b_title := Some titleInput; b_description := None; b_completed := None |}
  = Ok ({| status := 201;
           body := JObj [("message", JStr "Task created successfully");
                         ("task", TaskModel.toJSON created
                                    (TaskModel.populateUser st' created))] |},
        st').
Proof.
  intros Hu Hne Hcount Hlen created st'.
  unfold TaskRoutes.createTask, TaskRoutes.validateCreate. simpl.
  rewrite (eqb_empty_false _ Hne), (gtb_false_of_le _ _ Hcount). simpl.
  unfold TaskModel.createAndSave. rewrite Hu.
  rewrite trim_idempotent, trim_empty.
  unfold TaskModel.validationMessages. simpl.
  rewrite (eqb_empty_false _ Hne), (gtb_false_of_le _ _ Hlen), strLength_empty.
  simpl. reflexivity.
Qed.

(** [populate('user', 'username email')] on a task whose owner is
    stored. *)
Lemma populateUser_of_stored_owner st t u :
  In u (users st) -> user_id u = task_user t ->
  exists v,
    In v (users st) /\ user_id v = task_user t
    /\ TaskModel.populateUser st t
       = JObj [("_id", JStr (toHexString (task_user t)));
               ("username", JStr (username v));
               ("email", JStr (email v))].
Proof.
  intros Hin Hid. unfold TaskModel.populateUser.
  destruct (find (fun v => oid_eqb (user_id v) (task_user t)) (users st))
    as [v|] eqn:Hfind.
  - apply find_some in Hfind. destruct Hfind as [Hv Heq].
    apply oid_eqb_eq in Heq. exists v. now rewrite Heq.
  - pose proof (find_none _ _ Hfind u Hin) as Hno. simpl in Hno.
    rewrite Hid, oid_eqb_refl in Hno. discriminate.
Qed.

End TaskCreate.

(** C9.  A task created from a body holding only a title (one that the
    validation chain and the schema accept) is stored with the trimmed
    title, the empty description and [completed = false]; the 201 answer
    carries these values with the owner's public fields, and a later
    [GET /api/tasks] by the same caller lists the task with these
    values. *)
Theorem create_then_read_applies_defaults `{Packages}
    env st w w' authorization reqUser owner titleInput :
  Middleware.authenticate env st w authorization = Passed reqUser ->
  Middleware.authenticate env st w' authorization = Passed reqUser ->
  castObjectId (userId reqUser) = Some owner ->
  trim titleInput <> "" ->
  charCount (trim titleInput) <= 200 ->
  strLength (trim titleInput) <= 200 ->
  let posted :=
    Server.POST_tasks env st w authorization
      {| b_title := Some titleInput; b_description := None;
         b_completed := None |} in
  exists u,
    In u (users st) /\ user_id u = owner
    /\ fst posted
       = {| status := 201;
            body := JObj [("message", JStr "Task created successfully");
                          ("task",
                           JObj [("_id", JStr (toHexString (newId w)));
                                 ("title", JStr (trim titleInput));
                                 ("description", JStr "");
                                 ("completed", JBool false);
                                 ("user",
                                  JObj [("_id", JStr (toHexString owner));
                                        ("username", JStr (username u));
                                        ("email", JStr (email u))]);
                                 ("createdAt", JNum (now w));
                                 ("updatedAt", JNum (now w));
                                 ("__v", JNum 0)])] |}
    /\ snd posted
       = {| users := users st;
            tasks := tasks st
                     ++ [{| task_id := newId w; title := trim titleInput;
                            description := ""; completed := false;
                            task_user := owner; createdAt := now w;
                            updatedAt := now w |}] |}
    /\ exists listed,
         fst (Server.GET_tasks env (snd posted) w' authorization)
         = {| status := 200;
              body := JObj [("message", JStr "Tasks retrieved successfully");
                            ("count", JNum (Z.of_nat (length listed)));
                            ("tasks", JArr listed)] |}
         /\ In (JObj [("_id", JStr (toHexString (newId w)));
                      ("title", JStr (trim titleInput));
                      ("description", JStr "");
                      ("completed", JBool false);
                      ("user", JStr (toHexString owner));
                      ("createdAt", JNum (now w));
                      ("updatedAt", JNum (now w));
                      ("__v", JNum 0)])
               listed.
Proof.
  intros Hgate Hgate' Hu Hne Hcount Hlen posted.
  pose proof (create_with_title_only st w reqUser owner titleInput
                Hu Hne Hcount Hlen) as Hcreate.
  cbv zeta in Hcreate.
  set (created := {| task_id := newId w; title := trim titleInput;
                     description := ""; completed := false;
                     task_user := owner; createdAt := now w;
                     updatedAt := now w |}) in *.
  set (st' := {| users := users st; tasks := (tasks st ++ [created])%list |}) in *.
  assert (Hposted : posted
                    = ({| status := 201;
                          body := JObj [("message", JStr "Task created successfully");
                                        ("task", TaskModel.toJSON created
                                                   (TaskModel.populateUser st' created))] |},
                       st')).
  { unfold posted, Server.POST_tasks, Server.protected.
    now rewrite Hgate, Hcreate. }
  destruct (gate_passed_inv env st w authorization reqUser Hgate)
    as (owner' & u0 & Hcast & Hin0 & Hid0 & _).
  assert (owner' = owner) as -> by congruence.
  destruct (populateUser_of_stored_owner st' created u0 Hin0 Hid0)
    as (u & Hin & Hid & Hpop).
  exists u. rewrite Hposted. simpl.
  split; [exact Hin|]. split; [exact Hid|].
  split; [now rewrite Hpop|]. split; [reflexivity|].
  set (found := TaskModel.sortNewestFirst
                  (filter (fun x => oid_eqb (task_user x) owner) (tasks st'))).
  exists (map (fun x => TaskModel.toJSON x (TaskModel.ownerRef x)) found).
  split.
  - unfold Server.GET_tasks, Server.protected.
    rewrite (gate_reads_users env st' st w' authorization eq_refl), Hgate'.
    unfold TaskRoutes.listTasks, TaskModel.findByUser. rewrite Hu. simpl.
    now rewrite length_map.
  - apply in_map_iff. exists created. split; [reflexivity|].
    unfold found. rewrite sortNewestFirst_In, filter_In. split.
    + simpl. apply in_or_app. right. now left.
    + apply oid_eqb_refl.
Qed.

Lemma create_then_read_applies_defaults_witness :
  exists listed,
    fst (Server.GET_tasks (H := Reference.packages) Scenario.env0
           (snd (Server.POST_tasks (H := Reference.packages) Scenario.env0
                   Scenario.store0 Scenario.later
                   (Scenario.bearer Scenario.aliceToken)
                   {| b_title := Some "  Buy milk ";
                      b_description := None; b_completed := None |}))
           Scenario.later (Scenario.bearer Scenario.aliceToken))
    = {| status := 200;
         body := JObj [("message", JStr "Tasks retrieved successfully");
                       ("count", JNum (Z.of_nat (length listed)));
                       ("tasks", JArr listed)] |}
    /\ In (JObj [("_id", JStr "64b0000000000000000000c2");
                 ("title", JStr "Buy milk");
                 ("description", JStr "");
                 ("completed", JBool false);
                 ("user", JStr "64b000000000000000000001");
                 ("createdAt", JNum 90000);
                 ("updatedAt", JNum 90000);
                 ("__v", JNum 0)])
          listed.
Proof.
  destruct (create_then_read_applies_defaults (H := Reference.packages)
              Scenario.env0 Scenario.store0 Scenario.later Scenario.later
              (Scenario.bearer Scenario.aliceToken)
              {| userId := "64b000000000000000000001";
                 user := UserModel.deselect Scenario.alice |}
              Scenario.aliceId "  Buy milk ")
    as (u & _ & _ & _ & _ & listed & Hget & Hin);
    [by_evaluation .. | ].
  exists listed. split; [exact Hget | exact Hin].
Defined.

(** ** Login failures *)

Section Login.
Context `{Packages}.

(** Under a unique key, a filter on the key selects one document. *)
Lemma filter_unique {A} (key : A -> string) (k : string) (l : list A) (x : A) :
  NoDup (map key l) -> In x l -> key x = k ->
  filter (fun y => String.eqb (key y) k) l = [x].
Proof.
  induction l as [|a l IH]; simpl; [contradiction|].
  intros Hnd Hin Hk. inversion Hnd as [|? ? Hnotin Hnd']; subst.
  destruct Hin as [->|Hin].
  - rewrite String.eqb_refl. f_equal.
    apply filter_nil_iff. intros y Hy. apply String.eqb_neq.
    intros Hyk. apply Hnotin. rewrite <- Hyk. now apply in_map.
  - destruct (String.eqb_spec (key a) (key x)) as [Ha|Ha].
    + exfalso. apply Hnotin. rewrite Ha. now apply in_map.
    + now apply IH.
Qed.

Lemma unregistered_email_not_found st w e :
  (forall v, In v (users st) -> email v <> toLowerCase (trim e)) ->
  UserModel.findOneByEmailWithPassword st w e = None.
Proof.
  intros Hnone. unfold UserModel.findOneByEmailWithPassword.
  apply pickOne_none, filter_nil_iff. intros v Hin.
  apply String.eqb_neq. now apply Hnone.
Qed.

Lemma registered_email_found st w u e :
  NoDup (map email (users st)) -> In u (users st) ->
  email u = toLowerCase (trim e) ->
  UserModel.findOneByEmailWithPassword st w e = Some u.
Proof.
  intros Hnd Hin He. unfold UserModel.findOneByEmailWithPassword.
  unfold UserModel.emailIs.
  rewrite (filter_unique email _ (users st) u Hnd Hin He).
  apply pickOne_single.
Qed.

Lemma validateLogin_body reqBody :
  fst (AuthRoutes.validateLogin reqBody)
  = {| lb_email := normalizeEmail (lb_email reqBody);
       lb_password := lb_password reqBody |}.
Proof. reflexivity. Qed.

(** The handler of [/login] once the chain has let the body through. *)
Lemma login_run env st w reqBody :
  snd (AuthRoutes.validateLogin reqBody) = [] ->
  AuthRoutes.login env st w reqBody
  = match UserModel.findOneByEmailWithPassword st w
            (normalizeEmail (lb_email reqBody)) with
    | None =>
        {| status := 401;
           body := JObj [("error", JStr "Invalid credentials");
                         ("message", JStr "Email or password is incorrect")] |}
    | Some u =>
        match UserModel.comparePassword u (lb_password reqBody) with
        | Throw error => respondToError env error
        | Ok isPasswordValid =>
            if negb isPasswordValid
            then
              {| status := 401;
                 body := JObj [("error", JStr "Invalid credentials");
                               ("message", JStr "Email or password is incorrect")] |}
            else
              {| status := 200;
                 body := JObj [("message", JStr "Login successful");
                               ("token", JStr (AuthRoutes.generateToken env w (user_id u)));
                               ("user", AuthRoutes.projection u)] |}
        end
    end.
Proof.
  intros Hv. unfold AuthRoutes.login.
  destruct (AuthRoutes.validateLogin reqBody) as [b errors] eqn:Hval.
  pose proof (validateLogin_body reqBody) as Hb.
  rewrite Hval in Hb. simpl in Hb, Hv. subst b errors. reflexivity.
Qed.

(** With a password that is a string, the two failures of [/login] get
    one and the same answer. *)
Lemma login_failures_identical_on_strings env st w unknown known u plain digest :
  snd (AuthRoutes.validateLogin unknown) = [] ->
  snd (AuthRoutes.validateLogin known) = [] ->
  (forall v, In v (users st) ->
             email v <> toLowerCase (trim (normalizeEmail (lb_email unknown)))) ->
  NoDup (map email (users st)) ->
  In u (users st) ->
  email u = toLowerCase (trim (normalizeEmail (lb_email known))) ->
  password u = Some digest ->
  lb_password known = JStr plain ->
  bcryptCompare plain digest = false ->
  Server.POST_login env st w unknown = Server.POST_login env st w known
  /\ fst (Server.POST_login env st w unknown)
     = {| status := 401;
          body := JObj [("error", JStr "Invalid credentials");
                        ("message", JStr "Email or password is incorrect")] |}.
Proof.
  intros Hv1 Hv2 Hunknown Hnd Hin Hemail Hpw Hplain Hcmp.
  unfold Server.POST_login.
  rewrite (login_run env st w unknown Hv1), (login_run env st w known Hv2).
  rewrite (unregistered_email_not_found st w _ Hunknown).
  rewrite (registered_email_found st w u _ Hnd Hin Hemail).
  unfold UserModel.comparePassword. rewrite Hplain, Hpw, Hcmp.
  split; reflexivity.
Qed.

End Login.

(** C3, where the code departs from it.  The chain on [password] is
    [notEmpty()] alone, so a number passes it and reaches
    [bcrypt.compare], which refuses it.  With such a password, a login
    for a stored address is answered 500 through the error middleware,
    and a login for an address no user has is answered 401: the two
    answers differ, and tell whether the address is registered. *)
Theorem login_numeric_password_tells_emails_apart `{Packages}
    env st w unknown known u digest n :
  snd (AuthRoutes.validateLogin unknown) = [] ->
  snd (AuthRoutes.validateLogin known) = [] ->
  lb_password unknown = JNum n ->
  lb_password known = JNum n ->
  (forall v, In v (users st) ->
             email v <> toLowerCase (trim (normalizeEmail (lb_email unknown)))) ->
  NoDup (map email (users st)) ->
  In u (users st) ->
  email u = toLowerCase (trim (normalizeEmail (lb_email known))) ->
  password u = Some digest ->
  fst (Server.POST_login env st w unknown)
  = {| status := 401;
       body := JObj [("error", JStr "Invalid credentials");
                     ("message", JStr "Email or password is incorrect")] |}
  /\ fst (Server.POST_login env st w known)
     = {| status := 500;
          body := JObj ([("success", JBool false);
                         ("error", JStr "Illegal arguments: number, string")]
                        ++ match env_NODE_ENV env with
                           | Some mode =>
                               if String.eqb mode "development"
                               then [("stack",
                                      JStr "Error: Illegal arguments: number, string")]
                               else []
                           | None => []
                           end) |}
  /\ status (fst (Server.POST_login env st w unknown))
     <> status (fst (Server.POST_login env st w known)).
Proof.
  intros Hv1 Hv2 Hp1 Hp2 Hunknown Hnd Hin Hemail Hpw.
  assert (H1 : AuthRoutes.login env st w unknown
               = {| status := 401;
                    body := JObj [("error", JStr "Invalid credentials");
                                  ("message", JStr "Email or password is incorrect")] |}).
  { rewrite (login_run env st w unknown Hv1).
    now rewrite (unregistered_email_not_found st w _ Hunknown). }
  assert (H2 : AuthRoutes.login env st w known
               = respondToError env
                   (plainError "Error" "Illegal arguments: number, string")).
  { rewrite (login_run env st w known Hv2).
    rewrite (registered_email_found st w u _ Hnd Hin Hemail).
    unfold UserModel.comparePassword. now rewrite Hp2, Hpw. }
  unfold Server.POST_login. simpl. rewrite H1, H2.
  split; [reflexivity|]. split; [reflexivity|]. simpl. discriminate.
Qed.

Lemma login_numeric_password_tells_emails_apart_witness :
  fst (Server.POST_login (H := Reference.packages) Scenario.env0 Scenario.store0
         Scenario.later
         {| lb_email := "nobody@example.com"; lb_password := JNum 12345 |})
  = {| status := 401;
       body := JObj [("error", JStr "Invalid credentials");
                     ("message", JStr "Email or password is incorrect")] |}
  /\ fst (Server.POST_login (H := Reference.packages) Scenario.env0
            Scenario.store0 Scenario.later
            {| lb_email := "alice@example.com"; lb_password := JNum 12345 |})
     = {| status := 500;
          body := JObj [("success", JBool false);
                        ("error", JStr "Illegal arguments: number, string")] |}.
Proof.
  destruct (login_numeric_password_tells_emails_apart (H := Reference.packages)
              Scenario.env0 Scenario.store0 Scenario.later
              {| lb_email := "nobody@example.com"; lb_password := JNum 12345 |}
              {| lb_email := "alice@example.com"; lb_password := JNum 12345 |}
              Scenario.alice "pepper$wonderland" 12345)
    as (Hunknown & Hknown & _);
    [by_evaluation .. | exact (conj Hunknown Hknown)].
Defined.

(** ** Registration against an existing user *)

Section Register.
Context `{Packages}.

Lemma validateRegister_body reqBody :
  fst (AuthRoutes.validateRegister reqBody)
  = {| rb_username := trim (rb_username reqBody);
       rb_email := normalizeEmail (rb_email reqBody);
       rb_password := rb_password reqBody |}.
Proof. reflexivity. Qed.



(** The lookup finds nobody exactly when no stored user has the address
    or the name. *)
Lemma lookup_none_iff st w e n :
  UserModel.findOneByEmailOrUsername st w e n = None
  <-> forall v, In v (users st) ->
                email v <> toLowerCase (trim e) /\ username v <> trim n.
Proof.
  unfold UserModel.findOneByEmailOrUsername. split.
  - intros Hnone v Hin.
    destruct (pickOne w _) eqn:Hpick; [discriminate|].
    apply pickOne_none in Hpick.
    pose proof (proj1 (filter_nil_iff _ _) Hpick v Hin) as Hno. simpl in Hno.
    apply orb_false_iff in Hno.
    unfold UserModel.emailIs, UserModel.usernameIs in Hno.
    now rewrite !String.eqb_neq in Hno.
  - intros Hall.
    assert (filter (fun u => UserModel.emailIs e u || UserModel.usernameIs n u)
                   (users st) = []) as ->.
    { apply filter_nil_iff. intros v Hin. destruct (Hall v Hin) as [He Hn].
      apply orb_false_iff. unfold UserModel.emailIs, UserModel.usernameIs.
      now rewrite !String.eqb_neq. }
    now rewrite (proj2 (pickOne_none w (@nil User)) eq_refl).
Qed.

End Register.



(** ** Successful registration and login *)

Section Issuance.
Context `{Packages}.

Lemma user_save_inv w st u u' st' :
  UserModel.save w st u = Ok (u', st') ->
  u' = UserModel.preSave w u
  /\ st' = {| users := (users st ++ [u'])%list; tasks := tasks st |}.
Proof.
  unfold UserModel.save.
  destruct (UserModel.validationMessages u); [|discriminate].
  destruct (existsb _ _); [discriminate|].
  destruct (existsb _ _); [discriminate|].
  intros [= <- <-]. auto.
Qed.

Lemma user_save_error_status env w st u e :
  UserModel.save w st u = Throw e -> status (respondToError env e) = 400.
Proof.
  unfold UserModel.save.
  destruct (UserModel.validationMessages u).
  - destruct (existsb _ _); [now intros [= <-]|].
    destruct (existsb _ _); [now intros [= <-]|discriminate].
  - now intros [= <-].
Qed.

(** A 201 from [/register]: one user was appended, built from the
    sanitized body with the identity drawn for it and the digest of its
    password, and the answer carries a token for that identity beside the
    projection. *)
Lemma register_created_user env st w reqBody :
  status (fst (AuthRoutes.register env st w reqBody)) = 201 ->
  exists u,
    AuthRoutes.register env st w reqBody
    = ({| status := 201;
          body := JObj [("message", JStr "User registered successfully");
                        ("token", JStr (AuthRoutes.generateToken env w (user_id u)));
                        ("user", AuthRoutes.projection u)] |},
       {| users := (users st ++ [u])%list; tasks := tasks st |})
    /\ u = UserModel.preSave w
             (UserModel.create w (trim (rb_username reqBody))
                (normalizeEmail (rb_email reqBody)) (rb_password reqBody)).
Proof.
  unfold AuthRoutes.register.
  destruct (AuthRoutes.validateRegister reqBody) as [b errors] eqn:Hval.
  pose proof (validateRegister_body reqBody) as Hb.
  rewrite Hval in Hb. simpl in Hb.
  destruct errors; [|simpl; discriminate].
  destruct (UserModel.findOneByEmailOrUsername st w (rb_email b) (rb_username b));
    [simpl; discriminate|].
  destruct (UserModel.save w st _) as [[u' st']|e] eqn:Hsave.
  - intros _. apply user_save_inv in Hsave. destruct Hsave as [Hu' ->].
    exists u'. split; [reflexivity|]. subst u' b. reflexivity.
  - intros Hs. change (status (respondToError env e) = 201) in Hs.
    rewrite (user_save_error_status env w st _ e Hsave) in Hs. discriminate.
Qed.

Lemma register_created env st w reqBody :
  status (fst (AuthRoutes.register env st w reqBody)) = 201 ->
  exists u,
    AuthRoutes.register env st w reqBody
    = ({| status := 201;
          body := JObj [("message", JStr "User registered successfully");
                        ("token", JStr (AuthRoutes.generateToken env w (user_id u)));
                        ("user", AuthRoutes.projection u)] |},
       {| users := (users st ++ [u])%list; tasks := tasks st |})
    /\ user_id u = newId w
    /\ password u = Some (bcryptHash (rb_password reqBody) (salt w)).
Proof.
  intros Hs. destruct (register_created_user env st w reqBody Hs) as (u & Hreg & Hu).
  exists u. split; [exact Hreg|]. subst u. split; reflexivity.
Qed.

(** A 200 from [/login]: a stored user with the requested address whose
    digest accepts the password, a string, and a token for its
    identity. *)
Lemma login_accepted env st w reqBody :
  status (AuthRoutes.login env st w reqBody) = 200 ->
  exists u plain digest,
    In u (users st)
    /\ email u = toLowerCase (trim (normalizeEmail (lb_email reqBody)))
    /\ lb_password reqBody = JStr plain
    /\ password u = Some digest
    /\ bcryptCompare plain digest = true
    /\ AuthRoutes.login env st w reqBody
       = {| status := 200;
            body := JObj [("message", JStr "Login successful");
                          ("token", JStr (AuthRoutes.generateToken env w (user_id u)));
                          ("user", AuthRoutes.projection u)] |}.
Proof.
  unfold AuthRoutes.login.
  destruct (AuthRoutes.validateLogin reqBody) as [b errors] eqn:Hval.
  pose proof (validateLogin_body reqBody) as Hb.
  rewrite Hval in Hb. simpl in Hb. subst b. simpl.
  destruct errors; [|simpl; discriminate].
  destruct (UserModel.findOneByEmailWithPassword st w _) as [u|] eqn:Hfind;
    [|simpl; discriminate].
  apply pickOne_In, filter_In in Hfind. destruct Hfind as [Hin Hm].
  apply String.eqb_eq in Hm.
  unfold UserModel.comparePassword.
  destruct (lb_password reqBody) as [|b|z|plain|items|fields|html];
    destruct (password u) as [digest|] eqn:Hpw; simpl;
    try (intros Hs; vm_compute in Hs; discriminate).
  destruct (bcryptCompare plain digest) eqn:Hcmp; simpl; [|discriminate].
  intros _. exists u, plain, digest. repeat (split; [assumption || reflexivity|]).
  reflexivity.
Qed.

(** A 200 from [/login]: a stored user, and a token for its identity. *)
Lemma login_succeeded env st w reqBody :
  status (AuthRoutes.login env st w reqBody) = 200 ->
  exists u,
    In u (users st)
    /\ AuthRoutes.login env st w reqBody
       = {| status := 200;
            body := JObj [("message", JStr "Login successful");
                          ("token", JStr (AuthRoutes.generateToken env w (user_id u)));
                          ("user", AuthRoutes.projection u)] |}.
Proof.
  intros Hs.
  destruct (login_accepted env st w reqBody Hs)
    as (u & plain & digest & Hin & _ & _ & _ & _ & Hlog).
  now exists u.
Qed.

End Issuance.

(** ** Session tokens at the gate *)

Section Tokens.
Context `{Packages}.

(** The gate on a header of the shape [Bearer <token>]. *)
Lemma gate_on_bearer env st w token :
  Middleware.authenticate env st w (Some ("Bearer " ++ token))
  = match jwt.verify token (Middleware.JWT_SECRET env) (now w) with
    | Throw _ => Rejected Middleware.invalidToken
    | Ok decoded =>
        match UserModel.findById st (jwt_userId decoded) with
        | Throw error => Failed error
        | Ok None => Rejected Middleware.userGone
        | Ok (Some u) => Passed {| userId := jwt_userId decoded; user := u |}
        end
    end.
Proof.
  unfold Middleware.authenticate, Str.startsWith. cbn.
  destruct token; reflexivity.
Qed.

(** Past its expiry a token does not verify, whatever its signature. *)
Lemma verify_expired token secret nowMs t e :
  jwtDecode token = Some t ->
  jwt_exp (jwt_payload t) = Some e ->
  e <= jwt.timestamp nowMs ->
  exists error, jwt.verify token secret nowMs = Throw error.
Proof.
  intros Hdec Hexp Hpast. unfold jwt.verify.
  destruct (String.eqb token ""); [eauto|]. rewrite Hdec.
  destruct (negb _); [eauto|]. rewrite Hexp.
  assert ((jwt.timestamp nowMs >=? e) = true) as ->
      by (rewrite Z.geb_leb; now apply Z.leb_le).
  eauto.
Qed.

(** Before its expiry a token signed under the secret verifies to its
    payload. *)
Lemma verify_valid token secret nowMs t e :
  token <> "" ->
  jwtDecode token = Some t ->
  jwt_signature t = hmacSign secret (jwt_payload t) ->
  jwt_exp (jwt_payload t) = Some e ->
  jwt.timestamp nowMs < e ->
  jwt.verify token secret nowMs = Ok (jwt_payload t).
Proof.
  intros Hne Hdec Hsig Hexp Hwin. unfold jwt.verify.
  rewrite (eqb_empty_false _ Hne), Hdec, Hsig, String.eqb_refl, Hexp. simpl.
  assert ((jwt.timestamp nowMs >=? e) = false) as ->
      by (rewrite Z.geb_leb; now apply Z.leb_gt).
  reflexivity.
Qed.

Lemma expired_token_rejected env st w token t e handler :
  jwtDecode token = Some t ->
  jwt_exp (jwt_payload t) = Some e ->
  e <= jwt.timestamp (now w) ->
  Server.protected env st w (Some ("Bearer " ++ token)) handler
  = (Middleware.invalidToken, st).
Proof.
  intros Hdec Hexp Hpast. unfold Server.protected. rewrite gate_on_bearer.
  destruct (verify_expired token (Middleware.JWT_SECRET env) (now w) t e
              Hdec Hexp Hpast) as [error ->].
  reflexivity.
Qed.

End Tokens.

(** C4.  The token of [generateToken] (the one a 201 of [/register] and
    a 200 of [/login] carry beside the user projection) embeds the
    identity, the second of issuance, and an expiry exactly
    7 * 24 * 60 * 60 seconds after it.  A token whose embedded expiry is
    not after the current second is answered 401 on each of the four
    task routes, whatever its signature; before its expiry a token signed
    under the secret verifies to its payload, hence to the embedded
    identity. *)
Theorem session_token_lifetime `{Packages} env st w w' token t e :
  jwtDecode token = Some t ->
  jwt_exp (jwt_payload t) = Some e ->
  (forall w0 uid,
      AuthRoutes.generateToken env w0 uid
      = jwtEncode
          {| jwt_payload :=
               {| jwt_userId := toHexString uid;
                  jwt_iat := now w0 / 1000;
                  jwt_exp := Some (now w0 / 1000 + 7 * 24 * 60 * 60) |};
             jwt_signature :=
               hmacSign (AuthRoutes.JWT_SECRET env)
                 {| jwt_userId := toHexString uid;
                    jwt_iat := now w0 / 1000;
                    jwt_exp := Some (now w0 / 1000 + 7 * 24 * 60 * 60) |} |})
  /\ (forall st0 w0 reqBody,
        status (fst (Server.POST_register env st0 w0 reqBody)) = 201 ->
        exists u,
          field "token" (body (fst (Server.POST_register env st0 w0 reqBody)))
          = Some (JStr (AuthRoutes.generateToken env w0 (user_id u)))
          /\ field "user" (body (fst (Server.POST_register env st0 w0 reqBody)))
             = Some (AuthRoutes.projection u))
  /\ (forall st0 w0 reqBody,
        status (fst (Server.POST_login env st0 w0 reqBody)) = 200 ->
        exists u,
          field "token" (body (fst (Server.POST_login env st0 w0 reqBody)))
          = Some (JStr (AuthRoutes.generateToken env w0 (user_id u)))
          /\ field "user" (body (fst (Server.POST_login env st0 w0 reqBody)))
             = Some (AuthRoutes.projection u))
  /\ (e <= jwt.timestamp (now w) ->
      forall id reqBody,
        status (fst (Server.GET_tasks env st w (Some ("Bearer " ++ token)))) = 401
        /\ status (fst (Server.POST_tasks env st w (Some ("Bearer " ++ token))
                          reqBody)) = 401
        /\ status (fst (Server.PUT_task env st w (Some ("Bearer " ++ token))
                          id reqBody)) = 401
        /\ status (fst (Server.DELETE_task env st w (Some ("Bearer " ++ token))
                          id)) = 401)
  /\ (token <> "" ->
      jwt_signature t = hmacSign (Middleware.JWT_SECRET env) (jwt_payload t) ->
      jwt.timestamp (now w') < e ->
      jwt.verify token (Middleware.JWT_SECRET env) (now w') = Ok (jwt_payload t)).
Proof.
  intros Hdec Hexp.
  split; [reflexivity|]. split; [|split; [|split]].
  - intros st0 w0 reqBody Hs.
    destruct (register_created env st0 w0 reqBody Hs) as (u & Hreg & _).
    exists u. unfold Server.POST_register. rewrite Hreg. split; reflexivity.
  - intros st0 w0 reqBody Hs.
    destruct (login_succeeded env st0 w0 reqBody Hs) as (u & _ & Hlog).
    exists u. unfold Server.POST_login. rewrite Hlog. split; reflexivity.
  - intros Hpast id reqBody.
    unfold Server.GET_tasks, Server.POST_tasks, Server.PUT_task,
      Server.DELETE_task.
    rewrite !(expired_token_rejected env st w token t e _ Hdec Hexp Hpast).
    repeat split; reflexivity.
  - intros Hne Hsig Hwin. now apply (verify_valid token _ _ t e).
Qed.

Lemma session_token_lifetime_witness :
  status (fst (Server.GET_tasks (H := Reference.packages) Scenario.env0
                 Scenario.store0 Scenario.tooLate
                 (Some ("Bearer " ++ Scenario.aliceToken)))) = 401
  /\ jwt.verify (H := Reference.packages) Scenario.aliceToken
       (Middleware.JWT_SECRET Scenario.env0) (now Scenario.later)
     = Ok {| jwt_userId := "64b000000000000000000001"; jwt_iat := 5;
             jwt_exp := Some 604805 |}.
Proof.
  destruct (session_token_lifetime (H := Reference.packages)
              Scenario.env0 Scenario.store0 Scenario.tooLate Scenario.later
              Scenario.aliceToken
              {| jwt_payload := {| jwt_userId := "64b000000000000000000001";
                                   jwt_iat := 5; jwt_exp := Some 604805 |};
                 jwt_signature :=
                   Reference.hmac "your-secret-key-change-in-production"
                     {| jwt_userId := "64b000000000000000000001";
                        jwt_iat := 5; jwt_exp := Some 604805 |} |}
              604805)
    as (_ & _ & _ & Hexpired & Hvalid); [by_evaluation .. | ].
  split.
  - apply (Hexpired ltac:(by_evaluation) "64b0000000000000000000a1" emptyBody).
  - apply Hvalid; by_evaluation.
Defined.

(** ** Issuance and verification agree on the secret *)

Section SecretAgreement.
Context `{Packages}.

Lemma find_some_of_In {A} (p : A -> bool) (l : list A) (x : A) :
  In x l -> p x = true -> exists y, find p l = Some y /\ p y = true.
Proof.
  intros Hin Hp. destruct (find p l) as [y|] eqn:Hfind.
  - exists y. split; [reflexivity|]. now apply find_some in Hfind.
  - rewrite (find_none p l Hfind x Hin) in Hp. discriminate.
Qed.

(** A token of [generateToken], presented before its expiry for a
    stored user, passes the gate under that user's identity. *)
Lemma issued_token_passes env st w w' uid u :
  (forall t, jwtDecode (jwtEncode t) = Some t) ->
  (forall t, jwtEncode t <> "") ->
  castObjectId (toHexString uid) = Some uid ->
  In u (users st) -> user_id u = uid ->
  jwt.timestamp (now w') < jwt.timestamp (now w) + jwt.sevenDays ->
  exists reqUser,
    Middleware.authenticate env st w'
      (Some ("Bearer " ++ AuthRoutes.generateToken env w uid))
    = Passed reqUser
    /\ userId reqUser = toHexString uid
    /\ user_id (user reqUser) = uid.
Proof.
  intros Hcodec Hne Hcast Hin Hid Hwin.
  rewrite gate_on_bearer.
  set (payload := {| jwt_userId := toHexString uid;
                     jwt_iat := jwt.timestamp (now w);
                     jwt_exp := Some (jwt.timestamp (now w) + jwt.sevenDays) |}).
  set (t := {| jwt_payload := payload;
               jwt_signature := hmacSign (AuthRoutes.JWT_SECRET env) payload |}).
  change (AuthRoutes.generateToken env w uid) with (jwtEncode t).
  assert (Hverify : jwt.verify (jwtEncode t) (Middleware.JWT_SECRET env) (now w')
                    = Ok payload).
  { apply (verify_valid _ _ _ t (jwt.timestamp (now w) + jwt.sevenDays));
      auto; reflexivity. }
  rewrite Hverify. simpl. unfold UserModel.findById. rewrite Hcast.
  destruct (find_some_of_In (fun v => oid_eqb (user_id v) uid) (users st) u Hin)
    as (y & Hfind & Hy); [subst uid; apply oid_eqb_refl|].
  rewrite Hfind. simpl. eexists. split; [reflexivity|]. simpl.
  split; [reflexivity|]. now apply oid_eqb_eq.
Qed.

End SecretAgreement.

(** C10.  The auth routes and the gate each compute the signing secret
    from the same environment variable with the same fallback, so the two
    values are equal, configured or not.  Consequently a token issued for
    a stored user (by [generateToken], hence by a 201 of [/register] and
    a 200 of [/login]) passes the gate before its expiry, under the very
    identity it was issued for.  The compact serialisation is assumed to
    parse back and to be non-empty; identities are assumed to be in the
    canonical form the cast accepts. *)
Theorem issued_tokens_pass_the_gate `{Packages} env :
  (forall t, jwtDecode (jwtEncode t) = Some t) ->
  (forall t, jwtEncode t <> "") ->
  AuthRoutes.JWT_SECRET env = Middleware.JWT_SECRET env
  /\ (env_JWT_SECRET env = None ->
      AuthRoutes.JWT_SECRET env = "your-secret-key-change-in-production"
      /\ Middleware.JWT_SECRET env = "your-secret-key-change-in-production")
  /\ (forall st w w' uid u,
        castObjectId (toHexString uid) = Some uid ->
        In u (users st) -> user_id u = uid ->
        jwt.timestamp (now w') < jwt.timestamp (now w) + jwt.sevenDays ->
        exists reqUser,
          Middleware.authenticate env st w'
            (Some ("Bearer " ++ AuthRoutes.generateToken env w uid))
          = Passed reqUser
          /\ userId reqUser = toHexString uid
          /\ user_id (user reqUser) = uid)
  /\ (forall st w w' reqBody,
        status (fst (Server.POST_register env st w reqBody)) = 201 ->
        castObjectId (toHexString (newId w)) = Some (newId w) ->
        jwt.timestamp (now w') < jwt.timestamp (now w) + jwt.sevenDays ->
        exists token u reqUser,
          field "token" (body (fst (Server.POST_register env st w reqBody)))
          = Some (JStr token)
          /\ field "user" (body (fst (Server.POST_register env st w reqBody)))
             = Some (AuthRoutes.projection u)
          /\ Middleware.authenticate env
               (snd (Server.POST_register env st w reqBody)) w'
               (Some ("Bearer " ++ token))
             = Passed reqUser
          /\ userId reqUser = toHexString (user_id u))
  /\ (forall st w w' reqBody,
        status (fst (Server.POST_login env st w reqBody)) = 200 ->
        (forall v, In v (users st) ->
                   castObjectId (toHexString (user_id v)) = Some (user_id v)) ->
        jwt.timestamp (now w') < jwt.timestamp (now w) + jwt.sevenDays ->
        exists token u reqUser,
          field "token" (body (fst (Server.POST_login env st w reqBody)))
          = Some (JStr token)
          /\ field "user" (body (fst (Server.POST_login env st w reqBody)))
             = Some (AuthRoutes.projection u)
          /\ Middleware.authenticate env st w' (Some ("Bearer " ++ token))
             = Passed reqUser
          /\ userId reqUser = toHexString (user_id u)).
Proof.
  intros Hcodec Hne.
  split; [reflexivity|]. split; [|split; [|split]].
  - intros Hnone. unfold AuthRoutes.JWT_SECRET, Middleware.JWT_SECRET.
    rewrite Hnone. split; reflexivity.
  - intros st w w' uid u. now apply issued_token_passes.
  - intros st w w' reqBody Hs Hcast Hwin.
    destruct (register_created env st w reqBody Hs) as (u & Hreg & Hid & _).
    unfold Server.POST_register. rewrite Hreg. simpl.
    destruct (issued_token_passes env
                {| users := (users st ++ [u])%list; tasks := tasks st |}
                w w' (user_id u) u Hcodec Hne)
      as (reqUser & Hpass & Huid & _); auto.
    + now rewrite Hid.
    + simpl. apply in_or_app. right. now left.
    + exists (AuthRoutes.generateToken env w (user_id u)), u, reqUser. auto.
  - intros st w w' reqBody Hs Hcast Hwin.
    destruct (login_succeeded env st w reqBody Hs) as (u & Hin & Hlog).
    unfold Server.POST_login. rewrite Hlog. simpl.
    destruct (issued_token_passes env st w w' (user_id u) u Hcodec Hne)
      as (reqUser & Hpass & Huid & _); auto.
    exists (AuthRoutes.generateToken env w (user_id u)), u, reqUser. auto.
Qed.

Lemma issued_tokens_pass_the_gate_witness :
  Middleware.authenticate (H := Reference.packages) Scenario.env0
    Scenario.store0 Scenario.later
    (Some ("Bearer " ++ Scenario.aliceToken))
  = Passed {| userId := "64b000000000000000000001";
              user := UserModel.deselect Scenario.alice |}.
Proof.
  destruct (issued_tokens_pass_the_gate (H := Reference.packages) Scenario.env0
              reference_decode_encode reference_encode_nonempty)
    as (_ & _ & Hpass & _).
  destruct (Hpass Scenario.store0 Scenario.issued Scenario.later
              Scenario.aliceId Scenario.alice)
    as (reqUser & Hgate & _); [by_evaluation .. | ].
  unfold Scenario.aliceToken. rewrite Hgate.
  vm_compute in Hgate. injection Hgate as <-. reflexivity.
Defined.

(** ** The password digest stays out of every response *)

Section Digest.
Context `{Packages}.

Lemma deselect_password u : password (UserModel.deselect u) = None.
Proof. reflexivity. Qed.

Lemma findById_deselected st id u :
  UserModel.findById st id = Ok (Some u) -> password u = None.
Proof.
  unfold UserModel.findById. destruct (castObjectId id); [|discriminate].
  destruct (find _ _); simpl; [|discriminate]. now intros [= <-].
Qed.

Lemma findOneByEmailOrUsername_deselected st w e n u :
  UserModel.findOneByEmailOrUsername st w e n = Some u -> password u = None.
Proof.
  unfold UserModel.findOneByEmailOrUsername.
  destruct (pickOne _ _); simpl; [|discriminate]. now intros [= <-].
Qed.

Lemma respondToError_no_password env e :
  has_key "password" (body (respondToError env e)) = false.
Proof.
  unfold respondToError.
  destruct (errorHandler env e) as [r|thrown] eqn:Hr; [|reflexivity].
  unfold errorHandler in Hr.
  destruct (match err_code e with Some c => c =? 11000 | None => false end).
  - destruct (err_keyValue e) as [[|[k v] kvs]|]; try discriminate.
    simpl in Hr. injection Hr as <-. simpl.
    destruct (env_NODE_ENV env) as [mode|]; [|reflexivity].
    destruct (String.eqb mode "development"); reflexivity.
  - simpl in Hr. injection Hr as <-. simpl.
    destruct (env_NODE_ENV env) as [mode|]; [|reflexivity].
    destruct (String.eqb mode "development"); reflexivity.
Qed.

Lemma toJSON_no_password t owner :
  has_key "password" owner = false ->
  has_key "password" (TaskModel.toJSON t owner) = false.
Proof. intros Ho. unfold TaskModel.toJSON. simpl. now rewrite Ho. Qed.

Lemma populateUser_no_password st t :
  has_key "password" (TaskModel.populateUser st t) = false.
Proof. unfold TaskModel.populateUser. destruct (find _ _); reflexivity. Qed.

Lemma task_list_no_password (found : list Task) :
  existsb (has_key "password")
    (map (fun t => TaskModel.toJSON t (TaskModel.ownerRef t)) found) = false.
Proof.
  induction found as [|t found IH]; [reflexivity|].
  cbn [map existsb]. rewrite IH, toJSON_no_password; reflexivity.
Qed.

Hypothesis errorsArray_no_password :
  forall errors, has_key "password" (errorsArray errors) = false.

Lemma validationFailed_no_password errors :
  has_key "password" (body (validationFailed errors)) = false.
Proof.
  unfold validationFailed. simpl. now rewrite errorsArray_no_password.
Qed.

Lemma register_no_password env st w reqBody :
  has_key "password" (body (fst (AuthRoutes.register env st w reqBody))) = false.
Proof.
  unfold AuthRoutes.register.
  destruct (AuthRoutes.validateRegister reqBody) as [b [|e errors]];
    [|apply validationFailed_no_password].
  destruct (UserModel.findOneByEmailOrUsername _ _ _ _); [reflexivity|].
  destruct (UserModel.save _ _ _) as [[u' st']|e];
    [reflexivity|apply respondToError_no_password].
Qed.

Lemma login_no_password env st w reqBody :
  has_key "password" (body (AuthRoutes.login env st w reqBody)) = false.
Proof.
  unfold AuthRoutes.login.
  destruct (AuthRoutes.validateLogin reqBody) as [b [|e errors]];
    [|apply validationFailed_no_password].
  destruct (UserModel.findOneByEmailWithPassword _ _ _); [|reflexivity].
  destruct (UserModel.comparePassword _ _) as [[|]|e];
    [reflexivity|reflexivity|apply respondToError_no_password].
Qed.

Lemma protected_no_password env st w authorization handler :
  (forall reqUser r st',
      handler reqUser = Ok (r, st') -> has_key "password" (body r) = false) ->
  has_key "password"
    (body (fst (Server.protected env st w authorization handler))) = false.
Proof.
  intros Hh. unfold Server.protected.
  destruct (Middleware.authenticate env st w authorization)
    as [r|reqUser|e] eqn:Hgate.
  - unfold Middleware.authenticate in Hgate.
    destruct authorization as [h|]; [|now injection Hgate as <-].
    destruct (_ || _); [now injection Hgate as <-|].
    destruct (jwt.verify _ _ _); [|now injection Hgate as <-].
    destruct (UserModel.findById _ _) as [[u|]|e]; try discriminate.
    now injection Hgate as <-.
  - destruct (handler reqUser) as [[r st']|e] eqn:Hr.
    + exact (Hh reqUser r st' Hr).
    + apply respondToError_no_password.
  - apply respondToError_no_password.
Qed.

Lemma createTask_no_password st w reqUser reqBody r st' :
  TaskRoutes.createTask st w reqUser reqBody = Ok (r, st') ->
  has_key "password" (body r) = false.
Proof.
  unfold TaskRoutes.createTask.
  destruct (TaskRoutes.validateCreate reqBody) as [b [|e errors]].
  - destruct (TaskModel.createAndSave _ _ _ _ _ _) as [[task st1]|e];
      simpl; [|discriminate].
    intros [= <- <-]. simpl. now rewrite populateUser_no_password.
  - intros [= <- <-]. apply validationFailed_no_password.
Qed.

Lemma listTasks_no_password st reqUser r st' :
  TaskRoutes.listTasks st reqUser = Ok (r, st') ->
  has_key "password" (body r) = false.
Proof.
  unfold TaskRoutes.listTasks.
  destruct (TaskModel.findByUser _ _) as [found|e]; simpl; [|discriminate].
  intros [= <- <-]. cbn [body has_key existsb fst snd].
  rewrite task_list_no_password. reflexivity.
Qed.

Lemma catchCastError_no_password st e r st' :
  TaskRoutes.catchCastError st e = Ok (r, st') ->
  has_key "password" (body r) = false.
Proof.
  unfold TaskRoutes.catchCastError.
  destruct (String.eqb _ _); [|discriminate]. now intros [= <- <-].
Qed.

Lemma updateTask_no_password st w reqUser id reqBody r st' :
  TaskRoutes.updateTask st w reqUser id reqBody = Ok (r, st') ->
  has_key "password" (body r) = false.
Proof.
  unfold TaskRoutes.updateTask.
  destruct (TaskRoutes.validateUpdate reqBody) as [b [|e errors]].
  - destruct (TaskModel.findOne _ _ _) as [[task|]|e]; simpl.
    + destruct (TaskModel.save _ _ _ _) as [[saved st1]|e]; simpl.
      * now intros [= <- <-].
      * apply catchCastError_no_password.
    + now intros [= <- <-].
    + apply catchCastError_no_password.
  - intros [= <- <-]. apply validationFailed_no_password.
Qed.

Lemma deleteTask_no_password st reqUser id r st' :
  TaskRoutes.deleteTask st reqUser id = Ok (r, st') ->
  has_key "password" (body r) = false.
Proof.
  unfold TaskRoutes.deleteTask.
  destruct (TaskModel.findOneAndDelete _ _ _) as [[[task|] st1]|e]; simpl.
  - now intros [= <- <-].
  - now intros [= <- <-].
  - apply catchCastError_no_password.
Qed.

End Digest.

(** ** Responses do not depend on the stored digests *)

Section Independence.
Context `{Packages}.

Lemma find_map_invariant {A} (f : A -> A) (p : A -> bool) (l : list A) :
  (forall x, p (f x) = p x) ->
  find p (map f l) = option_map f (find p l).
Proof.
  intros Hp. induction l as [|a l IH]; simpl; [reflexivity|].
  rewrite Hp. destruct (p a); [reflexivity|exact IH].
Qed.

Lemma existsb_map_invariant {A} (f : A -> A) (p : A -> bool) (l : list A) :
  (forall x, p (f x) = p x) ->
  existsb p (map f l) = existsb p l.
Proof.
  intros Hp. induction l as [|a l IH]; simpl; [reflexivity|].
  now rewrite Hp, IH.
Qed.

Lemma filter_map_invariant {A} (f : A -> A) (p : A -> bool) (l : list A) :
  (forall x, p (f x) = p x) ->
  filter p (map f l) = map f (filter p l).
Proof.
  intros Hp. induction l as [|a l IH]; simpl; [reflexivity|].
  rewrite Hp. destruct (p a); simpl; now rewrite IH.
Qed.

Lemma pickOne_map {A B} (w : World) (f : A -> B) (l : list A) :
  pickOne w (map f l) = option_map f (pickOne w l).
Proof. unfold pickOne. now rewrite length_map, nth_error_map. Qed.

Lemma findById_withoutDigests st id :
  UserModel.findById (withoutDigests st) id = UserModel.findById st id.
Proof.
  unfold UserModel.findById. destruct (castObjectId id); [|reflexivity].
  unfold withoutDigests. simpl.
  rewrite find_map_invariant by reflexivity.
  now destruct (find _ (users st)).
Qed.

Lemma authenticate_withoutDigests env st w authorization :
  Middleware.authenticate env (withoutDigests st) w authorization
  = Middleware.authenticate env st w authorization.
Proof.
  unfold Middleware.authenticate.
  destruct authorization; [|reflexivity].
  destruct (_ || _); [reflexivity|].
  destruct (jwt.verify _ _ _); [|reflexivity].
  now rewrite findById_withoutDigests.
Qed.

Lemma populateUser_withoutDigests st t :
  TaskModel.populateUser (withoutDigests st) t = TaskModel.populateUser st t.
Proof.
  unfold TaskModel.populateUser, withoutDigests. simpl.
  rewrite find_map_invariant by reflexivity.
  now destruct (find _ (users st)).
Qed.

Lemma createTask_withoutDigests st w reqUser reqBody :
  sameAnswer (TaskRoutes.createTask (withoutDigests st) w reqUser reqBody)
             (TaskRoutes.createTask st w reqUser reqBody).
Proof.
  unfold TaskRoutes.createTask.
  destruct (TaskRoutes.validateCreate reqBody) as [b [|e errors]];
    [|now split].
  unfold TaskModel.createAndSave.
  destruct (castObjectId (userId reqUser)); [|reflexivity].
  destruct (TaskModel.validationMessages _); [|reflexivity].
  simpl. split; [|reflexivity].
  unfold TaskModel.populateUser, withoutDigests. simpl.
  rewrite find_map_invariant by reflexivity.
  now destruct (find _ (users st)).
Qed.

Lemma listTasks_withoutDigests st reqUser :
  sameAnswer (TaskRoutes.listTasks (withoutDigests st) reqUser)
             (TaskRoutes.listTasks st reqUser).
Proof.
  unfold TaskRoutes.listTasks, TaskModel.findByUser.
  destruct (castObjectId (userId reqUser)); simpl; [now split|reflexivity].
Qed.

Lemma catchCastError_withoutDigests st e :
  sameAnswer (TaskRoutes.catchCastError (withoutDigests st) e)
             (TaskRoutes.catchCastError st e).
Proof.
  unfold TaskRoutes.catchCastError.
  destruct (String.eqb _ _); simpl; [now split|reflexivity].
Qed.

Lemma updateTask_withoutDigests st w reqUser id reqBody :
  sameAnswer (TaskRoutes.updateTask (withoutDigests st) w reqUser id reqBody)
             (TaskRoutes.updateTask st w reqUser id reqBody).
Proof.
  unfold TaskRoutes.updateTask.
  destruct (TaskRoutes.validateUpdate reqBody) as [b [|e errors]];
    [|now split].
  unfold TaskModel.findOne.
  destruct (castObjectId id); [|apply catchCastError_withoutDigests].
  destruct (castObjectId (userId reqUser)); [|apply catchCastError_withoutDigests].
  simpl. destruct (find _ (tasks st)) as [task|]; [|now split].
  unfold TaskModel.save.
  destruct (TaskModel.validationMessages _); simpl; [|reflexivity].
  destruct (TaskModel.task_eqb _ _); simpl; now split.
Qed.

Lemma deleteTask_withoutDigests st reqUser id :
  sameAnswer (TaskRoutes.deleteTask (withoutDigests st) reqUser id)
             (TaskRoutes.deleteTask st reqUser id).
Proof.
  unfold TaskRoutes.deleteTask, TaskModel.findOneAndDelete.
  destruct (castObjectId id); [|apply catchCastError_withoutDigests].
  destruct (castObjectId (userId reqUser)); [|apply catchCastError_withoutDigests].
  simpl. destruct (find _ (tasks st)); now split.
Qed.

Lemma protected_withoutDigests env st w authorization handler handler' :
  (forall reqUser, sameAnswer (handler' reqUser) (handler reqUser)) ->
  fst (Server.protected env (withoutDigests st) w authorization handler')
  = fst (Server.protected env st w authorization handler).
Proof.
  intros Hsame. unfold Server.protected.
  rewrite authenticate_withoutDigests.
  destruct (Middleware.authenticate env st w authorization)
    as [r|reqUser|e]; try reflexivity.
  specialize (Hsame reqUser). unfold sameAnswer in Hsame.
  destruct (handler' reqUser) as [[r1 st1]|e1],
           (handler reqUser) as [[r2 st2]|e2]; simpl; try contradiction.
  - now destruct Hsame.
  - now subst.
Qed.

Lemma register_withoutDigests env st w reqBody :
  fst (AuthRoutes.register env (withoutDigests st) w reqBody)
  = fst (AuthRoutes.register env st w reqBody).
Proof.
  unfold AuthRoutes.register.
  destruct (AuthRoutes.validateRegister reqBody) as [b [|e errors]];
    [|reflexivity].
  unfold UserModel.findOneByEmailOrUsername, UserModel.save, withoutDigests.
  simpl. rewrite filter_map_invariant by reflexivity. rewrite pickOne_map.
  destruct (pickOne w _); simpl; [reflexivity|].
  destruct (UserModel.validationMessages _); [|reflexivity].
  rewrite !existsb_map_invariant by reflexivity.
  destruct (existsb _ (users st)); [reflexivity|].
  destruct (existsb _ (users st)); reflexivity.
Qed.

(** [/login] reads the digests through [bcrypt.compare] alone: stored
    digests replaced by others on which [comparePassword] gives the same
    outcome leave the answer as it is. *)
Lemma login_redigested env st w reqBody digestOf :
  (forall u, In u (users st) ->
     UserModel.comparePassword (setDigest digestOf u) (lb_password reqBody)
     = UserModel.comparePassword u (lb_password reqBody)) ->
  AuthRoutes.login env (redigested digestOf st) w reqBody
  = AuthRoutes.login env st w reqBody.
Proof.
  intros Hsame. unfold AuthRoutes.login.
  destruct (AuthRoutes.validateLogin reqBody) as [b errors] eqn:Hval.
  pose proof (validateLogin_body reqBody) as Hb.
  rewrite Hval in Hb. simpl in Hb. subst b. simpl.
  destruct errors; [|reflexivity].
  unfold UserModel.findOneByEmailWithPassword, redigested. simpl.
  rewrite filter_map_invariant by reflexivity. rewrite pickOne_map.
  destruct (pickOne w _) as [u|] eqn:Hpick; simpl; [|reflexivity].
  apply pickOne_In, filter_In in Hpick. destruct Hpick as [Hin _].
  rewrite (Hsame u Hin).
  destruct (UserModel.comparePassword u (lb_password reqBody)) as [[|]|e];
    reflexivity.
Qed.

End Independence.

Lemma reference_errors_no_password (errors : list FieldError) :
  has_key "password" (Reference.renderErrors errors) = false.
Proof.
  unfold Reference.renderErrors. simpl.
  induction errors as [|e errors IH]; [reflexivity|].
  cbn [map existsb]. rewrite IH. reflexivity.
Qed.

(** C6.  The stored digest reaches no response.  Reads without
    [select('+password')] ([findById], the lookup of [/register], hence
    the user the gate attaches) return documents without the password
    path.  A 201 from [/register] is, value by value, the message, the
    token of the new identity, and the identity, trimmed name and stored
    address of the new user; a 200 from [/login] is the message, the
    token of a stored user's identity, and that user's identity, name and
    address: the user object has exactly the keys [id], [username],
    [email].  No response body of the six routes has a key [password] at
    any depth (validation details being rendered by express-validator,
    they are assumed to have none).  The responses of [/register] and of
    the four task routes are the same on the store with every digest
    removed, and the response of [/login] is the same on a store whose
    digests were replaced by others that [comparePassword] treats
    alike. *)
Theorem password_digest_never_serialized `{Packages} :
  (forall errors, has_key "password" (errorsArray errors) = false) ->
  (forall st id u,
      UserModel.findById st id = Ok (Some u) -> password u = None)
  /\ (forall st w e n u,
        UserModel.findOneByEmailOrUsername st w e n = Some u -> password u = None)
  /\ (forall env st w authorization reqUser,
        Middleware.authenticate env st w authorization = Passed reqUser ->
        password (user reqUser) = None)
  /\ (forall env st w reqBody,
        status (fst (Server.POST_register env st w reqBody)) = 201 ->
        fst (Server.POST_register env st w reqBody)
        = {| status := 201;
             body := JObj [("message", JStr "User registered successfully");
                           ("token",
                            JStr (jwt.sign (toHexString (newId w))
                                    (AuthRoutes.JWT_SECRET env) (now w)));
                           ("user",
                            JObj [("id", JStr (toHexString (newId w)));
                                  ("username", JStr (trim (rb_username reqBody)));
                                  ("email",
                                   JStr (toLowerCase
                                           (trim (normalizeEmail
                                                    (rb_email reqBody)))))])] |})
  /\ (forall env st w reqBody,
        status (fst (Server.POST_login env st w reqBody)) = 200 ->
        exists u,
          In u (users st)
          /\ fst (Server.POST_login env st w reqBody)
             = {| status := 200;
                  body := JObj [("message", JStr "Login successful");
                                ("token",
                                 JStr (jwt.sign (toHexString (user_id u))
                                         (AuthRoutes.JWT_SECRET env) (now w)));
                                ("user",
                                 JObj [("id", JStr (toHexString (user_id u)));
                                       ("username", JStr (username u));
                                       ("email", JStr (email u))])] |}
          /\ field "user" (body (fst (Server.POST_login env st w reqBody)))
             = Some (AuthRoutes.projection u)
          /\ keys (AuthRoutes.projection u) = ["id"; "username"; "email"])
  /\ (forall env st w authorization id registerBody loginBody taskBody,
        has_key "password"
          (body (fst (Server.POST_register env st w registerBody))) = false
        /\ has_key "password"
             (body (fst (Server.POST_login env st w loginBody))) = false
        /\ has_key "password"
             (body (fst (Server.POST_tasks env st w authorization taskBody))) = false
        /\ has_key "password"
             (body (fst (Server.GET_tasks env st w authorization))) = false
        /\ has_key "password"
             (body (fst (Server.PUT_task env st w authorization id taskBody))) = false
        /\ has_key "password"
             (body (fst (Server.DELETE_task env st w authorization id))) = false)
  /\ (forall env st w authorization id registerBody taskBody,
        fst (Server.POST_register env (withoutDigests st) w registerBody)
        = fst (Server.POST_register env st w registerBody)
        /\ fst (Server.POST_tasks env (withoutDigests st) w authorization taskBody)
           = fst (Server.POST_tasks env st w authorization taskBody)
        /\ fst (Server.GET_tasks env (withoutDigests st) w authorization)
           = fst (Server.GET_tasks env st w authorization)
        /\ fst (Server.PUT_task env (withoutDigests st) w authorization id taskBody)
           = fst (Server.PUT_task env st w authorization id taskBody)
        /\ fst (Server.DELETE_task env (withoutDigests st) w authorization id)
           = fst (Server.DELETE_task env st w authorization id))
  /\ (forall env st w loginBody digestOf,
        (forall u, In u (users st) ->
           UserModel.comparePassword (setDigest digestOf u) (lb_password loginBody)
           = UserModel.comparePassword u (lb_password loginBody)) ->
        fst (Server.POST_login env (redigested digestOf st) w loginBody)
        = fst (Server.POST_login env st w loginBody)).
Proof.
  intros Hdetails.
  split; [exact findById_deselected|].
  split; [exact findOneByEmailOrUsername_deselected|].
  split; [|split; [|split; [|split; [|split]]]].
  - intros env st w authorization reqUser Hgate.
    destruct (gate_passed_inv env st w authorization reqUser Hgate)
      as (owner & u & _ & _ & _ & ->).
    reflexivity.
  - intros env st w reqBody Hs.
    destruct (register_created_user env st w reqBody Hs) as (u & Hreg & Hu).
    unfold Server.POST_register. rewrite Hreg. subst u. simpl.
    unfold AuthRoutes.projection. simpl. now rewrite trim_idempotent.
  - intros env st w reqBody Hs.
    destruct (login_succeeded env st w reqBody Hs) as (u & Hin & Hlog).
    exists u. unfold Server.POST_login. rewrite Hlog.
    split; [exact Hin|]. repeat split; reflexivity.
  - intros env st w authorization id registerBody loginBody taskBody.
    split; [apply (register_no_password Hdetails)|].
    split; [apply (login_no_password Hdetails)|].
    unfold Server.POST_tasks, Server.GET_tasks, Server.PUT_task,
      Server.DELETE_task.
    repeat split; apply protected_no_password; intros reqUser r st'.
    + apply (createTask_no_password Hdetails).
    + apply listTasks_no_password.
    + apply (updateTask_no_password Hdetails).
    + apply deleteTask_no_password.
  - intros env st w authorization id registerBody taskBody.
    split; [apply register_withoutDigests|].
    unfold Server.POST_tasks, Server.GET_tasks, Server.PUT_task,
      Server.DELETE_task.
    repeat split; apply protected_withoutDigests; intros reqUser.
    + apply createTask_withoutDigests.
    + apply listTasks_withoutDigests.
    + apply updateTask_withoutDigests.
    + apply deleteTask_withoutDigests.
  - intros env st w loginBody digestOf Hsame. unfold Server.POST_login. simpl.
    now apply login_redigested.
Qed.

Lemma password_digest_never_serialized_witness :
  has_key "password"
    (body (fst (Server.POST_login (H := Reference.packages) Scenario.env0
                  Scenario.store0 Scenario.later
                  {| lb_email := "alice@example.com";
                     lb_password := JStr "wonderland" |}))) = false
  /\ fst (Server.GET_tasks (H := Reference.packages) Scenario.env0
            (withoutDigests Scenario.store0) Scenario.later
            (Some ("Bearer " ++ Scenario.aliceToken)))
     = fst (Server.GET_tasks (H := Reference.packages) Scenario.env0
              Scenario.store0 Scenario.later
              (Some ("Bearer " ++ Scenario.aliceToken)))
  /\ fst (Server.POST_login (H := Reference.packages) Scenario.env0
            (redigested (fun u => option_map (fun d => "salt" ++ d) (password u))
               Scenario.store0)
            Scenario.later
            {| lb_email := "alice@example.com";
               lb_password := JStr "wonderland" |})
     = fst (Server.POST_login (H := Reference.packages) Scenario.env0
              Scenario.store0 Scenario.later
              {| lb_email := "alice@example.com";
                 lb_password := JStr "wonderland" |}).
Proof.
  destruct (password_digest_never_serialized (H := Reference.packages)
              reference_errors_no_password)
    as (_ & _ & _ & _ & _ & Hkeys & Hsame & Hlogin).
  destruct (Hkeys Scenario.env0 Scenario.store0 Scenario.later
              (Some ("Bearer " ++ Scenario.aliceToken))
              "64b0000000000000000000a1"
              {| rb_username := "carol"; rb_email := "carol@example.com";
                 rb_password := "looking-glass" |}
              {| lb_email := "alice@example.com";
                 lb_password := JStr "wonderland" |}
              emptyBody)
    as (_ & Hnokey & _).
  destruct (Hsame Scenario.env0 Scenario.store0 Scenario.later
              (Some ("Bearer " ++ Scenario.aliceToken))
              "64b0000000000000000000a1"
              {| rb_username := "carol"; rb_email := "carol@example.com";
                 rb_password := "looking-glass" |}
              emptyBody)
    as (_ & _ & Hget & _).
  split; [exact Hnokey|]. split; [exact Hget|].
  apply Hlogin. simpl. intros u [<-|[<-|[]]]; reflexivity.
Defined.

(** ** The gate on a verified token whose identity does not cast *)

Section StrayIdentity.
Context `{Packages}.

(** Expired and wrongly signed tokens receive one and the same 401. *)
Lemma gate_does_not_tell_failures_apart env st w token token' e e' :
  jwt.verify token (Middleware.JWT_SECRET env) (now w) = Throw e ->
  jwt.verify token' (Middleware.JWT_SECRET env) (now w) = Throw e' ->
  Middleware.authenticate env st w (Some ("Bearer " ++ token))
  = Rejected Middleware.invalidToken
  /\ Middleware.authenticate env st w (Some ("Bearer " ++ token'))
     = Rejected Middleware.invalidToken.
Proof.
  intros Hv Hv'. rewrite !gate_on_bearer, Hv, Hv'. split; reflexivity.
Qed.

(** When the verified payload names something the cast refuses, the
    lookup throws, the gate calls [next(error)], and the central handler
    answers 404: the request is neither rejected with 401 nor handled. *)
Lemma uncastable_identity_reaches_errorHandler env st w token decoded handler :
  jwt.verify token (Middleware.JWT_SECRET env) (now w) = Ok decoded ->
  castObjectId (jwt_userId decoded) = None ->
  Middleware.authenticate env st w (Some ("Bearer " ++ token))
  = Failed (CastError (jwt_userId decoded) "_id" "User")
  /\ Server.protected env st w (Some ("Bearer " ++ token)) handler
     = (respondToError env (CastError (jwt_userId decoded) "_id" "User"), st)
  /\ status (fst (Server.protected env st w (Some ("Bearer " ++ token)) handler))
     = 404.
Proof.
  intros Hv Hcast.
  assert (Hgate : Middleware.authenticate env st w (Some ("Bearer " ++ token))
                  = Failed (CastError (jwt_userId decoded) "_id" "User")).
  { rewrite gate_on_bearer, Hv. unfold UserModel.findById. now rewrite Hcast. }
  split; [exact Hgate|].
  unfold Server.protected. rewrite Hgate. split; reflexivity.
Qed.

End StrayIdentity.

(** C2, at the request that separates the code from the claim.  The
    header is [Bearer <token>]; the token verifies under the secret and is
    not expired; no stored user has the identity it names.  The gate
    neither answers 401 nor lets the handler run: the lookup's CastError
    goes to the central handler, and [GET /api/tasks] is answered 404
    [Resource not found]. *)
Theorem gate_stray_identity_answers_404 :
  jwt.verify (H := Reference.packages) Scenario.strayToken
    (Middleware.JWT_SECRET Scenario.env0) (now Scenario.later)
  = Ok {| jwt_userId := "not-an-id"; jwt_iat := 5; jwt_exp := Some 604805 |}
  /\ (forall u, In u (users Scenario.store0) ->
                toHexString (user_id u) <> "not-an-id")
  /\ Middleware.authenticate (H := Reference.packages) Scenario.env0
       Scenario.store0 Scenario.later
       (Some ("Bearer " ++ Scenario.strayToken))
     = Failed (CastError "not-an-id" "_id" "User")
  /\ Server.GET_tasks (H := Reference.packages) Scenario.env0
       Scenario.store0 Scenario.later
       (Some ("Bearer " ++ Scenario.strayToken))
     = ({| status := 404;
           body := JObj [("success", JBool false);
                         ("error", JStr "Resource not found")] |},
        Scenario.store0).
Proof.
  assert (Hv : jwt.verify (H := Reference.packages) Scenario.strayToken
                 (Middleware.JWT_SECRET Scenario.env0) (now Scenario.later)
               = Ok {| jwt_userId := "not-an-id"; jwt_iat := 5;
                       jwt_exp := Some 604805 |})
    by (vm_compute; reflexivity).
  split; [exact Hv|]. split.
  - intros u [<-|[<-|[]]]; discriminate.
  - destruct (uncastable_identity_reaches_errorHandler (H := Reference.packages)
                Scenario.env0 Scenario.store0 Scenario.later
                Scenario.strayToken _
                (fun reqUser =>
                   TaskRoutes.listTasks (H := Reference.packages)
                     Scenario.store0 reqUser)
                Hv eq_refl)
      as (Hgate & Hroute & _).
    split; [exact Hgate|exact Hroute].
Qed.


(* ================================================================== *)
(** * Further properties of the code *)

(** ** middleware/errorHandler.js *)

(** The checks of the handler overwrite one another in source order, so
    the last one that applies decides: a token error is 401, then a
    validation error is 400, then a duplicate key (code 11000) is 400
    even on a CastError, then a CastError is 404, and only then the
    error's own [statusCode], 500 when it has none.  In front of them
    all: an error of code 11000 with no first key under [keyValue] makes
    the handler itself throw a TypeError, and the answer is the 500 page
    of the final handler. *)
Theorem errorHandler_status_by_priority `{Packages} env err :
  status (respondToError env err)
  = (if duplicateKeyWithoutField err then 500
     else if String.eqb (err_name err) "TokenExpiredError"
             || String.eqb (err_name err) "JsonWebTokenError" then 401
     else if String.eqb (err_name err) "ValidationError" then 400
     else if match err_code err with Some c => c =? 11000 | None => false end
          then 400
     else if String.eqb (err_name err) "CastError" then 404
     else match err_statusCode err with
          | Some c => if c =? 0 then 500 else c
          | None => 500
          end)
  /\ (duplicateKeyWithoutField err = true ->
      exists thrown,
        errorHandler env err = Throw thrown
        /\ err_name thrown = "TypeError"
        /\ respondToError env err
           = {| status := 500; body := JPage (finalHandlerPage env thrown) |})
  /\ (duplicateKeyWithoutField err = false ->
      exists r, errorHandler env err = Ok r /\ respondToError env err = r).
Proof.
  unfold respondToError, duplicateKeyWithoutField, errorHandler.
  destruct (err_code err) as [c|]; [destruct (c =? 11000)|];
    [destruct (err_keyValue err) as [[|[k v] kvs]|]| |]; simpl;
    (split;
     [ repeat (destruct (String.eqb (err_name err) _); [reflexivity|]);
       reflexivity
     | split;
       [ first [discriminate | intros _; eexists; repeat split]
       | first [discriminate | intros _; eexists; split; reflexivity] ] ]).
Qed.

Lemma errorHandler_status_by_priority_witness :
  status (respondToError (H := Reference.packages) Scenario.env0
            {| err_name := "MongoServerError";
               err_message := "E11000 duplicate key error";
               err_statusCode := None; err_code := Some 11000;
               err_keyValue := None; err_errors := [];
               err_stack := "MongoServerError" |}) = 500
  /\ status (respondToError (H := Reference.packages) Scenario.env0
               (DuplicateKeyError "email" "alice@example.com")) = 400.
Proof.
  split.
  - destruct (errorHandler_status_by_priority (H := Reference.packages)
                Scenario.env0
                {| err_name := "MongoServerError";
                   err_message := "E11000 duplicate key error";
                   err_statusCode := None; err_code := Some 11000;
                   err_keyValue := None; err_errors := [];
                   err_stack := "MongoServerError" |})
      as (_ & Hthrown & _).
    destruct (Hthrown eq_refl) as (thrown & _ & _ & ->). reflexivity.
  - destruct (errorHandler_status_by_priority (H := Reference.packages)
                Scenario.env0 (DuplicateKeyError "email" "alice@example.com"))
      as (Hstatus & _).
    exact Hstatus.
Defined.

(** Whenever the handler answers (that is, unless the error has code
    11000 and no first key under [keyValue]), the body says
    [success: false] and carries a non-empty [error] text; a [stack]
    entry is present exactly when [NODE_ENV] is [development], and there
    is nothing else in it.  In the remaining case the answer is not JSON
    at all. *)
Theorem errorHandler_body_shape `{Packages} env err :
  (duplicateKeyWithoutField err = false ->
   exists text,
     text <> ""
     /\ field "success" (body (respondToError env err)) = Some (JBool false)
     /\ field "error" (body (respondToError env err)) = Some (JStr text)
     /\ (env_NODE_ENV env = Some "development" ->
         keys (body (respondToError env err)) = ["success"; "error"; "stack"]
         /\ field "stack" (body (respondToError env err))
            = Some (JStr (err_stack err)))
     /\ (env_NODE_ENV env <> Some "development" ->
         keys (body (respondToError env err)) = ["success"; "error"]))
  /\ (duplicateKeyWithoutField err = true ->
      exists html, body (respondToError env err) = JPage html).
Proof.
  assert (Hshape : forall message,
    exists text,
      text <> ""
      /\ field "success"
           (JObj ([("success", JBool false);
                   ("error", JStr (str_or (Some message) "Server Error"))]
                  ++ match env_NODE_ENV env with
                     | Some mode =>
                         if String.eqb mode "development"
                         then [("stack", JStr (err_stack err))]
                         else []
                     | None => []
                     end)) = Some (JBool false)
      /\ field "error"
           (JObj ([("success", JBool false);
                   ("error", JStr (str_or (Some message) "Server Error"))]
                  ++ match env_NODE_ENV env with
                     | Some mode =>
                         if String.eqb mode "development"
                         then [("stack", JStr (err_stack err))]
                         else []
                     | None => []
                     end)) = Some (JStr text)
      /\ (env_NODE_ENV env = Some "development" ->
          keys (JObj ([("success", JBool false);
                       ("error", JStr (str_or (Some message) "Server Error"))]
                      ++ match env_NODE_ENV env with
                         | Some mode =>
                             if String.eqb mode "development"
                             then [("stack", JStr (err_stack err))]
                             else []
                         | None => []
                         end)) = ["success"; "error"; "stack"]
          /\ field "stack"
               (JObj ([("success", JBool false);
                       ("error", JStr (str_or (Some message) "Server Error"))]
                      ++ match env_NODE_ENV env with
                         | Some mode =>
                             if String.eqb mode "development"
                             then [("stack", JStr (err_stack err))]
                             else []
                         | None => []
                         end)) = Some (JStr (err_stack err)))
      /\ (env_NODE_ENV env <> Some "development" ->
          keys (JObj ([("success", JBool false);
                       ("error", JStr (str_or (Some message) "Server Error"))]
                      ++ match env_NODE_ENV env with
                         | Some mode =>
                             if String.eqb mode "development"
                             then [("stack", JStr (err_stack err))]
                             else []
                         | None => []
                         end)) = ["success"; "error"])).
  { intros message. exists (str_or (Some message) "Server Error").
    split; [|split; [reflexivity|split; [reflexivity|split]]].
    - unfold str_or. destruct (String.eqb_spec message "") as [E|E];
        [discriminate|exact E].
    - intros ->. split; reflexivity.
    - intros Hmode. destruct (env_NODE_ENV env) as [mode|]; [|reflexivity].
      destruct (String.eqb_spec mode "development") as [->|Hne];
        [now elim Hmode|reflexivity]. }
  unfold respondToError, duplicateKeyWithoutField, errorHandler.
  destruct (err_code err) as [c|]; [destruct (c =? 11000)|];
    [destruct (err_keyValue err) as [[|[k v] kvs]|]| |]; simpl;
    (split;
     [ first [discriminate | intros _; apply Hshape]
     | first [discriminate | intros _; eexists; reflexivity] ]).
Qed.

Lemma errorHandler_body_shape_witness :
  keys (body (respondToError (H := Reference.packages)
                {| env_JWT_SECRET := None; env_NODE_ENV := Some "development" |}
                (CastError "not-an-id" "_id" "User")))
  = ["success"; "error"; "stack"]
  /\ keys (body (respondToError (H := Reference.packages) Scenario.env0
                   (CastError "not-an-id" "_id" "User")))
     = ["success"; "error"].
Proof.
  destruct (errorHandler_body_shape (H := Reference.packages)
              {| env_JWT_SECRET := None; env_NODE_ENV := Some "development" |}
              (CastError "not-an-id" "_id" "User"))
    as (Hanswer & _).
  destruct (Hanswer eq_refl) as (text & _ & _ & _ & Hdev & _).
  destruct (errorHandler_body_shape (H := Reference.packages) Scenario.env0
              (CastError "not-an-id" "_id" "User"))
    as (Hanswer' & _).
  destruct (Hanswer' eq_refl) as (text' & _ & _ & _ & _ & Hprod).
  destruct (Hdev eq_refl) as [Hkeys _].
  split; [exact Hkeys|]. apply Hprod. discriminate.
Defined.

(** ** middleware/auth.js: what a pass implies *)



(** A token whose signature is not the one its payload has under the
    server's secret is answered 401 on each task route, whatever it
    claims and whenever it is presented; the store stays as it was. *)
Theorem foreign_signature_rejected `{Packages}
    env st w token t id reqBody :
  jwtDecode token = Some t ->
  jwt_signature t <> hmacSign (Middleware.JWT_SECRET env) (jwt_payload t) ->
  Server.GET_tasks env st w (Some ("Bearer " ++ token))
  = (Middleware.invalidToken, st)
  /\ Server.POST_tasks env st w (Some ("Bearer " ++ token)) reqBody
     = (Middleware.invalidToken, st)
  /\ Server.PUT_task env st w (Some ("Bearer " ++ token)) id reqBody
     = (Middleware.invalidToken, st)
  /\ Server.DELETE_task env st w (Some ("Bearer " ++ token)) id
     = (Middleware.invalidToken, st)
  /\ status Middleware.invalidToken = 401.
Proof.
  intros Hdec Hsig.
  assert (Hreject : forall handler,
             Server.protected env st w (Some ("Bearer " ++ token)) handler
             = (Middleware.invalidToken, st)).
  { intros handler. unfold Server.protected. rewrite gate_on_bearer.
    unfold jwt.verify.
    destruct (String.eqb token ""); [reflexivity|]. rewrite Hdec.
    apply String.eqb_neq in Hsig. rewrite Hsig. reflexivity. }
  unfold Server.GET_tasks, Server.POST_tasks, Server.PUT_task,
    Server.DELETE_task.
  rewrite !Hreject. repeat split; reflexivity.
Qed.

Lemma foreign_signature_rejected_witness :
  Server.GET_tasks (H := Reference.packages) Scenario.env0 Scenario.store0
    Scenario.later
    (Some ("Bearer "
           ++ jwt.sign (H := Reference.packages) "64b000000000000000000001"
                "some-other-secret" 5000))
  = (Middleware.invalidToken, Scenario.store0).
Proof.
  destruct (foreign_signature_rejected (H := Reference.packages)
              Scenario.env0 Scenario.store0 Scenario.later
              (jwt.sign (H := Reference.packages) "64b000000000000000000001"
                 "some-other-secret" 5000)
              {| jwt_payload := {| jwt_userId := "64b000000000000000000001";
                                   jwt_iat := 5; jwt_exp := Some 604805 |};
                 jwt_signature :=
                   Reference.hmac "some-other-secret"
                     {| jwt_userId := "64b000000000000000000001";
                        jwt_iat := 5; jwt_exp := Some 604805 |} |}
              "64b0000000000000000000a1" emptyBody)
    as (Hget & _); [by_evaluation .. | exact Hget].
Defined.

(** ** routes/tasks.js: the list, the delete, and what writes leave alone *)

Section TaskLists.
Context `{Packages}.

Lemma insertNewestFirst_perm t ts :
  Permutation (TaskModel.insertNewestFirst t ts) (t :: ts).
Proof.
  induction ts as [|a ts IH]; simpl; [apply Permutation_refl|].
  destruct (createdAt a <? createdAt t); [apply Permutation_refl|].
  apply perm_trans with (a :: t :: ts); [now apply perm_skip|apply perm_swap].
Qed.

Lemma sortNewestFirst_perm ts :
  Permutation (TaskModel.sortNewestFirst ts) ts.
Proof.
  unfold TaskModel.sortNewestFirst.
  induction ts as [|a ts IH]; simpl; [apply Permutation_refl|].
  apply perm_trans with (a :: fold_right TaskModel.insertNewestFirst [] ts);
    [apply insertNewestFirst_perm|now apply perm_skip].
Qed.

Lemma insertNewestFirst_sorted t ts :
  StronglySorted (fun a b => createdAt b <= createdAt a) ts ->
  StronglySorted (fun a b => createdAt b <= createdAt a)
    (TaskModel.insertNewestFirst t ts).
Proof.
  induction ts as [|a ts IH]; intros Hs; simpl.
  - constructor; constructor.
  - inversion Hs as [|? ? Hs' Hall]; subst.
    destruct (createdAt a <? createdAt t) eqn:Hlt.
    + apply Z.ltb_lt in Hlt. constructor; [exact Hs|].
      constructor; [lia|].
      apply Forall_impl with (2 := Hall). intros b Hb. lia.
    + apply Z.ltb_ge in Hlt. constructor; [now apply IH|].
      apply Forall_forall. intros b Hb.
      apply insertNewestFirst_In in Hb. destruct Hb as [->|Hb]; [exact Hlt|].
      rewrite Forall_forall in Hall. now apply Hall.
Qed.

Lemma sortNewestFirst_sorted ts :
  StronglySorted (fun a b => createdAt b <= createdAt a)
    (TaskModel.sortNewestFirst ts).
Proof.
  unfold TaskModel.sortNewestFirst.
  induction ts as [|a ts IH]; simpl; [constructor|].
  now apply insertNewestFirst_sorted.
Qed.

Lemma removeFirst_In_iff p (ts : list Task) t x :
  NoDup ts -> find p ts = Some t ->
  (In x (TaskModel.removeFirst p ts) <-> In x ts /\ x <> t).
Proof.
  induction ts as [|a ts IH]; simpl; [discriminate|].
  intros Hnd Hfind. inversion Hnd as [|? ? Hnotin Hnd']; subst.
  destruct (p a).
  - injection Hfind as <-. split.
    + intros Hx. split; [now right|]. intros ->. contradiction.
    + intros [[->|Hx] Hne]; [now elim Hne|exact Hx].
  - simpl. rewrite (IH Hnd' Hfind). split.
    + intros [->|[Hx Hne]]; [|tauto].
      split; [now left|]. intros ->.
      apply find_some in Hfind. now destruct Hfind.
    + intros [[->|Hx] Hne]; [now left|right; tauto].
Qed.

Lemma removeFirst_keeps p (ts : list Task) x :
  In x ts -> p x = false -> In x (TaskModel.removeFirst p ts).
Proof.
  induction ts as [|a ts IH]; simpl; [tauto|].
  intros [->|Hx] Hp.
  - rewrite Hp. now left.
  - destruct (p a); [exact Hx|]. right. now apply IH.
Qed.

Lemma removeFirst_incl p (ts : list Task) x :
  In x (TaskModel.removeFirst p ts) -> In x ts.
Proof.
  induction ts as [|a ts IH]; simpl; [tauto|].
  destruct (p a); simpl; [tauto|]. intros [->|Hx]; auto.
Qed.

Lemma removeFirst_ids_unique p (ts : list Task) :
  NoDup (map task_id ts) ->
  NoDup (map task_id (TaskModel.removeFirst p ts)).
Proof.
  induction ts as [|a ts IH]; simpl; [trivial|].
  intros Hnd. inversion Hnd as [|? ? Hnotin Hnd']; subst.
  destruct (p a); [exact Hnd'|]. simpl. constructor; [|now apply IH].
  intros Hin. apply Hnotin. apply in_map_iff in Hin.
  destruct Hin as (x & Hx & Hin). apply in_map_iff. exists x.
  split; [exact Hx|]. now apply removeFirst_incl in Hin.
Qed.

Lemma replaceById_ids t ts :
  map task_id (TaskModel.replaceById t ts) = map task_id ts.
Proof.
  induction ts as [|a ts IH]; simpl; [reflexivity|].
  destruct (oid_eqb (task_id a) (task_id t)) eqn:E; simpl.
  - apply oid_eqb_eq in E. now rewrite E.
  - now rewrite IH.
Qed.

Lemma replaceById_keeps t ts x :
  In x ts -> task_id x <> task_id t -> In x (TaskModel.replaceById t ts).
Proof.
  induction ts as [|a ts IH]; simpl; [tauto|].
  intros [->|Hx] Hne.
  - apply oid_eqb_neq in Hne. rewrite Hne. now left.
  - destruct (oid_eqb (task_id a) (task_id t)); [now right|].
    right. now apply IH.
Qed.

Lemma replaceById_puts t ts :
  In (task_id t) (map task_id ts) -> In t (TaskModel.replaceById t ts).
Proof.
  induction ts as [|a ts IH]; simpl; [tauto|].
  destruct (oid_eqb (task_id a) (task_id t)) eqn:E; [now left|].
  intros [Ha|Hin]; [|right; now apply IH].
  apply oid_eqb_neq in E. now elim E.
Qed.

Lemma ids_unique_tasks_unique (ts : list Task) :
  NoDup (map task_id ts) -> NoDup ts.
Proof. apply NoDup_map_inv. Qed.

End TaskLists.

(** [GET /api/tasks] answers with the caller's tasks ordered by
    [createdAt], newest first: the list is a rearrangement of the stored
    tasks of that owner, no task is listed before a newer one, and
    [count] is the number of stored tasks of that owner. *)
Theorem get_lists_newest_first `{Packages}
    env st w authorization reqUser owner :
  Middleware.authenticate env st w authorization = Passed reqUser ->
  castObjectId (userId reqUser) = Some owner ->
  exists found,
    Server.GET_tasks env st w authorization
    = ({| status := 200;
          body := JObj [("message", JStr "Tasks retrieved successfully");
                        ("count", JNum (Z.of_nat (length found)));
                        ("tasks",
                         JArr (map (fun x => TaskModel.toJSON x (TaskModel.ownerRef x))
                                   found))] |}, st)
    /\ Permutation found
         (filter (fun x => oid_eqb (task_user x) owner) (tasks st))
    /\ StronglySorted (fun a b => createdAt b <= createdAt a) found
    /\ length found
       = length (filter (fun x => oid_eqb (task_user x) owner) (tasks st)).
Proof.
  intros Hgate Hu.
  exists (TaskModel.sortNewestFirst
            (filter (fun x => oid_eqb (task_user x) owner) (tasks st))).
  split; [|split; [|split]].
  - unfold Server.GET_tasks, Server.protected. rewrite Hgate.
    unfold TaskRoutes.listTasks, TaskModel.findByUser. now rewrite Hu.
  - apply sortNewestFirst_perm.
  - apply sortNewestFirst_sorted.
  - apply Permutation_length, sortNewestFirst_perm.
Qed.

Lemma get_lists_newest_first_witness :
  exists found,
    fst (Server.GET_tasks (H := Reference.packages) Scenario.env0
           Scenario.store0 Scenario.later
           (Scenario.bearer Scenario.aliceToken))
    = {| status := 200;
         body := JObj [("message", JStr "Tasks retrieved successfully");
                       ("count", JNum (Z.of_nat (length found)));
                       ("tasks",
                        JArr (map (fun x => TaskModel.toJSON x (TaskModel.ownerRef x))
                                  found))] |}
    /\ length found = 1%nat.
Proof.
  destruct (get_lists_newest_first (H := Reference.packages)
              Scenario.env0 Scenario.store0 Scenario.later
              (Scenario.bearer Scenario.aliceToken)
              {| userId := "64b000000000000000000001";
                 user := UserModel.deselect Scenario.alice |}
              Scenario.aliceId)
    as (found & Hget & _ & _ & Hlen); [by_evaluation .. | ].
  exists found. split; [now rewrite Hget | exact Hlen].
Defined.

(** [DELETE /api/tasks/:id] on a task the caller owns answers 200 with
    that task and removes it and nothing else: users are untouched, every
    other task stays, identities stay unique, and repeating the request
    is answered 404. *)
Theorem delete_removes_exactly_the_task `{Packages}
    env st w authorization reqUser owner id tid t :
  Middleware.authenticate env st w authorization = Passed reqUser ->
  castObjectId (userId reqUser) = Some owner ->
  castObjectId id = Some tid ->
  NoDup (map task_id (tasks st)) ->
  In t (tasks st) -> task_id t = tid -> task_user t = owner ->
  let st' := snd (Server.DELETE_task env st w authorization id) in
  fst (Server.DELETE_task env st w authorization id)
  = {| status := 200;
       body := JObj [("message", JStr "Task deleted successfully");
                     ("task", TaskModel.toJSON t (TaskModel.ownerRef t))] |}
  /\ users st' = users st
  /\ (forall x, In x (tasks st') <-> In x (tasks st) /\ x <> t)
  /\ NoDup (map task_id (tasks st'))
  /\ Server.DELETE_task env st' w authorization id
     = (TaskRoutes.notFound "delete", st').
Proof.
  intros Hgate Hu Hid Hnd Hin Htid Howner st'.
  pose proof (owned_task_found st t tid owner Hnd Hin Htid Howner) as Hfound.
  assert (Hrun : Server.DELETE_task env st w authorization id
                 = ({| status := 200;
                       body := JObj [("message", JStr "Task deleted successfully");
                                     ("task", TaskModel.toJSON t
                                                (TaskModel.ownerRef t))] |},
                    {| users := users st;
                       tasks := TaskModel.removeFirst
                                  (TaskModel.matches tid owner) (tasks st) |})).
  { unfold Server.DELETE_task, Server.protected. rewrite Hgate.
    unfold TaskRoutes.deleteTask, TaskModel.findOneAndDelete.
    rewrite Hid, Hu. simpl. now rewrite Hfound. }
  assert (Hiff : forall x, In x (tasks st') <-> In x (tasks st) /\ x <> t).
  { intros x. unfold st'. rewrite Hrun. simpl.
    apply removeFirst_In_iff; [now apply ids_unique_tasks_unique|exact Hfound]. }
  split; [now rewrite Hrun|]. split; [unfold st'; now rewrite Hrun|].
  split; [exact Hiff|]. split.
  - unfold st'. rewrite Hrun. simpl. now apply removeFirst_ids_unique.
  - unfold Server.DELETE_task, Server.protected.
    rewrite (gate_reads_users env st' st w authorization)
      by (unfold st'; now rewrite Hrun).
    rewrite Hgate.
    rewrite (delete_without_owned_task st' reqUser owner id tid Hu Hid);
      [reflexivity|].
    intros x Hx Hxid Hxu. apply Hiff in Hx. destruct Hx as [Hx Hne].
    apply Hne. apply (unique_key task_id (tasks st)); congruence.
Qed.

Lemma delete_removes_exactly_the_task_witness :
  fst (Server.DELETE_task (H := Reference.packages) Scenario.env0
         Scenario.store0 Scenario.later
         (Scenario.bearer Scenario.aliceToken)
         "64b0000000000000000000a1")
  = {| status := 200;
       body := JObj [("message", JStr "Task deleted successfully");
                     ("task", TaskModel.toJSON Scenario.aliceTask
                                (TaskModel.ownerRef Scenario.aliceTask))] |}.
Proof.
  destruct (delete_removes_exactly_the_task (H := Reference.packages)
              Scenario.env0 Scenario.store0 Scenario.later
              (Scenario.bearer Scenario.aliceToken)
              {| userId := "64b000000000000000000001";
                 user := UserModel.deselect Scenario.alice |}
              Scenario.aliceId
              "64b0000000000000000000a1" (OID "64b0000000000000000000a1")
              Scenario.aliceTask)
    as (Hanswer & _); [by_evaluation .. | exact Hanswer].
Defined.

(** ** routes/tasks.js: what a write can do to the store *)

Section TaskWrites.
Context `{Packages}.

(** The store after a protected route is the store before, unless the
    gate passed and the handler answered. *)
Lemma protected_store env st w authorization handler :
  snd (Server.protected env st w authorization handler) = st
  \/ exists reqUser r,
       Middleware.authenticate env st w authorization = Passed reqUser
       /\ handler reqUser
          = Ok (r, snd (Server.protected env st w authorization handler)).
Proof.
  unfold Server.protected.
  destruct (Middleware.authenticate env st w authorization)
    as [r|reqUser|e]; [now left| |now left].
  destruct (handler reqUser) as [[r st']|e] eqn:Hh; [|now left].
  right. exists reqUser, r. auto.
Qed.

Lemma createTask_store st w reqUser reqBody r st' :
  TaskRoutes.createTask st w reqUser reqBody = Ok (r, st') ->
  st' = st
  \/ exists t,
       castObjectId (userId reqUser) = Some (task_user t)
       /\ task_id t = newId w
       /\ st' = {| users := users st; tasks := (tasks st ++ [t])%list |}.
Proof.
  unfold TaskRoutes.createTask.
  destruct (TaskRoutes.validateCreate reqBody) as [b [|e errors]];
    [|intros [= _ <-]; now left].
  unfold TaskModel.createAndSave.
  destruct (castObjectId (userId reqUser)) as [owner|]; [|discriminate].
  destruct (TaskModel.validationMessages _); [|discriminate].
  simpl. intros [= _ <-]. right.
  refine (ex_intro _ _ (conj _ (conj _ eq_refl))); reflexivity.
Qed.

Lemma catchCastError_store st e r st' :
  TaskRoutes.catchCastError st e = Ok (r, st') -> st' = st.
Proof.
  unfold TaskRoutes.catchCastError.
  destruct (String.eqb _ _); [|discriminate]. now intros [= _ <-].
Qed.

Lemma updateTask_store st w reqUser id reqBody r st' :
  TaskRoutes.updateTask st w reqUser id reqBody = Ok (r, st') ->
  st' = st
  \/ exists tid owner task saved,
       castObjectId id = Some tid
       /\ castObjectId (userId reqUser) = Some owner
       /\ find (TaskModel.matches tid owner) (tasks st) = Some task
       /\ task_id saved = task_id task
       /\ task_user saved = task_user task
       /\ st' = {| users := users st;
                   tasks := TaskModel.replaceById saved (tasks st) |}.
Proof.
  unfold TaskRoutes.updateTask.
  destruct (TaskRoutes.validateUpdate reqBody) as [b [|e errors]];
    [|intros [= _ <-]; now left].
  unfold TaskModel.findOne.
  destruct (castObjectId id) as [tid|];
    [|intros Hr; left; exact (catchCastError_store _ _ _ _ Hr)].
  destruct (castObjectId (userId reqUser)) as [owner|];
    [|intros Hr; left; exact (catchCastError_store _ _ _ _ Hr)].
  simpl.
  destruct (find (TaskModel.matches tid owner) (tasks st)) as [task|] eqn:Hfind;
    [|intros [= _ <-]; now left].
  destruct (assignFields_frame task b) as (Fid & Fuser & _).
  unfold TaskModel.save.
  destruct (TaskModel.validationMessages _); simpl;
    [|intros Hr; left; exact (catchCastError_store _ _ _ _ Hr)].
  destruct (TaskModel.task_eqb task _); simpl; [intros [= _ <-]; now left|].
  intros [= _ <-]. right. exists tid, owner, task. eexists.
  refine (conj eq_refl (conj eq_refl (conj Hfind (conj _ (conj _ eq_refl)))));
    simpl; assumption.
Qed.

Lemma deleteTask_store st reqUser id r st' :
  TaskRoutes.deleteTask st reqUser id = Ok (r, st') ->
  st' = st
  \/ exists tid owner,
       castObjectId (userId reqUser) = Some owner
       /\ st' = {| users := users st;
                   tasks := TaskModel.removeFirst (TaskModel.matches tid owner)
                              (tasks st) |}.
Proof.
  unfold TaskRoutes.deleteTask, TaskModel.findOneAndDelete.
  destruct (castObjectId id) as [tid|];
    [|intros Hr; left; exact (catchCastError_store _ _ _ _ Hr)].
  destruct (castObjectId (userId reqUser)) as [owner|] eqn:Hu;
    [|intros Hr; left; exact (catchCastError_store _ _ _ _ Hr)].
  simpl. destruct (find _ (tasks st)); intros [= _ <-]; [|now left].
  right. exists tid, owner. auto.
Qed.

End TaskWrites.

(** A request that passes the gate as one user never alters or removes
    a task of another user, and never touches the user collection: after
    a [POST], a [PUT] or a [DELETE], whatever the path identity and the
    body, every stored task with a different owner is still stored,
    unchanged. *)
Theorem task_writes_leave_other_owners_alone `{Packages}
    env st w authorization reqUser owner x id reqBody :
  Middleware.authenticate env st w authorization = Passed reqUser ->
  castObjectId (userId reqUser) = Some owner ->
  NoDup (map task_id (tasks st)) ->
  In x (tasks st) -> task_user x <> owner ->
  In x (tasks (snd (Server.POST_tasks env st w authorization reqBody)))
  /\ In x (tasks (snd (Server.PUT_task env st w authorization id reqBody)))
  /\ In x (tasks (snd (Server.DELETE_task env st w authorization id)))
  /\ users (snd (Server.POST_tasks env st w authorization reqBody)) = users st
  /\ users (snd (Server.PUT_task env st w authorization id reqBody)) = users st
  /\ users (snd (Server.DELETE_task env st w authorization id)) = users st.
Proof.
  intros Hgate Hu Hnd Hx Hother.
  assert (Hpost : In x (tasks (snd (Server.POST_tasks env st w authorization reqBody)))
                  /\ users (snd (Server.POST_tasks env st w authorization reqBody))
                     = users st).
  { unfold Server.POST_tasks.
    destruct (protected_store env st w authorization
                (fun reqUser => TaskRoutes.createTask st w reqUser reqBody))
      as [->|(ru & r & _ & Hh)]; [auto|].
    apply createTask_store in Hh. destruct Hh as [->|(t & _ & _ & ->)]; [auto|].
    simpl. split; [apply in_or_app; now left|reflexivity]. }
  assert (Hput : In x (tasks (snd (Server.PUT_task env st w authorization id reqBody)))
                 /\ users (snd (Server.PUT_task env st w authorization id reqBody))
                    = users st).
  { unfold Server.PUT_task.
    destruct (protected_store env st w authorization
                (fun reqUser => TaskRoutes.updateTask st w reqUser id reqBody))
      as [->|(ru & r & Hpass & Hh)]; [auto|].
    rewrite Hgate in Hpass. injection Hpass as <-.
    apply updateTask_store in Hh.
    destruct Hh as [->|(tid & owner' & task & saved & _ & Hu' & Hfind & Sid & _ & ->)];
      [auto|].
    rewrite Hu in Hu'. injection Hu' as <-.
    simpl. split; [|reflexivity].
    apply replaceById_keeps; [exact Hx|]. rewrite Sid.
    apply find_some in Hfind. destruct Hfind as [Hin Hm].
    apply matches_true in Hm. destruct Hm as [_ Howner].
    intros Heq. apply Hother.
    rewrite (unique_key task_id (tasks st) x task Hnd Hx Hin Heq).
    exact Howner. }
  assert (Hdel : In x (tasks (snd (Server.DELETE_task env st w authorization id)))
                 /\ users (snd (Server.DELETE_task env st w authorization id))
                    = users st).
  { unfold Server.DELETE_task.
    destruct (protected_store env st w authorization
                (fun reqUser => TaskRoutes.deleteTask st reqUser id))
      as [->|(ru & r & Hpass & Hh)]; [auto|].
    rewrite Hgate in Hpass. injection Hpass as <-.
    apply deleteTask_store in Hh.
    destruct Hh as [->|(tid & owner' & Hu' & ->)]; [auto|].
    rewrite Hu in Hu'. injection Hu' as <-.
    simpl. split; [|reflexivity].
    apply removeFirst_keeps; [exact Hx|].
    destruct (TaskModel.matches tid owner x) eqn:Hm; [|reflexivity].
    apply matches_true in Hm. now elim Hother. }
  tauto.
Qed.

Lemma task_writes_leave_other_owners_alone_witness :
  In Scenario.bobTask
    (tasks (snd (Server.DELETE_task (H := Reference.packages) Scenario.env0
                   Scenario.store0 Scenario.later
                   (Scenario.bearer Scenario.aliceToken)
                   "64b0000000000000000000b1")))
  /\ In Scenario.bobTask
       (tasks (snd (Server.PUT_task (H := Reference.packages) Scenario.env0
                      Scenario.store0 Scenario.later
                      (Scenario.bearer Scenario.aliceToken)
                      "64b0000000000000000000b1"
                      {| b_title := Some "Mine now"; b_description := None;
                         b_completed := Some false |}))).
Proof.
  destruct (task_writes_leave_other_owners_alone (H := Reference.packages)
              Scenario.env0 Scenario.store0 Scenario.later
              (Scenario.bearer Scenario.aliceToken)
              {| userId := "64b000000000000000000001";
                 user := UserModel.deselect Scenario.alice |}
              Scenario.aliceId Scenario.bobTask
              "64b0000000000000000000b1"
              {| b_title := Some "Mine now"; b_description := None;
                 b_completed := Some false |})
    as (_ & Hput & Hdel & _); [by_evaluation .. | exact (conj Hdel Hput)].
Defined.

(** The task routes keep task identities unique: from a store without
    two tasks of one identity, a [PUT] or a [DELETE] leads to such a
    store again, and so does a [POST] whose new identity is not yet in
    use. *)
Theorem task_routes_keep_ids_unique `{Packages}
    env st w authorization id reqBody :
  NoDup (map task_id (tasks st)) ->
  NoDup (map task_id
           (tasks (snd (Server.PUT_task env st w authorization id reqBody))))
  /\ NoDup (map task_id
              (tasks (snd (Server.DELETE_task env st w authorization id))))
  /\ ((forall x, In x (tasks st) -> task_id x <> newId w) ->
      NoDup (map task_id
               (tasks (snd (Server.POST_tasks env st w authorization reqBody))))).
Proof.
  intros Hnd. split; [|split].
  - unfold Server.PUT_task.
    destruct (protected_store env st w authorization
                (fun reqUser => TaskRoutes.updateTask st w reqUser id reqBody))
      as [->|(ru & r & _ & Hh)]; [exact Hnd|].
    apply updateTask_store in Hh.
    destruct Hh as [->|(tid & owner & task & saved & _ & _ & _ & _ & _ & ->)];
      [exact Hnd|].
    simpl. now rewrite replaceById_ids.
  - unfold Server.DELETE_task.
    destruct (protected_store env st w authorization
                (fun reqUser => TaskRoutes.deleteTask st reqUser id))
      as [->|(ru & r & _ & Hh)]; [exact Hnd|].
    apply deleteTask_store in Hh.
    destruct Hh as [->|(tid & owner & _ & ->)]; [exact Hnd|].
    simpl. now apply removeFirst_ids_unique.
  - intros Hfresh. unfold Server.POST_tasks.
    destruct (protected_store env st w authorization
                (fun reqUser => TaskRoutes.createTask st w reqUser reqBody))
      as [->|(ru & r & _ & Hh)]; [exact Hnd|].
    apply createTask_store in Hh.
    destruct Hh as [->|(t & _ & Hid & ->)]; [exact Hnd|].
    simpl. rewrite map_app. simpl.
    apply NoDup_app; [exact Hnd|repeat constructor; simpl; tauto|].
    intros i Hi [<-|[]]. apply in_map_iff in Hi.
    destruct Hi as (x & Hxi & Hx). apply (Hfresh x Hx). congruence.
Qed.

Lemma task_routes_keep_ids_unique_witness :
  NoDup (map task_id
           (tasks (snd (Server.PUT_task (H := Reference.packages) Scenario.env0
                          Scenario.store0 Scenario.later
                          (Scenario.bearer Scenario.aliceToken)
                          "64b0000000000000000000a1"
                          {| b_title := Some "Repot the plants";
                             b_description := None;
                             b_completed := None |})))).
Proof.
  destruct (task_routes_keep_ids_unique (H := Reference.packages)
              Scenario.env0 Scenario.store0 Scenario.later
              (Scenario.bearer Scenario.aliceToken)
              "64b0000000000000000000a1"
              {| b_title := Some "Repot the plants"; b_description := None;
                 b_completed := None |})
    as (Hput & _); [by_evaluation | exact Hput].
Defined.

(** ** routes/tasks.js: repeating an update *)

Section TaskRepeat.
Context `{Packages}.

Lemma task_eqb_eq a b : TaskModel.task_eqb a b = true -> a = b.
Proof.
  unfold TaskModel.task_eqb. rewrite !andb_true_iff, !oid_eqb_eq, !String.eqb_eq,
    !Z.eqb_eq.
  intros ((((((Hid & Ht) & Hd) & Hc) & Hu) & Hca) & Hua).
  apply Bool.eqb_prop in Hc. destruct a, b; simpl in *. congruence.
Qed.

(** [PUT] on the task the lookup finds, step by step. *)
Lemma put_found_run env st w authorization reqUser owner id tid t reqBody :
  Middleware.authenticate env st w authorization = Passed reqUser ->
  castObjectId (userId reqUser) = Some owner ->
  castObjectId id = Some tid ->
  find (TaskModel.matches tid owner) (tasks st) = Some t ->
  Server.PUT_task env st w authorization id reqBody
  = match TaskRoutes.validateUpdate reqBody with
    | (b, []) =>
        match TaskModel.save w st t (TaskRoutes.assignFields t b) with
        | Ok (saved, st') =>
            ({| status := 200;
                body := JObj [("message", JStr "Task updated successfully");
                              ("task", TaskModel.toJSON saved
                                         (TaskModel.ownerRef saved))] |},
             st')
        | Throw e => (respondToError env e, st)
        end
    | (_, (_ :: _) as errors) => (validationFailed errors, st)
    end.
Proof.
  intros Hgate Hu Hid Hfound.
  unfold Server.PUT_task, Server.protected. rewrite Hgate.
  unfold TaskRoutes.updateTask.
  destruct (TaskRoutes.validateUpdate reqBody) as [b [|e errors]];
    [|reflexivity].
  unfold TaskModel.findOne. rewrite Hid, Hu. simpl. rewrite Hfound.
  destruct (TaskModel.save w st t (TaskRoutes.assignFields t b))
    as [[saved st']|e] eqn:Hsave; [reflexivity|].
  apply save_throws in Hsave. destruct Hsave as [msgs ->]. reflexivity.
Qed.

(** Assigning the same body to the saved document changes nothing. *)
Lemma assignFields_again t b stamp :
  TaskRoutes.assignFields
    {| task_id := task_id (TaskRoutes.assignFields t b);
       title := title (TaskRoutes.assignFields t b);
       description := description (TaskRoutes.assignFields t b);
       completed := completed (TaskRoutes.assignFields t b);
       task_user := task_user (TaskRoutes.assignFields t b);
       createdAt := createdAt (TaskRoutes.assignFields t b);
       updatedAt := stamp |} b
  = {| task_id := task_id (TaskRoutes.assignFields t b);
       title := title (TaskRoutes.assignFields t b);
       description := description (TaskRoutes.assignFields t b);
       completed := completed (TaskRoutes.assignFields t b);
       task_user := task_user (TaskRoutes.assignFields t b);
       createdAt := createdAt (TaskRoutes.assignFields t b);
       updatedAt := stamp |}.
Proof. destruct b as [[v|] [d|] [c|]]; reflexivity. Qed.

End TaskRepeat.

(** A successful [PUT] is idempotent: sending the same request again,
    at any later moment at which the gate still passes, is answered with
    the very same response (the same [updatedAt] included) and leaves the
    store as the first request left it. *)
Theorem put_is_idempotent `{Packages}
    env st w w' authorization reqUser owner id tid t reqBody :
  Middleware.authenticate env st w authorization = Passed reqUser ->
  Middleware.authenticate env st w' authorization = Passed reqUser ->
  castObjectId (userId reqUser) = Some owner ->
  castObjectId id = Some tid ->
  NoDup (map task_id (tasks st)) ->
  In t (tasks st) -> task_id t = tid -> task_user t = owner ->
  status (fst (Server.PUT_task env st w authorization id reqBody)) = 200 ->
  Server.PUT_task env
    (snd (Server.PUT_task env st w authorization id reqBody))
    w' authorization id reqBody
  = Server.PUT_task env st w authorization id reqBody.
Proof.
  intros Hgate Hgate' Hu Hid Hnd Hin Htid Howner Hok.
  pose proof (owned_task_found st t tid owner Hnd Hin Htid Howner) as Hfound.
  pose proof (put_found_run env st w authorization reqUser owner id tid t reqBody
                Hgate Hu Hid Hfound) as Hfirst.
  rewrite Hfirst in Hok |- *.
  destruct (TaskRoutes.validateUpdate reqBody) as [b errors] eqn:Hval.
  destruct errors as [|e errors]; [|simpl in Hok; discriminate].
  destruct (assignFields_frame t b) as (Fid & Fuser & _).
  unfold TaskModel.save in Hok |- *.
  destruct (TaskModel.validationMessages (TaskRoutes.assignFields t b))
    eqn:Hmsgs; [|simpl in Hok; discriminate].
  destruct (TaskModel.task_eqb t (TaskRoutes.assignFields t b)) eqn:Hsame.
  - (* nothing was modified: the store is the one before *)
    cbn [snd].
    rewrite (put_found_run env st w' authorization reqUser owner id tid t reqBody
               Hgate' Hu Hid Hfound), Hval.
    unfold TaskModel.save. now rewrite Hmsgs, Hsame.
  - cbn [snd].
    set (saved := {| task_id := task_id (TaskRoutes.assignFields t b);
                     title := title (TaskRoutes.assignFields t b);
                     description := description (TaskRoutes.assignFields t b);
                     completed := completed (TaskRoutes.assignFields t b);
                     task_user := task_user (TaskRoutes.assignFields t b);
                     createdAt := createdAt (TaskRoutes.assignFields t b);
                     updatedAt := now w |}).
    set (st' := {| users := users st;
                   tasks := TaskModel.replaceById saved (tasks st) |}).
    assert (Hfound' : find (TaskModel.matches tid owner) (tasks st') = Some saved).
    { apply owned_task_found.
      - simpl. now rewrite replaceById_ids.
      - simpl. apply replaceById_puts. simpl. rewrite Fid.
        now apply in_map.
      - simpl. congruence.
      - simpl. congruence. }
    assert (Hgate'' : Middleware.authenticate env st' w' authorization
                      = Passed reqUser)
      by (now rewrite (gate_reads_users env st' st w' authorization eq_refl)).
    assert (Hmsgs' : TaskModel.validationMessages saved = [])
      by (exact Hmsgs).
    rewrite (put_found_run env st' w' authorization reqUser owner id tid saved
               reqBody Hgate'' Hu Hid Hfound'), Hval.
    unfold saved at 2. rewrite assignFields_again. fold saved.
    unfold TaskModel.save. now rewrite Hmsgs', task_eqb_refl.
Qed.

Lemma put_is_idempotent_witness :
  Server.PUT_task (H := Reference.packages) Scenario.env0
    (snd (Server.PUT_task (H := Reference.packages) Scenario.env0
            Scenario.store0 Scenario.issued
            (Scenario.bearer Scenario.aliceToken)
            "64b0000000000000000000a1"
            {| b_title := Some " Repot the plants "; b_description := None;
               b_completed := Some true |}))
    Scenario.later (Scenario.bearer Scenario.aliceToken)
    "64b0000000000000000000a1"
    {| b_title := Some " Repot the plants "; b_description := None;
       b_completed := Some true |}
  = Server.PUT_task (H := Reference.packages) Scenario.env0
      Scenario.store0 Scenario.issued
      (Scenario.bearer Scenario.aliceToken)
      "64b0000000000000000000a1"
      {| b_title := Some " Repot the plants "; b_description := None;
         b_completed := Some true |}.
Proof.
  apply (put_is_idempotent (H := Reference.packages)
           Scenario.env0 Scenario.store0 Scenario.issued Scenario.later
           (Scenario.bearer Scenario.aliceToken)
           {| userId := "64b000000000000000000001";
              user := UserModel.deselect Scenario.alice |}
           Scenario.aliceId
           "64b0000000000000000000a1" (OID "64b0000000000000000000a1")
           Scenario.aliceTask); by_evaluation.
Defined.

(** ** routes/tasks.js: when a task is created *)

Section TaskCreation.
Context `{Packages}.

Lemma str_or_trimmed d : trim (str_or (Some (trim d)) "") = trim d.
Proof.
  unfold str_or. destruct (String.eqb_spec (trim d) "") as [E|E].
  - rewrite E. apply trim_empty.
  - apply trim_idempotent.
Qed.

Lemma gtb_true_of_gt a b : ~ a <= b -> (a >? b) = true.
Proof. intros Hgt. rewrite Z.gtb_ltb. apply Z.ltb_lt. lia. Qed.

End TaskCreation.

(** Behind the gate, [POST /api/tasks] creates a task exactly when the
    validation chain and the schema both accept the body.  The chain
    wants a trimmed title that is non-empty and of at most 200 characters
    by the count of [isLength], and a trimmed description (if any) of at
    most 1000; the schema wants the same bounds on the [length] of the
    two strings.  Then the answer is 201 and one task is appended:
    trimmed title, trimmed description or the empty string, the given
    [completed] or [false], the caller as owner, both timestamps the
    current time.  When the chain refuses, the answer is its 400; when
    the chain accepts and the schema refuses, the answer is the 400 of
    the error middleware; either way the store is left as it was. *)
Theorem create_succeeds_iff_body_valid `{Packages}
    env st w authorization reqUser owner reqBody :
  Middleware.authenticate env st w authorization = Passed reqUser ->
  castObjectId (userId reqUser) = Some owner ->
  let title' := trim (match b_title reqBody with Some v => v | None => "" end) in
  let description' :=
    match b_description reqBody with Some d => trim d | None => "" end in
  let created :=
    {| task_id := newId w; title := title'; description := description';
       completed := match b_completed reqBody with Some c => c | None => false end;
       task_user := owner; createdAt := now w; updatedAt := now w |} in
  let st' := {| users := users st; tasks := (tasks st ++ [created])%list |} in
  let chainAccepts :=
    title' <> "" /\ charCount title' <= 200 /\ charCount description' <= 1000 in
  let schemaAccepts :=
    strLength title' <= 200 /\ strLength description' <= 1000 in
  (chainAccepts -> schemaAccepts ->
   Server.POST_tasks env st w authorization reqBody
   = ({| status := 201;
         body := JObj [("message", JStr "Task created successfully");
                       ("task", TaskModel.toJSON created
                                  (TaskModel.populateUser st' created))] |},
      st'))
  /\ (~ chainAccepts ->
      status (fst (Server.POST_tasks env st w authorization reqBody)) = 400
      /\ field "error" (body (fst (Server.POST_tasks env st w authorization reqBody)))
         = Some (JStr "Validation failed")
      /\ snd (Server.POST_tasks env st w authorization reqBody) = st)
  /\ (chainAccepts -> ~ schemaAccepts ->
      status (fst (Server.POST_tasks env st w authorization reqBody)) = 400
      /\ field "success" (body (fst (Server.POST_tasks env st w authorization reqBody)))
         = Some (JBool false)
      /\ snd (Server.POST_tasks env st w authorization reqBody) = st).
Proof.
  intros Hgate Hu title' description' created st' chainAccepts schemaAccepts.
  unfold Server.POST_tasks, Server.protected. rewrite Hgate.
  unfold TaskRoutes.createTask, TaskRoutes.validateCreate.
  fold title'. cbn [b_title b_description b_completed].
  assert (Hdesc' : trim (str_or (option_map trim (b_description reqBody)) "")
                   = description').
  { unfold description'. destruct (b_description reqBody) as [d|]; simpl.
    - apply str_or_trimmed.
    - apply trim_empty. }
  assert (Htt : trim title' = title') by apply trim_idempotent.
  assert (Hchain : chainAccepts ->
            ((if String.eqb title' ""
              then [{| fe_path := "title"; fe_msg := "Task title is required" |}]
              else [])
             ++ (if charCount title' >? 200
                 then [{| fe_path := "title";
                          fe_msg := "Task title cannot exceed 200 characters" |}]
                 else [])
             ++ match option_map trim (b_description reqBody) with
                | Some d =>
                    if charCount d >? 1000
                    then [{| fe_path := "description";
                             fe_msg := "Task description cannot exceed 1000 characters" |}]
                    else []
                | None => []
                end)%list = []).
  { intros (Hne & Hlen & Hdlen).
    rewrite (eqb_empty_false _ Hne), (gtb_false_of_le _ _ Hlen).
    unfold description' in Hdlen.
    destruct (b_description reqBody); simpl;
      [now rewrite (gtb_false_of_le _ _ Hdlen)|reflexivity]. }
  split; [|split].
  - intros Hc (Hlen & Hdlen). rewrite (Hchain Hc).
    destruct Hc as (Hne & _ & _).
    simpl. unfold TaskModel.createAndSave. rewrite Hu, Hdesc'.
    unfold TaskModel.validationMessages. simpl.
    now rewrite !Htt, (eqb_empty_false _ Hne), (gtb_false_of_le _ _ Hlen),
      (gtb_false_of_le _ _ Hdlen).
  - intros Hbad.
    assert (Herrors :
              exists e errors,
                ((if String.eqb title' ""
                  then [{| fe_path := "title"; fe_msg := "Task title is required" |}]
                  else [])
                 ++ (if charCount title' >? 200
                     then [{| fe_path := "title";
                              fe_msg := "Task title cannot exceed 200 characters" |}]
                     else [])
                 ++ match option_map trim (b_description reqBody) with
                    | Some d =>
                        if charCount d >? 1000
                        then [{| fe_path := "description";
                                 fe_msg := "Task description cannot exceed 1000 characters" |}]
                        else []
                    | None => []
                    end)%list = e :: errors).
    { destruct (String.eqb_spec title' "") as [E|E]; [simpl; eauto|].
      destruct (charCount title' >? 200) eqn:Hlen; [simpl; eauto|].
      simpl.
      destruct (charCount description' >? 1000) eqn:Hdlen.
      - unfold description' in Hdlen.
        destruct (b_description reqBody) as [d|]; simpl.
        + rewrite Hdlen. eauto.
        + rewrite charCount_empty in Hdlen. discriminate.
      - exfalso. apply Hbad. rewrite Z.gtb_ltb in Hlen, Hdlen.
        apply Z.ltb_ge in Hlen, Hdlen. unfold chainAccepts. auto. }
    destruct Herrors as (e & errors & ->). simpl. auto.
  - intros Hc Hbad. rewrite (Hchain Hc).
    destruct Hc as (Hne & _ & _).
    simpl. unfold TaskModel.createAndSave. rewrite Hu, Hdesc'.
    unfold TaskModel.validationMessages. simpl.
    rewrite !Htt, (eqb_empty_false _ Hne).
    destruct (Z_le_dec (strLength title') 200) as [Hlen|Hlen].
    + rewrite (gtb_false_of_le _ _ Hlen).
      destruct (Z_le_dec (strLength description') 1000) as [Hdlen|Hdlen].
      * exfalso. apply Hbad. split; assumption.
      * rewrite (gtb_true_of_gt _ _ Hdlen). repeat split; reflexivity.
    + rewrite (gtb_true_of_gt _ _ Hlen). repeat split; reflexivity.
Qed.

Lemma create_succeeds_iff_body_valid_witness :
  status (fst (Server.POST_tasks (H := Reference.packages) Scenario.env0
                 Scenario.store0 Scenario.later
                 (Scenario.bearer Scenario.aliceToken)
                 {| b_title := Some "   "; b_description := Some "not empty";
                    b_completed := Some true |})) = 400
  /\ snd (Server.POST_tasks (H := Reference.packages) Scenario.env0
            Scenario.store0 Scenario.later
            (Scenario.bearer Scenario.aliceToken)
            {| b_title := Some "   "; b_description := Some "not empty";
               b_completed := Some true |}) = Scenario.store0.
Proof.
  destruct (create_succeeds_iff_body_valid (H := Reference.packages)
              Scenario.env0 Scenario.store0 Scenario.later
              (Scenario.bearer Scenario.aliceToken)
              {| userId := "64b000000000000000000001";
                 user := UserModel.deselect Scenario.alice |}
              Scenario.aliceId
              {| b_title := Some "   "; b_description := Some "not empty";
                 b_completed := Some true |})
    as (_ & Hrefused & _); [by_evaluation .. | ].
  destruct Hrefused as (Hstatus & _ & Hstore).
  - intros (Hne & _). now apply Hne.
  - exact (conj Hstatus Hstore).
Defined.

(** ** routes/auth.js and models/User.js: registration and login *)

Section Accounts.
Context `{Packages}.

Lemma validateRegister_accepts reqBody :
  snd (AuthRoutes.validateRegister reqBody) = [] ->
  (charCount (trim (rb_username reqBody)) <? 3) = false
  /\ (charCount (trim (rb_username reqBody)) >? 30) = false
  /\ isEmail (rb_email reqBody) = true
  /\ (charCount (rb_password reqBody) <? 6) = false.
Proof.
  unfold AuthRoutes.validateRegister. cbn [snd].
  destruct (charCount (trim (rb_username reqBody)) <? 3);
    [discriminate|].
  destruct (charCount (trim (rb_username reqBody)) >? 30);
    [discriminate|].
  destruct (isEmail (rb_email reqBody)); [|discriminate].
  destruct (charCount (rb_password reqBody) <? 6); [discriminate|].
  auto.
Qed.

Lemma long_enough_not_empty s n :
  0 < n -> n <= strLength s -> String.eqb s "" = false.
Proof.
  intros Hn Hlen. apply String.eqb_neq. intros ->.
  rewrite strLength_empty in Hlen. lia.
Qed.

Lemma ltb_false_of_le a b : a <= b -> (b <? a) = false.
Proof. intros Hle. now apply Z.ltb_ge. Qed.

Lemma name_not_in_store (f : User -> string) k l :
  existsb (fun v => String.eqb (f v) k) l = false -> ~ In k (map f l).
Proof.
  intros Hno Hin. apply in_map_iff in Hin. destruct Hin as (v & Hv & Hin).
  assert (existsb (fun v => String.eqb (f v) k) l = true) as Hyes.
  { apply existsb_exists. exists v. split; [exact Hin|]. now apply String.eqb_eq. }
  congruence.
Qed.

Lemma name_in_store_iff (f : User -> string) k l :
  existsb (fun v => String.eqb (f v) k) l = false
  <-> forall v, In v l -> f v <> k.
Proof.
  split.
  - intros Hno v Hin Hv. apply (name_not_in_store f k l Hno).
    rewrite <- Hv. now apply in_map.
  - intros Hall. destruct (existsb _ l) eqn:Hyes; [|reflexivity].
    apply existsb_exists in Hyes. destruct Hyes as (v & Hin & Hv).
    apply String.eqb_eq in Hv. now elim (Hall v Hin).
Qed.

Lemma NoDup_snoc {A} (l : list A) (x : A) :
  NoDup l -> ~ In x l -> NoDup (l ++ [x]).
Proof.
  intros Hnd Hx. apply NoDup_app; [exact Hnd|repeat constructor; simpl; tauto|].
  intros y Hy [<-|[]]. contradiction.
Qed.

(** Every way [/register] can end. *)
Lemma register_cases env st w reqBody :
  (status (fst (AuthRoutes.register env st w reqBody)) = 400
   /\ snd (AuthRoutes.register env st w reqBody) = st)
  \/ exists u,
       AuthRoutes.register env st w reqBody
       = ({| status := 201;
             body := JObj [("message", JStr "User registered successfully");
                           ("token", JStr (AuthRoutes.generateToken env w (user_id u)));
                           ("user", AuthRoutes.projection u)] |},
          {| users := (users st ++ [u])%list; tasks := tasks st |})
       /\ u = UserModel.preSave w
                (UserModel.create w (trim (rb_username reqBody))
                   (normalizeEmail (rb_email reqBody)) (rb_password reqBody))
       /\ snd (AuthRoutes.validateRegister reqBody) = []
       /\ UserModel.findOneByEmailOrUsername st w
            (normalizeEmail (rb_email reqBody))
            (trim (rb_username reqBody)) = None
       /\ ~ In (username u) (map username (users st))
       /\ ~ In (email u) (map email (users st)).
Proof.
  unfold AuthRoutes.register.
  destruct (AuthRoutes.validateRegister reqBody) as [b errors] eqn:Hval.
  pose proof (validateRegister_body reqBody) as Hb.
  rewrite Hval in Hb. simpl in Hb. subst b. cbn [rb_username rb_email rb_password].
  destruct errors as [|e errors]; [|left; split; reflexivity].
  destruct (UserModel.findOneByEmailOrUsername st w _ _) eqn:Hfind;
    [left; split; reflexivity|].
  unfold UserModel.save.
  destruct (UserModel.validationMessages _); [|left; split; reflexivity].
  destruct (existsb (fun v => String.eqb (username v) _) (users st)) eqn:Hname;
    [left; split; reflexivity|].
  destruct (existsb (fun v => String.eqb (email v) _) (users st)) eqn:Haddr;
    [left; split; reflexivity|].
  right. eexists. split; [reflexivity|].
  split; [reflexivity|]. split; [reflexivity|]. split; [reflexivity|].
  split; [exact (name_not_in_store username _ _ Hname)
         |exact (name_not_in_store email _ _ Haddr)].
Qed.

(** Once the lookup of [/register] found nobody, the unique indexes have
    nothing to refuse: the new document's name and address are those the
    lookup asked for. *)
Lemma lookup_covers_indexes st w w0 e n p :
  UserModel.findOneByEmailOrUsername st w e n = None ->
  existsb (fun v => String.eqb (username v)
                      (username (UserModel.preSave w0 (UserModel.create w0 n e p))))
          (users st) = false
  /\ existsb (fun v => String.eqb (email v)
                         (email (UserModel.preSave w0 (UserModel.create w0 n e p))))
             (users st) = false.
Proof.
  intros Hnone. rewrite lookup_none_iff in Hnone.
  split; apply name_in_store_iff; intros v Hin; simpl;
    now destruct (Hnone v Hin).
Qed.

End Accounts.

(** [/register] answers 201 or 400 and nothing else.  On 400 the store
    is left as it was.  On 201 exactly one user is appended, holding the
    bcrypt digest of the password (not the password), with a name and an
    address no stored user had; tasks are never touched; and a store
    whose names and addresses are unique stays so. *)
Theorem register_outcomes `{Packages} env st w reqBody :
  NoDup (map username (users st)) ->
  NoDup (map email (users st)) ->
  let answer := Server.POST_register env st w reqBody in
  (status (fst answer) = 201 \/ status (fst answer) = 400)
  /\ (status (fst answer) = 400 -> snd answer = st)
  /\ (status (fst answer) = 201 ->
      exists u,
        users (snd answer) = (users st ++ [u])%list
        /\ user_id u = newId w
        /\ password u = Some (bcryptHash (rb_password reqBody) (salt w))
        /\ ~ In (username u) (map username (users st))
        /\ ~ In (email u) (map email (users st)))
  /\ tasks (snd answer) = tasks st
  /\ NoDup (map username (users (snd answer)))
  /\ NoDup (map email (users (snd answer))).
Proof.
  intros Hnames Haddrs answer. unfold answer, Server.POST_register.
  destruct (register_cases env st w reqBody)
    as [[Hstatus Hstore]|(u & Hreg & Hu & _ & _ & Hname & Haddr)].
  - rewrite Hstore, Hstatus. repeat split; auto; discriminate.
  - rewrite Hreg. cbn [fst snd status users tasks].
    split; [now left|]. split; [discriminate|]. split.
    + intros _. exists u. subst u. repeat split; auto.
    + split; [reflexivity|]. rewrite !map_app. simpl.
      split; now apply NoDup_snoc.
Qed.

Lemma register_outcomes_witness :
  status (fst (Server.POST_register (H := Reference.packages) Scenario.env0
                 Scenario.store0 Scenario.later
                 {| rb_username := " carol "; rb_email := "Carol@Example.com";
                    rb_password := "looking-glass" |})) = 201
  \/ status (fst (Server.POST_register (H := Reference.packages) Scenario.env0
                    Scenario.store0 Scenario.later
                    {| rb_username := " carol "; rb_email := "Carol@Example.com";
                       rb_password := "looking-glass" |})) = 400.
Proof.
  destruct (register_outcomes (H := Reference.packages) Scenario.env0
              Scenario.store0 Scenario.later
              {| rb_username := " carol "; rb_email := "Carol@Example.com";
                 rb_password := "looking-glass" |})
    as (Hstatus & _); [by_evaluation .. | exact Hstatus].
Defined.

(** [/login] answers 200, with a token, only when the address passed
    [isEmail], the password was a non-empty string, a stored user has the
    normalised address in the form the store holds, and bcrypt accepted
    the password against that user's stored digest; the token is the one
    issued for that user. *)
Theorem login_requires_accepted_password `{Packages} env st w reqBody :
  status (fst (Server.POST_login env st w reqBody)) = 200 ->
  exists u plain digest,
    In u (users st)
    /\ email u = toLowerCase (trim (normalizeEmail (lb_email reqBody)))
    /\ password u = Some digest
    /\ lb_password reqBody = JStr plain
    /\ bcryptCompare plain digest = true
    /\ isEmail (lb_email reqBody) = true
    /\ plain <> ""
    /\ fst (Server.POST_login env st w reqBody)
       = {| status := 200;
            body := JObj [("message", JStr "Login successful");
                          ("token", JStr (AuthRoutes.generateToken env w (user_id u)));
                          ("user", AuthRoutes.projection u)] |}.
Proof.
  unfold Server.POST_login. cbn [fst]. intros Hs.
  destruct (login_accepted env st w reqBody Hs)
    as (u & plain & digest & Hin & Hemail & Hplain & Hpw & Hcmp & Hlog).
  assert (Hchain : isEmail (lb_email reqBody) = true /\ plain <> "").
  { revert Hs. unfold AuthRoutes.login, AuthRoutes.validateLogin.
    cbn [lb_email lb_password]. rewrite Hplain. cbn [fieldText].
    destruct (isEmail (lb_email reqBody)); [|simpl; discriminate].
    destruct (String.eqb_spec plain "") as [E|E]; [simpl; discriminate|].
    auto. }
  destruct Hchain as [Hmail Hne].
  exists u, plain, digest. repeat (split; [assumption|]). exact Hlog.
Qed.

Lemma login_requires_accepted_password_witness :
  exists u digest,
    In u (users Scenario.store0)
    /\ password u = Some digest
    /\ Reference.compare "wonderland" digest = true.
Proof.
  destruct (login_requires_accepted_password (H := Reference.packages)
              Scenario.env0 Scenario.store0 Scenario.later
              {| lb_email := "Alice@Example.com";
                 lb_password := JStr "wonderland" |})
    as (u & plain & digest & Hin & _ & Hpw & Hplain & Hcmp & _);
    [by_evaluation|].
  exists u, digest. injection Hplain as <-. auto.
Defined.

(** After a 201 from [/register], a login with the same address and
    password is answered 200 with a token for the new user and the same
    user projection.  This needs of the packages that bcrypt accepts a
    password against its own digest. *)
Theorem register_then_login `{Packages} env st w w' reqBody :
  status (fst (Server.POST_register env st w reqBody)) = 201 ->
  bcryptCompare (rb_password reqBody)
    (bcryptHash (rb_password reqBody) (salt w)) = true ->
  exists u,
    field "user" (body (fst (Server.POST_register env st w reqBody)))
    = Some (AuthRoutes.projection u)
    /\ user_id u = newId w
    /\ Server.POST_login env
         (snd (Server.POST_register env st w reqBody)) w'
         {| lb_email := rb_email reqBody;
            lb_password := JStr (rb_password reqBody) |}
       = ({| status := 200;
             body := JObj [("message", JStr "Login successful");
                           ("token", JStr (AuthRoutes.generateToken env w' (user_id u)));
                           ("user", AuthRoutes.projection u)] |},
          snd (Server.POST_register env st w reqBody)).
Proof.
  unfold Server.POST_register. intros Hcreated Hbcrypt.
  destruct (register_cases env st w reqBody)
    as [[Hstatus _]|(u & Hreg & Hu & Hvalid & Hnone & _ & _)];
    [rewrite Hstatus in Hcreated; discriminate|].
  rewrite Hreg. cbn [fst snd body].
  destruct (validateRegister_accepts reqBody Hvalid) as (_ & _ & Hmail & Hlong).
  assert (Hemail : email u = toLowerCase (trim (normalizeEmail (rb_email reqBody))))
    by (subst u; reflexivity).
  assert (Hpw : password u = Some (bcryptHash (rb_password reqBody) (salt w)))
    by (subst u; reflexivity).
  assert (Hid : user_id u = newId w) by (subst u; reflexivity).
  assert (Hfresh : rb_password reqBody <> "").
  { intros E. rewrite E, charCount_empty in Hlong. discriminate. }
  exists u. split; [reflexivity|]. split; [exact Hid|].
  unfold Server.POST_login. f_equal.
  unfold AuthRoutes.login, AuthRoutes.validateLogin.
  cbn [lb_email lb_password fieldText]. rewrite Hmail.
  rewrite (eqb_empty_false _ Hfresh). cbn [app].
  unfold UserModel.findOneByEmailWithPassword. cbn [users].
  rewrite filter_app.
  assert (filter (UserModel.emailIs (normalizeEmail (rb_email reqBody))) (users st)
          = []) as ->.
  { apply filter_nil_iff. intros v Hv.
    rewrite lookup_none_iff in Hnone. destruct (Hnone v Hv) as [Hne _].
    now apply String.eqb_neq. }
  simpl. unfold UserModel.emailIs at 1. rewrite Hemail, String.eqb_refl.
  rewrite pickOne_single.
  unfold UserModel.comparePassword. rewrite Hpw, Hbcrypt. reflexivity.
Qed.

Lemma register_then_login_witness :
  status (fst (Server.POST_login (H := Reference.packages) Scenario.env0
                 (snd (Server.POST_register (H := Reference.packages)
                         Scenario.env0 Scenario.store0 Scenario.issued
                         {| rb_username := " carol ";
                            rb_email := "Carol@Example.com";
                            rb_password := "looking-glass" |}))
                 Scenario.later
                 {| lb_email := "Carol@Example.com";
                    lb_password := JStr "looking-glass" |})) = 200.
Proof.
  destruct (register_then_login (H := Reference.packages) Scenario.env0
              Scenario.store0 Scenario.issued Scenario.later
              {| rb_username := " carol "; rb_email := "Carol@Example.com";
                 rb_password := "looking-glass" |})
    as (u & _ & _ & Hlogin); [by_evaluation .. | ].
  cbn [rb_email rb_password] in Hlogin. rewrite Hlogin. reflexivity.
Defined.

(** A registration that passes express-validator and collides with no
    stored user, with a name and a password whose [length] the schema
    accepts, is still refused when the pattern of the User schema does
    not match the address in its stored form: [save()] throws a
    ValidationError, the error middleware answers 400 with the schema's
    message, and nothing is stored. *)
Theorem register_schema_refusal `{Packages} env st w reqBody :
  snd (AuthRoutes.validateRegister reqBody) = [] ->
  UserModel.findOneByEmailOrUsername st w
    (normalizeEmail (rb_email reqBody)) (trim (rb_username reqBody))
  = None ->
  3 <= strLength (trim (rb_username reqBody)) <= 30 ->
  6 <= strLength (rb_password reqBody) ->
  toLowerCase (trim (normalizeEmail (rb_email reqBody))) <> "" ->
  matchesEmailPattern
    (toLowerCase (trim (normalizeEmail (rb_email reqBody)))) = false ->
  Server.POST_register env st w reqBody
  = (respondToError env
       (ValidationError "User" ["Please provide a valid email address"]), st)
  /\ status (fst (Server.POST_register env st w reqBody)) = 400
  /\ field "error" (body (fst (Server.POST_register env st w reqBody)))
     = Some (JStr "Please provide a valid email address").
Proof.
  intros Hvalid Hnone [Hshort Hlong] Hpw Hne Hpattern.
  assert (Hrun : Server.POST_register env st w reqBody
                 = (respondToError env
                      (ValidationError "User"
                         ["Please provide a valid email address"]), st)).
  { unfold Server.POST_register, AuthRoutes.register.
    destruct (AuthRoutes.validateRegister reqBody) as [b errors] eqn:Hval.
    pose proof (validateRegister_body reqBody) as Hb.
    rewrite Hval in Hb. simpl in Hb, Hvalid. subst b errors.
    cbn [rb_username rb_email rb_password]. rewrite Hnone.
    unfold UserModel.save, UserModel.validationMessages, UserModel.create.
    cbn [username email password].
    rewrite trim_idempotent.
    rewrite (long_enough_not_empty _ 3 ltac:(lia) Hshort).
    rewrite (ltb_false_of_le _ _ Hshort), (gtb_false_of_le _ _ Hlong).
    rewrite (eqb_empty_false _ Hne), Hpattern.
    rewrite (long_enough_not_empty _ 6 ltac:(lia) Hpw).
    rewrite (ltb_false_of_le _ _ Hpw).
    reflexivity. }
  rewrite Hrun. repeat split; reflexivity.
Qed.

Lemma register_schema_refusal_witness :
  Server.POST_register (H := StrictSchema.packages) Scenario.env0
    Scenario.store0 Scenario.later
    {| rb_username := "carol"; rb_email := "carol+todo@example.com";
       rb_password := "looking-glass" |}
  = ({| status := 400;
        body := JObj [("success", JBool false);
                      ("error", JStr "Please provide a valid email address")] |},
     Scenario.store0).
Proof.
  destruct (register_schema_refusal (H := StrictSchema.packages) Scenario.env0
              Scenario.store0 Scenario.later
              {| rb_username := "carol"; rb_email := "carol+todo@example.com";
                 rb_password := "looking-glass" |})
    as (Hrun & _); [by_evaluation .. | exact Hrun].
Defined.

(** ** Reading after an update; tokens of removed users; status codes *)

Section AfterUpdate.
Context `{Packages}.

(** After a 200 from [PUT], the task of the answer is stored, under the
    same identity and owner, in a store that still has unique
    identities and the same users. *)
Lemma put_saved_is_stored env st w authorization reqUser owner id tid t reqBody :
  Middleware.authenticate env st w authorization = Passed reqUser ->
  castObjectId (userId reqUser) = Some owner ->
  castObjectId id = Some tid ->
  NoDup (map task_id (tasks st)) ->
  In t (tasks st) -> task_id t = tid -> task_user t = owner ->
  status (fst (Server.PUT_task env st w authorization id reqBody)) = 200 ->
  exists saved,
    fst (Server.PUT_task env st w authorization id reqBody)
    = {| status := 200;
         body := JObj [("message", JStr "Task updated successfully");
                       ("task", TaskModel.toJSON saved (TaskModel.ownerRef saved))] |}
    /\ In saved (tasks (snd (Server.PUT_task env st w authorization id reqBody)))
    /\ task_id saved = tid /\ task_user saved = owner
    /\ NoDup (map task_id
                (tasks (snd (Server.PUT_task env st w authorization id reqBody))))
    /\ users (snd (Server.PUT_task env st w authorization id reqBody)) = users st.
Proof.
  intros Hgate Hu Hid Hnd Hin Htid Howner Hok.
  pose proof (owned_task_found st t tid owner Hnd Hin Htid Howner) as Hfound.
  rewrite (put_found_run env st w authorization reqUser owner id tid t reqBody
             Hgate Hu Hid Hfound) in Hok |- *.
  destruct (TaskRoutes.validateUpdate reqBody) as [b errors].
  destruct errors as [|e errors]; [|simpl in Hok; discriminate].
  destruct (assignFields_frame t b) as (Fid & Fuser & _).
  unfold TaskModel.save in Hok |- *.
  destruct (TaskModel.validationMessages (TaskRoutes.assignFields t b));
    [|simpl in Hok; discriminate].
  destruct (TaskModel.task_eqb t (TaskRoutes.assignFields t b)) eqn:Hsame.
  - apply task_eqb_eq in Hsame. rewrite <- Hsame.
    exists t. cbn [fst snd]. auto 10.
  - eexists. cbn [fst snd tasks users]. split; [reflexivity|].
    split; [|split; [|split; [|split]]]; cbn [task_id task_user].
    + apply replaceById_puts. cbn [task_id]. rewrite Fid. now apply in_map.
    + congruence.
    + congruence.
    + now rewrite replaceById_ids.
    + reflexivity.
Qed.

End AfterUpdate.

(** After a 200 from [PUT], a [GET] by the same caller lists the task
    as the [PUT] answered it, and lists no other task under that
    identity. *)
Theorem put_then_get_shows_update `{Packages}
    env st w w' authorization reqUser owner id tid t reqBody :
  Middleware.authenticate env st w authorization = Passed reqUser ->
  Middleware.authenticate env st w' authorization = Passed reqUser ->
  castObjectId (userId reqUser) = Some owner ->
  castObjectId id = Some tid ->
  NoDup (map task_id (tasks st)) ->
  In t (tasks st) -> task_id t = tid -> task_user t = owner ->
  status (fst (Server.PUT_task env st w authorization id reqBody)) = 200 ->
  exists saved found,
    field "task" (body (fst (Server.PUT_task env st w authorization id reqBody)))
    = Some (TaskModel.toJSON saved (TaskModel.ownerRef saved))
    /\ Server.GET_tasks env
         (snd (Server.PUT_task env st w authorization id reqBody))
         w' authorization
       = ({| status := 200;
             body := JObj [("message", JStr "Tasks retrieved successfully");
                           ("count", JNum (Z.of_nat (length found)));
                           ("tasks",
                            JArr (map (fun x => TaskModel.toJSON x (TaskModel.ownerRef x))
                                      found))] |},
          snd (Server.PUT_task env st w authorization id reqBody))
    /\ In saved found
    /\ (forall x, In x found -> task_id x = tid -> x = saved).
Proof.
  intros Hgate Hgate' Hu Hid Hnd Hin Htid Howner Hok.
  destruct (put_saved_is_stored env st w authorization reqUser owner id tid t
              reqBody Hgate Hu Hid Hnd Hin Htid Howner Hok)
    as (saved & Hanswer & Hstored & Sid & Suser & Hnd' & Husers).
  set (st' := snd (Server.PUT_task env st w authorization id reqBody)) in *.
  assert (Hgate'' : Middleware.authenticate env st' w' authorization
                    = Passed reqUser)
    by (now rewrite (gate_reads_users env st' st w' authorization Husers)).
  set (found := TaskModel.sortNewestFirst
                  (filter (fun x => oid_eqb (task_user x) owner) (tasks st'))).
  exists saved, found. rewrite Hanswer. split; [reflexivity|].
  split.
  { unfold Server.GET_tasks, Server.protected. rewrite Hgate''.
    unfold TaskRoutes.listTasks, TaskModel.findByUser. now rewrite Hu. }
  assert (Hmember : forall x, In x found <-> In x (tasks st') /\ task_user x = owner).
  { intros x. unfold found.
    rewrite sortNewestFirst_In, filter_In, oid_eqb_eq. tauto. }
  split.
  - apply Hmember. auto.
  - intros x Hx Hxid. apply Hmember in Hx. destruct Hx as [Hx _].
    apply (unique_key task_id (tasks st')); congruence.
Qed.

Lemma put_then_get_shows_update_witness :
  exists found,
    fst (Server.GET_tasks (H := Reference.packages) Scenario.env0
           (snd (Server.PUT_task (H := Reference.packages) Scenario.env0
                   Scenario.store0 Scenario.issued
                   (Scenario.bearer Scenario.aliceToken)
                   "64b0000000000000000000a1"
                   {| b_title := Some " Repot the plants ";
                      b_description := None; b_completed := Some true |}))
           Scenario.later (Scenario.bearer Scenario.aliceToken))
    = {| status := 200;
         body := JObj [("message", JStr "Tasks retrieved successfully");
                       ("count", JNum (Z.of_nat (length found)));
                       ("tasks",
                        JArr (map (fun x => TaskModel.toJSON x (TaskModel.ownerRef x))
                                  found))] |}
    /\ exists saved, In saved found /\ task_id saved = OID "64b0000000000000000000a1".
Proof.
  destruct (put_then_get_shows_update (H := Reference.packages)
              Scenario.env0 Scenario.store0 Scenario.issued Scenario.later
              (Scenario.bearer Scenario.aliceToken)
              {| userId := "64b000000000000000000001";
                 user := UserModel.deselect Scenario.alice |}
              Scenario.aliceId
              "64b0000000000000000000a1" (OID "64b0000000000000000000a1")
              Scenario.aliceTask
              {| b_title := Some " Repot the plants "; b_description := None;
                 b_completed := Some true |})
    as (saved & found & Htask & Hget & Hin & _); [by_evaluation .. | ].
  exists found. split; [now rewrite Hget|].
  exists saved. split; [exact Hin|].
  vm_compute in Htask. injection Htask as Hid _ _ _ _ _ _.
  destruct saved as [[i] ? ? ? ? ? ?]. simpl in *. now subst.
Defined.

(** A token issued for a user who is no longer stored is answered 401
    [User no longer exists] on each task route, although it verifies and
    is not expired; the handler does not run and the store is left as it
    was.  The compact serialisation is assumed to parse back and to be
    non-empty, the identity to be in the form the cast accepts. *)
Theorem token_of_removed_user_rejected `{Packages}
    env st w w' uid id reqBody :
  (forall t, jwtDecode (jwtEncode t) = Some t) ->
  (forall t, jwtEncode t <> "") ->
  castObjectId (toHexString uid) = Some uid ->
  (forall u, In u (users st) -> user_id u <> uid) ->
  jwt.timestamp (now w') < jwt.timestamp (now w) + jwt.sevenDays ->
  let authorization := Some ("Bearer " ++ AuthRoutes.generateToken env w uid) in
  Server.GET_tasks env st w' authorization = (Middleware.userGone, st)
  /\ Server.POST_tasks env st w' authorization reqBody = (Middleware.userGone, st)
  /\ Server.PUT_task env st w' authorization id reqBody = (Middleware.userGone, st)
  /\ Server.DELETE_task env st w' authorization id = (Middleware.userGone, st)
  /\ status Middleware.userGone = 401.
Proof.
  intros Hcodec Hne Hcast Hgone Hwin authorization.
  assert (Hgate : Middleware.authenticate env st w' authorization
                  = Rejected Middleware.userGone).
  { unfold authorization. rewrite gate_on_bearer.
    set (payload := {| jwt_userId := toHexString uid;
                       jwt_iat := jwt.timestamp (now w);
                       jwt_exp := Some (jwt.timestamp (now w) + jwt.sevenDays) |}).
    set (t := {| jwt_payload := payload;
                 jwt_signature := hmacSign (AuthRoutes.JWT_SECRET env) payload |}).
    change (AuthRoutes.generateToken env w uid) with (jwtEncode t).
    rewrite (verify_valid (jwtEncode t) (Middleware.JWT_SECRET env) (now w') t
               (jwt.timestamp (now w) + jwt.sevenDays)
               (Hne t) (Hcodec t) eq_refl eq_refl Hwin).
    simpl. unfold UserModel.findById. rewrite Hcast.
    assert (find (fun u => oid_eqb (user_id u) uid) (users st) = None) as ->.
    { apply find_none_iff. intros u Hu. apply oid_eqb_neq. now apply Hgone. }
    reflexivity. }
  unfold Server.GET_tasks, Server.POST_tasks, Server.PUT_task,
    Server.DELETE_task, Server.protected.
  rewrite Hgate. repeat split; reflexivity.
Qed.

Lemma token_of_removed_user_rejected_witness :
  Server.GET_tasks (H := Reference.packages) Scenario.env0
    {| users := [Scenario.bob]; tasks := tasks Scenario.store0 |}
    Scenario.later (Some ("Bearer " ++ Scenario.aliceToken))
  = (Middleware.userGone,
     {| users := [Scenario.bob]; tasks := tasks Scenario.store0 |}).
Proof.
  destruct (token_of_removed_user_rejected (H := Reference.packages)
              Scenario.env0
              {| users := [Scenario.bob]; tasks := tasks Scenario.store0 |}
              Scenario.issued Scenario.later Scenario.aliceId
              "64b0000000000000000000a1" emptyBody
              reference_decode_encode reference_encode_nonempty)
    as (Hget & _); [by_evaluation .. | exact Hget].
Defined.

(** Behind a passing gate the task routes answer with these status codes
    only: [POST] 201 or 400, [GET] 200, [PUT] and [DELETE] 200, 400 or
    404. *)
Theorem task_route_statuses `{Packages}
    env st w authorization reqUser id reqBody :
  Middleware.authenticate env st w authorization = Passed reqUser ->
  (status (fst (Server.POST_tasks env st w authorization reqBody)) = 201
   \/ status (fst (Server.POST_tasks env st w authorization reqBody)) = 400)
  /\ status (fst (Server.GET_tasks env st w authorization)) = 200
  /\ (status (fst (Server.PUT_task env st w authorization id reqBody)) = 200
      \/ status (fst (Server.PUT_task env st w authorization id reqBody)) = 400
      \/ status (fst (Server.PUT_task env st w authorization id reqBody)) = 404)
  /\ (status (fst (Server.DELETE_task env st w authorization id)) = 200
      \/ status (fst (Server.DELETE_task env st w authorization id)) = 400
      \/ status (fst (Server.DELETE_task env st w authorization id)) = 404).
Proof.
  intros Hgate.
  destruct (gate_passed_inv env st w authorization reqUser Hgate)
    as (owner & u & Hu & _).
  unfold Server.POST_tasks, Server.GET_tasks, Server.PUT_task,
    Server.DELETE_task, Server.protected.
  rewrite Hgate. split; [|split; [|split]].
  - unfold TaskRoutes.createTask.
    destruct (TaskRoutes.validateCreate reqBody) as [b [|e errors]];
      [|now right].
    unfold TaskModel.createAndSave. rewrite Hu.
    destruct (TaskModel.validationMessages _); simpl; [now left|now right].
  - unfold TaskRoutes.listTasks, TaskModel.findByUser. now rewrite Hu.
  - unfold TaskRoutes.updateTask.
    destruct (TaskRoutes.validateUpdate reqBody) as [b [|e errors]];
      [|now right; left].
    unfold TaskModel.findOne. rewrite Hu.
    destruct (castObjectId id); simpl; [|now right; left].
    destruct (find _ (tasks st)) as [task|]; [|now right; right].
    unfold TaskModel.save.
    destruct (TaskModel.validationMessages _); simpl; [|now right; left].
    destruct (TaskModel.task_eqb _ _); simpl; now left.
  - unfold TaskRoutes.deleteTask, TaskModel.findOneAndDelete. rewrite Hu.
    destruct (castObjectId id); simpl; [|now right; left].
    destruct (find _ (tasks st)); simpl; [now left|now right; right].
Qed.

Lemma task_route_statuses_witness :
  status (fst (Server.GET_tasks (H := Reference.packages) Scenario.env0
                 Scenario.store0 Scenario.later
                 (Scenario.bearer Scenario.aliceToken))) = 200.
Proof.
  destruct (task_route_statuses (H := Reference.packages)
              Scenario.env0 Scenario.store0 Scenario.later
              (Scenario.bearer Scenario.aliceToken)
              {| userId := "64b000000000000000000001";
                 user := UserModel.deselect Scenario.alice |}
              "64b0000000000000000000a1" emptyBody)
    as (_ & Hget & _); [by_evaluation | exact Hget].
Defined.

(** Whatever the request, [/register] ends in one of four ways: the 400
    [Validation failed] of the chain, the 400 [User already exists] for a
    stored user the lookup returned, the 400 of the error middleware for
    a refusal of the schema, or 201.  The duplicate-key answer of the
    error middleware is not among them: once the lookup has found nobody,
    no stored user has the name or the address of the new document, so
    the unique indexes have nothing to refuse in a run where nothing else
    writes between the lookup and the insert. *)
Theorem register_never_hits_unique_index `{Packages} env st w reqBody :
  ((exists errors,
       errors <> []
       /\ fst (Server.POST_register env st w reqBody) = validationFailed errors)
   \/ (exists found,
         In found (users st)
         /\ fst (Server.POST_register env st w reqBody)
            = AuthRoutes.alreadyExists found (normalizeEmail (rb_email reqBody)))
   \/ (exists msgs,
         msgs <> []
         /\ fst (Server.POST_register env st w reqBody)
            = respondToError env (ValidationError "User" msgs))
   \/ status (fst (Server.POST_register env st w reqBody)) = 201)
  /\ (forall e n p key value,
        UserModel.findOneByEmailOrUsername st w e n = None ->
        UserModel.save w st (UserModel.create w n e p)
        <> Throw (DuplicateKeyError key value)).
Proof.
  split.
  - unfold Server.POST_register, AuthRoutes.register.
    destruct (AuthRoutes.validateRegister reqBody) as [b errors] eqn:Hval.
    pose proof (validateRegister_body reqBody) as Hb.
    rewrite Hval in Hb. simpl in Hb. subst b.
    cbn [rb_username rb_email rb_password].
    destruct errors as [|e errors];
      [|left; exists (e :: errors); split; [discriminate|reflexivity]].
    destruct (UserModel.findOneByEmailOrUsername st w _ _) as [found|] eqn:Hfind.
    + right; left.
      unfold UserModel.findOneByEmailOrUsername in Hfind.
      destruct (pickOne w _) as [stored|] eqn:Hpick; [|discriminate].
      apply pickOne_In, filter_In in Hpick. destruct Hpick as [Hin _].
      injection Hfind as <-. exists stored. split; [exact Hin|reflexivity].
    + destruct (lookup_covers_indexes st w w _ _ (rb_password reqBody) Hfind)
        as [Hname Haddr].
      unfold UserModel.save.
      destruct (UserModel.validationMessages _) as [|m msgs].
      * rewrite Hname, Haddr. right; right; right. reflexivity.
      * right; right; left. exists (m :: msgs).
        split; [discriminate|reflexivity].
  - intros e n p key value Hnone.
    destruct (lookup_covers_indexes st w w e n p Hnone) as [Hname Haddr].
    unfold UserModel.save.
    destruct (UserModel.validationMessages _); [|discriminate].
    rewrite Hname, Haddr. discriminate.
Qed.

Lemma register_never_hits_unique_index_witness :
  UserModel.save (H := Reference.packages) Scenario.later Scenario.store0
    (UserModel.create (H := Reference.packages) Scenario.later
       "alicia" "Alice2@example.com" "looking-glass")
  <> Throw (DuplicateKeyError "email" "alice2@example.com").
Proof.
  destruct (register_never_hits_unique_index (H := Reference.packages)
              Scenario.env0 Scenario.store0 Scenario.later
              {| rb_username := "alicia"; rb_email := "Alice2@example.com";
                 rb_password := "looking-glass" |})
    as (_ & Hsave).
  apply Hsave. by_evaluation.
Defined.
